(** * Perception-Data-Extraction: the CSV column filter and its text cleaner

    A shallow embedding of [src/questionnaire.py] and [src/task_data.py].
    Both scripts read a CSV export, keep a fixed list of column indices,
    clean the text of every kept data cell ([_clean_text]) and write the
    result; [task_data.py] first samples the data rows by runs of a
    repeated value in column 51 (spreadsheet column AZ).

    Conventions of the embedding:
    - a Python [str] is a list of Unicode code points ([list N]);
    - the Unicode character database that [str.isdigit], [str.isprintable],
      [unicodedata.normalize] and the [re] module consult is the one of
      Unicode 14.0.0, transcribed below as range tables;
    - a computation that may raise is a value of [outcome]; a [while] loop
      runs on fuel and the theorems show that the fuel given is enough;
    - a CSV file is what [csv.reader] yields from it: the rows, and the
      exception that ends the reading when it does not come to the end of
      the file; the rows are those that [csv.writer] wrote when the file
      was written here;
    - the file system is a finite map from paths to such files and the set
      of the directories that exist; [open] raises [FileNotFoundError] for
      a file that is not there to be read, or cannot be created for want of
      its directory; standard output is a list of printed lines. *)

From Stdlib Require Import Ascii.
From stdpp Require Import gmap strings list.

Set Default Proof Using "Type".

(** ** Code points and strings *)

(** A character is its code point, a [str] the list of its characters. *)
Abbreviation char := N (only parsing).
Abbreviation str := (list N) (only parsing).

(** [in_ranges c rs]: [c] lies in one of the inclusive ranges [rs]. *)
Definition in_ranges (c : char) (rs : list (N * N)) : bool :=
  existsb (λ r, (fst r <=? c)%N && (c <=? snd r)%N) rs.

(** The code points of an ASCII literal. *)
Fixpoint py (s : string) : str :=
  match s with
  | EmptyString => []
  | String a s' => N_of_ascii a :: py s'
  end.

(** ** The Unicode character database (Unicode 14.0.0) *)

Module Unicode.

(** Inclusive code-point ranges on which [str.isprintable] holds (every
    general category except Cc, Cf, Cs, Co, Cn, Zl, Zp and Zs, plus U+0020). *)
Definition printable_ranges : list (N * N) := [
  (0x20, 0x7E); (0xA1, 0xAC); (0xAE, 0x377); (0x37A, 0x37F); (0x384, 0x38A); (0x38C, 0x38C);
  (0x38E, 0x3A1); (0x3A3, 0x52F); (0x531, 0x556); (0x559, 0x58A); (0x58D, 0x58F);
  (0x591, 0x5C7); (0x5D0, 0x5EA); (0x5EF, 0x5F4); (0x606, 0x61B); (0x61D, 0x6DC);
  (0x6DE, 0x70D); (0x710, 0x74A); (0x74D, 0x7B1); (0x7C0, 0x7FA); (0x7FD, 0x82D);
  (0x830, 0x83E); (0x840, 0x85B); (0x85E, 0x85E); (0x860, 0x86A); (0x870, 0x88E);
  (0x898, 0x8E1); (0x8E3, 0x983); (0x985, 0x98C); (0x98F, 0x990); (0x993, 0x9A8);
  (0x9AA, 0x9B0); (0x9B2, 0x9B2); (0x9B6, 0x9B9); (0x9BC, 0x9C4); (0x9C7, 0x9C8);
  (0x9CB, 0x9CE); (0x9D7, 0x9D7); (0x9DC, 0x9DD); (0x9DF, 0x9E3); (0x9E6, 0x9FE);
  (0xA01, 0xA03); (0xA05, 0xA0A); (0xA0F, 0xA10); (0xA13, 0xA28); (0xA2A, 0xA30);
  (0xA32, 0xA33); (0xA35, 0xA36); (0xA38, 0xA39); (0xA3C, 0xA3C); (0xA3E, 0xA42);
  (0xA47, 0xA48); (0xA4B, 0xA4D); (0xA51, 0xA51); (0xA59, 0xA5C); (0xA5E, 0xA5E);
  (0xA66, 0xA76); (0xA81, 0xA83); (0xA85, 0xA8D); (0xA8F, 0xA91); (0xA93, 0xAA8);
  (0xAAA, 0xAB0); (0xAB2, 0xAB3); (0xAB5, 0xAB9); (0xABC, 0xAC5); (0xAC7, 0xAC9);
  (0xACB, 0xACD); (0xAD0, 0xAD0); (0xAE0, 0xAE3); (0xAE6, 0xAF1); (0xAF9, 0xAFF);
  (0xB01, 0xB03); (0xB05, 0xB0C); (0xB0F, 0xB10); (0xB13, 0xB28); (0xB2A, 0xB30);
  (0xB32, 0xB33); (0xB35, 0xB39); (0xB3C, 0xB44); (0xB47, 0xB48); (0xB4B, 0xB4D);
  (0xB55, 0xB57); (0xB5C, 0xB5D); (0xB5F, 0xB63); (0xB66, 0xB77); (0xB82, 0xB83);
  (0xB85, 0xB8A); (0xB8E, 0xB90); (0xB92, 0xB95); (0xB99, 0xB9A); (0xB9C, 0xB9C);
  (0xB9E, 0xB9F); (0xBA3, 0xBA4); (0xBA8, 0xBAA); (0xBAE, 0xBB9); (0xBBE, 0xBC2);
  (0xBC6, 0xBC8); (0xBCA, 0xBCD); (0xBD0, 0xBD0); (0xBD7, 0xBD7); (0xBE6, 0xBFA);
  (0xC00, 0xC0C); (0xC0E, 0xC10); (0xC12, 0xC28); (0xC2A, 0xC39); (0xC3C, 0xC44);
  (0xC46, 0xC48); (0xC4A, 0xC4D); (0xC55, 0xC56); (0xC58, 0xC5A); (0xC5D, 0xC5D);
  (0xC60, 0xC63); (0xC66, 0xC6F); (0xC77, 0xC8C); (0xC8E, 0xC90); (0xC92, 0xCA8);
  (0xCAA, 0xCB3); (0xCB5, 0xCB9); (0xCBC, 0xCC4); (0xCC6, 0xCC8); (0xCCA, 0xCCD);
  (0xCD5, 0xCD6); (0xCDD, 0xCDE); (0xCE0, 0xCE3); (0xCE6, 0xCEF); (0xCF1, 0xCF2);
  (0xD00, 0xD0C); (0xD0E, 0xD10); (0xD12, 0xD44); (0xD46, 0xD48); (0xD4A, 0xD4F);
  (0xD54, 0xD63); (0xD66, 0xD7F); (0xD81, 0xD83); (0xD85, 0xD96); (0xD9A, 0xDB1);
  (0xDB3, 0xDBB); (0xDBD, 0xDBD); (0xDC0, 0xDC6); (0xDCA, 0xDCA); (0xDCF, 0xDD4);
  (0xDD6, 0xDD6); (0xDD8, 0xDDF); (0xDE6, 0xDEF); (0xDF2, 0xDF4); (0xE01, 0xE3A);
  (0xE3F, 0xE5B); (0xE81, 0xE82); (0xE84, 0xE84); (0xE86, 0xE8A); (0xE8C, 0xEA3);
  (0xEA5, 0xEA5); (0xEA7, 0xEBD); (0xEC0, 0xEC4); (0xEC6, 0xEC6); (0xEC8, 0xECD);
  (0xED0, 0xED9); (0xEDC, 0xEDF); (0xF00, 0xF47); (0xF49, 0xF6C); (0xF71, 0xF97);
  (0xF99, 0xFBC); (0xFBE, 0xFCC); (0xFCE, 0xFDA); (0x1000, 0x10C5); (0x10C7, 0x10C7);
  (0x10CD, 0x10CD); (0x10D0, 0x1248); (0x124A, 0x124D); (0x1250, 0x1256); (0x1258, 0x1258);
  (0x125A, 0x125D); (0x1260, 0x1288); (0x128A, 0x128D); (0x1290, 0x12B0); (0x12B2, 0x12B5);
  (0x12B8, 0x12BE); (0x12C0, 0x12C0); (0x12C2, 0x12C5); (0x12C8, 0x12D6); (0x12D8, 0x1310);
  (0x1312, 0x1315); (0x1318, 0x135A); (0x135D, 0x137C); (0x1380, 0x1399); (0x13A0, 0x13F5);
  (0x13F8, 0x13FD); (0x1400, 0x167F); (0x1681, 0x169C); (0x16A0, 0x16F8); (0x1700, 0x1715);
  (0x171F, 0x1736); (0x1740, 0x1753); (0x1760, 0x176C); (0x176E, 0x1770); (0x1772, 0x1773);
  (0x1780, 0x17DD); (0x17E0, 0x17E9); (0x17F0, 0x17F9); (0x1800, 0x180D); (0x180F, 0x1819);
  (0x1820, 0x1878); (0x1880, 0x18AA); (0x18B0, 0x18F5); (0x1900, 0x191E); (0x1920, 0x192B);
  (0x1930, 0x193B); (0x1940, 0x1940); (0x1944, 0x196D); (0x1970, 0x1974); (0x1980, 0x19AB);
  (0x19B0, 0x19C9); (0x19D0, 0x19DA); (0x19DE, 0x1A1B); (0x1A1E, 0x1A5E); (0x1A60, 0x1A7C);
  (0x1A7F, 0x1A89); (0x1A90, 0x1A99); (0x1AA0, 0x1AAD); (0x1AB0, 0x1ACE); (0x1B00, 0x1B4C);
  (0x1B50, 0x1B7E); (0x1B80, 0x1BF3); (0x1BFC, 0x1C37); (0x1C3B, 0x1C49); (0x1C4D, 0x1C88);
  (0x1C90, 0x1CBA); (0x1CBD, 0x1CC7); (0x1CD0, 0x1CFA); (0x1D00, 0x1F15); (0x1F18, 0x1F1D);
  (0x1F20, 0x1F45); (0x1F48, 0x1F4D); (0x1F50, 0x1F57); (0x1F59, 0x1F59); (0x1F5B, 0x1F5B);
  (0x1F5D, 0x1F5D); (0x1F5F, 0x1F7D); (0x1F80, 0x1FB4); (0x1FB6, 0x1FC4); (0x1FC6, 0x1FD3);
  (0x1FD6, 0x1FDB); (0x1FDD, 0x1FEF); (0x1FF2, 0x1FF4); (0x1FF6, 0x1FFE); (0x2010, 0x2027);
  (0x2030, 0x205E); (0x2070, 0x2071); (0x2074, 0x208E); (0x2090, 0x209C); (0x20A0, 0x20C0);
  (0x20D0, 0x20F0); (0x2100, 0x218B); (0x2190, 0x2426); (0x2440, 0x244A); (0x2460, 0x2B73);
  (0x2B76, 0x2B95); (0x2B97, 0x2CF3); (0x2CF9, 0x2D25); (0x2D27, 0x2D27); (0x2D2D, 0x2D2D);
  (0x2D30, 0x2D67); (0x2D6F, 0x2D70); (0x2D7F, 0x2D96); (0x2DA0, 0x2DA6); (0x2DA8, 0x2DAE);
  (0x2DB0, 0x2DB6); (0x2DB8, 0x2DBE); (0x2DC0, 0x2DC6); (0x2DC8, 0x2DCE); (0x2DD0, 0x2DD6);
  (0x2DD8, 0x2DDE); (0x2DE0, 0x2E5D); (0x2E80, 0x2E99); (0x2E9B, 0x2EF3); (0x2F00, 0x2FD5);
  (0x2FF0, 0x2FFB); (0x3001, 0x303F); (0x3041, 0x3096); (0x3099, 0x30FF); (0x3105, 0x312F);
  (0x3131, 0x318E); (0x3190, 0x31E3); (0x31F0, 0x321E); (0x3220, 0xA48C); (0xA490, 0xA4C6);
  (0xA4D0, 0xA62B); (0xA640, 0xA6F7); (0xA700, 0xA7CA); (0xA7D0, 0xA7D1); (0xA7D3, 0xA7D3);
  (0xA7D5, 0xA7D9); (0xA7F2, 0xA82C); (0xA830, 0xA839); (0xA840, 0xA877); (0xA880, 0xA8C5);
  (0xA8CE, 0xA8D9); (0xA8E0, 0xA953); (0xA95F, 0xA97C); (0xA980, 0xA9CD); (0xA9CF, 0xA9D9);
  (0xA9DE, 0xA9FE); (0xAA00, 0xAA36); (0xAA40, 0xAA4D); (0xAA50, 0xAA59); (0xAA5C, 0xAAC2);
  (0xAADB, 0xAAF6); (0xAB01, 0xAB06); (0xAB09, 0xAB0E); (0xAB11, 0xAB16); (0xAB20, 0xAB26);
  (0xAB28, 0xAB2E); (0xAB30, 0xAB6B); (0xAB70, 0xABED); (0xABF0, 0xABF9); (0xAC00, 0xD7A3);
  (0xD7B0, 0xD7C6); (0xD7CB, 0xD7FB); (0xF900, 0xFA6D); (0xFA70, 0xFAD9); (0xFB00, 0xFB06);
  (0xFB13, 0xFB17); (0xFB1D, 0xFB36); (0xFB38, 0xFB3C); (0xFB3E, 0xFB3E); (0xFB40, 0xFB41);
  (0xFB43, 0xFB44); (0xFB46, 0xFBC2); (0xFBD3, 0xFD8F); (0xFD92, 0xFDC7); (0xFDCF, 0xFDCF);
  (0xFDF0, 0xFE19); (0xFE20, 0xFE52); (0xFE54, 0xFE66); (0xFE68, 0xFE6B); (0xFE70, 0xFE74);
  (0xFE76, 0xFEFC); (0xFF01, 0xFFBE); (0xFFC2, 0xFFC7); (0xFFCA, 0xFFCF); (0xFFD2, 0xFFD7);
  (0xFFDA, 0xFFDC); (0xFFE0, 0xFFE6); (0xFFE8, 0xFFEE); (0xFFFC, 0xFFFD); (0x10000, 0x1000B);
  (0x1000D, 0x10026); (0x10028, 0x1003A); (0x1003C, 0x1003D); (0x1003F, 0x1004D);
  (0x10050, 0x1005D); (0x10080, 0x100FA); (0x10100, 0x10102); (0x10107, 0x10133);
  (0x10137, 0x1018E); (0x10190, 0x1019C); (0x101A0, 0x101A0); (0x101D0, 0x101FD);
  (0x10280, 0x1029C); (0x102A0, 0x102D0); (0x102E0, 0x102FB); (0x10300, 0x10323);
  (0x1032D, 0x1034A); (0x10350, 0x1037A); (0x10380, 0x1039D); (0x1039F, 0x103C3);
  (0x103C8, 0x103D5); (0x10400, 0x1049D); (0x104A0, 0x104A9); (0x104B0, 0x104D3);
  (0x104D8, 0x104FB); (0x10500, 0x10527); (0x10530, 0x10563); (0x1056F, 0x1057A);
  (0x1057C, 0x1058A); (0x1058C, 0x10592); (0x10594, 0x10595); (0x10597, 0x105A1);
  (0x105A3, 0x105B1); (0x105B3, 0x105B9); (0x105BB, 0x105BC); (0x10600, 0x10736);
  (0x10740, 0x10755); (0x10760, 0x10767); (0x10780, 0x10785); (0x10787, 0x107B0);
  (0x107B2, 0x107BA); (0x10800, 0x10805); (0x10808, 0x10808); (0x1080A, 0x10835);
  (0x10837, 0x10838); (0x1083C, 0x1083C); (0x1083F, 0x10855); (0x10857, 0x1089E);
  (0x108A7, 0x108AF); (0x108E0, 0x108F2); (0x108F4, 0x108F5); (0x108FB, 0x1091B);
  (0x1091F, 0x10939); (0x1093F, 0x1093F); (0x10980, 0x109B7); (0x109BC, 0x109CF);
  (0x109D2, 0x10A03); (0x10A05, 0x10A06); (0x10A0C, 0x10A13); (0x10A15, 0x10A17);
  (0x10A19, 0x10A35); (0x10A38, 0x10A3A); (0x10A3F, 0x10A48); (0x10A50, 0x10A58);
  (0x10A60, 0x10A9F); (0x10AC0, 0x10AE6); (0x10AEB, 0x10AF6); (0x10B00, 0x10B35);
  (0x10B39, 0x10B55); (0x10B58, 0x10B72); (0x10B78, 0x10B91); (0x10B99, 0x10B9C);
  (0x10BA9, 0x10BAF); (0x10C00, 0x10C48); (0x10C80, 0x10CB2); (0x10CC0, 0x10CF2);
  (0x10CFA, 0x10D27); (0x10D30, 0x10D39); (0x10E60, 0x10E7E); (0x10E80, 0x10EA9);
  (0x10EAB, 0x10EAD); (0x10EB0, 0x10EB1); (0x10F00, 0x10F27); (0x10F30, 0x10F59);
  (0x10F70, 0x10F89); (0x10FB0, 0x10FCB); (0x10FE0, 0x10FF6); (0x11000, 0x1104D);
  (0x11052, 0x11075); (0x1107F, 0x110BC); (0x110BE, 0x110C2); (0x110D0, 0x110E8);
  (0x110F0, 0x110F9); (0x11100, 0x11134); (0x11136, 0x11147); (0x11150, 0x11176);
  (0x11180, 0x111DF); (0x111E1, 0x111F4); (0x11200, 0x11211); (0x11213, 0x1123E);
  (0x11280, 0x11286); (0x11288, 0x11288); (0x1128A, 0x1128D); (0x1128F, 0x1129D);
  (0x1129F, 0x112A9); (0x112B0, 0x112EA); (0x112F0, 0x112F9); (0x11300, 0x11303);
  (0x11305, 0x1130C); (0x1130F, 0x11310); (0x11313, 0x11328); (0x1132A, 0x11330);
  (0x11332, 0x11333); (0x11335, 0x11339); (0x1133B, 0x11344); (0x11347, 0x11348);
  (0x1134B, 0x1134D); (0x11350, 0x11350); (0x11357, 0x11357); (0x1135D, 0x11363);
  (0x11366, 0x1136C); (0x11370, 0x11374); (0x11400, 0x1145B); (0x1145D, 0x11461);
  (0x11480, 0x114C7); (0x114D0, 0x114D9); (0x11580, 0x115B5); (0x115B8, 0x115DD);
  (0x11600, 0x11644); (0x11650, 0x11659); (0x11660, 0x1166C); (0x11680, 0x116B9);
  (0x116C0, 0x116C9); (0x11700, 0x1171A); (0x1171D, 0x1172B); (0x11730, 0x11746);
  (0x11800, 0x1183B); (0x118A0, 0x118F2); (0x118FF, 0x11906); (0x11909, 0x11909);
  (0x1190C, 0x11913); (0x11915, 0x11916); (0x11918, 0x11935); (0x11937, 0x11938);
  (0x1193B, 0x11946); (0x11950, 0x11959); (0x119A0, 0x119A7); (0x119AA, 0x119D7);
  (0x119DA, 0x119E4); (0x11A00, 0x11A47); (0x11A50, 0x11AA2); (0x11AB0, 0x11AF8);
  (0x11C00, 0x11C08); (0x11C0A, 0x11C36); (0x11C38, 0x11C45); (0x11C50, 0x11C6C);
  (0x11C70, 0x11C8F); (0x11C92, 0x11CA7); (0x11CA9, 0x11CB6); (0x11D00, 0x11D06);
  (0x11D08, 0x11D09); (0x11D0B, 0x11D36); (0x11D3A, 0x11D3A); (0x11D3C, 0x11D3D);
  (0x11D3F, 0x11D47); (0x11D50, 0x11D59); (0x11D60, 0x11D65); (0x11D67, 0x11D68);
  (0x11D6A, 0x11D8E); (0x11D90, 0x11D91); (0x11D93, 0x11D98); (0x11DA0, 0x11DA9);
  (0x11EE0, 0x11EF8); (0x11FB0, 0x11FB0); (0x11FC0, 0x11FF1); (0x11FFF, 0x12399);
  (0x12400, 0x1246E); (0x12470, 0x12474); (0x12480, 0x12543); (0x12F90, 0x12FF2);
  (0x13000, 0x1342E); (0x14400, 0x14646); (0x16800, 0x16A38); (0x16A40, 0x16A5E);
  (0x16A60, 0x16A69); (0x16A6E, 0x16ABE); (0x16AC0, 0x16AC9); (0x16AD0, 0x16AED);
  (0x16AF0, 0x16AF5); (0x16B00, 0x16B45); (0x16B50, 0x16B59); (0x16B5B, 0x16B61);
  (0x16B63, 0x16B77); (0x16B7D, 0x16B8F); (0x16E40, 0x16E9A); (0x16F00, 0x16F4A);
  (0x16F4F, 0x16F87); (0x16F8F, 0x16F9F); (0x16FE0, 0x16FE4); (0x16FF0, 0x16FF1);
  (0x17000, 0x187F7); (0x18800, 0x18CD5); (0x18D00, 0x18D08); (0x1AFF0, 0x1AFF3);
  (0x1AFF5, 0x1AFFB); (0x1AFFD, 0x1AFFE); (0x1B000, 0x1B122); (0x1B150, 0x1B152);
  (0x1B164, 0x1B167); (0x1B170, 0x1B2FB); (0x1BC00, 0x1BC6A); (0x1BC70, 0x1BC7C);
  (0x1BC80, 0x1BC88); (0x1BC90, 0x1BC99); (0x1BC9C, 0x1BC9F); (0x1CF00, 0x1CF2D);
  (0x1CF30, 0x1CF46); (0x1CF50, 0x1CFC3); (0x1D000, 0x1D0F5); (0x1D100, 0x1D126);
  (0x1D129, 0x1D172); (0x1D17B, 0x1D1EA); (0x1D200, 0x1D245); (0x1D2E0, 0x1D2F3);
  (0x1D300, 0x1D356); (0x1D360, 0x1D378); (0x1D400, 0x1D454); (0x1D456, 0x1D49C);
  (0x1D49E, 0x1D49F); (0x1D4A2, 0x1D4A2); (0x1D4A5, 0x1D4A6); (0x1D4A9, 0x1D4AC);
  (0x1D4AE, 0x1D4B9); (0x1D4BB, 0x1D4BB); (0x1D4BD, 0x1D4C3); (0x1D4C5, 0x1D505);
  (0x1D507, 0x1D50A); (0x1D50D, 0x1D514); (0x1D516, 0x1D51C); (0x1D51E, 0x1D539);
  (0x1D53B, 0x1D53E); (0x1D540, 0x1D544); (0x1D546, 0x1D546); (0x1D54A, 0x1D550);
  (0x1D552, 0x1D6A5); (0x1D6A8, 0x1D7CB); (0x1D7CE, 0x1DA8B); (0x1DA9B, 0x1DA9F);
  (0x1DAA1, 0x1DAAF); (0x1DF00, 0x1DF1E); (0x1E000, 0x1E006); (0x1E008, 0x1E018);
  (0x1E01B, 0x1E021); (0x1E023, 0x1E024); (0x1E026, 0x1E02A); (0x1E100, 0x1E12C);
  (0x1E130, 0x1E13D); (0x1E140, 0x1E149); (0x1E14E, 0x1E14F); (0x1E290, 0x1E2AE);
  (0x1E2C0, 0x1E2F9); (0x1E2FF, 0x1E2FF); (0x1E7E0, 0x1E7E6); (0x1E7E8, 0x1E7EB);
  (0x1E7ED, 0x1E7EE); (0x1E7F0, 0x1E7FE); (0x1E800, 0x1E8C4); (0x1E8C7, 0x1E8D6);
  (0x1E900, 0x1E94B); (0x1E950, 0x1E959); (0x1E95E, 0x1E95F); (0x1EC71, 0x1ECB4);
  (0x1ED01, 0x1ED3D); (0x1EE00, 0x1EE03); (0x1EE05, 0x1EE1F); (0x1EE21, 0x1EE22);
  (0x1EE24, 0x1EE24); (0x1EE27, 0x1EE27); (0x1EE29, 0x1EE32); (0x1EE34, 0x1EE37);
  (0x1EE39, 0x1EE39); (0x1EE3B, 0x1EE3B); (0x1EE42, 0x1EE42); (0x1EE47, 0x1EE47);
  (0x1EE49, 0x1EE49); (0x1EE4B, 0x1EE4B); (0x1EE4D, 0x1EE4F); (0x1EE51, 0x1EE52);
  (0x1EE54, 0x1EE54); (0x1EE57, 0x1EE57); (0x1EE59, 0x1EE59); (0x1EE5B, 0x1EE5B);
  (0x1EE5D, 0x1EE5D); (0x1EE5F, 0x1EE5F); (0x1EE61, 0x1EE62); (0x1EE64, 0x1EE64);
  (0x1EE67, 0x1EE6A); (0x1EE6C, 0x1EE72); (0x1EE74, 0x1EE77); (0x1EE79, 0x1EE7C);
  (0x1EE7E, 0x1EE7E); (0x1EE80, 0x1EE89); (0x1EE8B, 0x1EE9B); (0x1EEA1, 0x1EEA3);
  (0x1EEA5, 0x1EEA9); (0x1EEAB, 0x1EEBB); (0x1EEF0, 0x1EEF1); (0x1F000, 0x1F02B);
  (0x1F030, 0x1F093); (0x1F0A0, 0x1F0AE); (0x1F0B1, 0x1F0BF); (0x1F0C1, 0x1F0CF);
  (0x1F0D1, 0x1F0F5); (0x1F100, 0x1F1AD); (0x1F1E6, 0x1F202); (0x1F210, 0x1F23B);
  (0x1F240, 0x1F248); (0x1F250, 0x1F251); (0x1F260, 0x1F265); (0x1F300, 0x1F6D7);
  (0x1F6DD, 0x1F6EC); (0x1F6F0, 0x1F6FC); (0x1F700, 0x1F773); (0x1F780, 0x1F7D8);
  (0x1F7E0, 0x1F7EB); (0x1F7F0, 0x1F7F0); (0x1F800, 0x1F80B); (0x1F810, 0x1F847);
  (0x1F850, 0x1F859); (0x1F860, 0x1F887); (0x1F890, 0x1F8AD); (0x1F8B0, 0x1F8B1);
  (0x1F900, 0x1FA53); (0x1FA60, 0x1FA6D); (0x1FA70, 0x1FA74); (0x1FA78, 0x1FA7C);
  (0x1FA80, 0x1FA86); (0x1FA90, 0x1FAAC); (0x1FAB0, 0x1FABA); (0x1FAC0, 0x1FAC5);
  (0x1FAD0, 0x1FAD9); (0x1FAE0, 0x1FAE7); (0x1FAF0, 0x1FAF6); (0x1FB00, 0x1FB92);
  (0x1FB94, 0x1FBCA); (0x1FBF0, 0x1FBF9); (0x20000, 0x2A6DF); (0x2A700, 0x2B738);
  (0x2B740, 0x2B81D); (0x2B820, 0x2CEA1); (0x2CEB0, 0x2EBE0); (0x2F800, 0x2FA1D);
  (0x30000, 0x3134A); (0xE0100, 0xE01EF)
]%N.

(** Ranges of the decimal characters, Numeric_Type=Decimal ([str.isdecimal]). *)
Definition decimal_ranges : list (N * N) := [
  (0x30, 0x39); (0x660, 0x669); (0x6F0, 0x6F9); (0x7C0, 0x7C9); (0x966, 0x96F); (0x9E6, 0x9EF);
  (0xA66, 0xA6F); (0xAE6, 0xAEF); (0xB66, 0xB6F); (0xBE6, 0xBEF); (0xC66, 0xC6F);
  (0xCE6, 0xCEF); (0xD66, 0xD6F); (0xDE6, 0xDEF); (0xE50, 0xE59); (0xED0, 0xED9);
  (0xF20, 0xF29); (0x1040, 0x1049); (0x1090, 0x1099); (0x17E0, 0x17E9); (0x1810, 0x1819);
  (0x1946, 0x194F); (0x19D0, 0x19D9); (0x1A80, 0x1A89); (0x1A90, 0x1A99); (0x1B50, 0x1B59);
  (0x1BB0, 0x1BB9); (0x1C40, 0x1C49); (0x1C50, 0x1C59); (0xA620, 0xA629); (0xA8D0, 0xA8D9);
  (0xA900, 0xA909); (0xA9D0, 0xA9D9); (0xA9F0, 0xA9F9); (0xAA50, 0xAA59); (0xABF0, 0xABF9);
  (0xFF10, 0xFF19); (0x104A0, 0x104A9); (0x10D30, 0x10D39); (0x11066, 0x1106F);
  (0x110F0, 0x110F9); (0x11136, 0x1113F); (0x111D0, 0x111D9); (0x112F0, 0x112F9);
  (0x11450, 0x11459); (0x114D0, 0x114D9); (0x11650, 0x11659); (0x116C0, 0x116C9);
  (0x11730, 0x11739); (0x118E0, 0x118E9); (0x11950, 0x11959); (0x11C50, 0x11C59);
  (0x11D50, 0x11D59); (0x11DA0, 0x11DA9); (0x16A60, 0x16A69); (0x16AC0, 0x16AC9);
  (0x16B50, 0x16B59); (0x1D7CE, 0x1D7FF); (0x1E140, 0x1E149); (0x1E2F0, 0x1E2F9);
  (0x1E950, 0x1E959); (0x1FBF0, 0x1FBF9)
]%N.

(** Ranges of the further digits, Numeric_Type=Digit: superscripts,
    subscripts, circled digits and the like. *)
Definition other_digit_ranges : list (N * N) := [
  (0xB2, 0xB3); (0xB9, 0xB9); (0x1369, 0x1371); (0x19DA, 0x19DA); (0x2070, 0x2070);
  (0x2074, 0x2079); (0x2080, 0x2089); (0x2460, 0x2468); (0x2474, 0x247C); (0x2488, 0x2490);
  (0x24EA, 0x24EA); (0x24F5, 0x24FD); (0x24FF, 0x24FF); (0x2776, 0x277E); (0x2780, 0x2788);
  (0x278A, 0x2792); (0x10A40, 0x10A43); (0x10E60, 0x10E68); (0x11052, 0x1105A);
  (0x1F100, 0x1F10A)
]%N.

(** Ranges of the whitespace characters: what [\s] matches in a [str] pattern. *)
Definition space_ranges : list (N * N) := [
  (0x9, 0xD); (0x1C, 0x20); (0x85, 0x85); (0xA0, 0xA0); (0x1680, 0x1680); (0x2000, 0x200A);
  (0x2028, 0x2029); (0x202F, 0x202F); (0x205F, 0x205F); (0x3000, 0x3000)
]%N.

(** Canonical_Combining_Class: [(first, last, class)] for every range of
    characters whose class is not 0. *)
Definition combining_classes : list (N * N * N) := [
  (0x300, 0x314, 230); (0x315, 0x315, 232); (0x316, 0x319, 220); (0x31A, 0x31A, 232);
  (0x31B, 0x31B, 216); (0x31C, 0x320, 220); (0x321, 0x322, 202); (0x323, 0x326, 220);
  (0x327, 0x328, 202); (0x329, 0x333, 220); (0x334, 0x338, 1); (0x339, 0x33C, 220);
  (0x33D, 0x344, 230); (0x345, 0x345, 240); (0x346, 0x346, 230); (0x347, 0x349, 220);
  (0x34A, 0x34C, 230); (0x34D, 0x34E, 220); (0x350, 0x352, 230); (0x353, 0x356, 220);
  (0x357, 0x357, 230); (0x358, 0x358, 232); (0x359, 0x35A, 220); (0x35B, 0x35B, 230);
  (0x35C, 0x35C, 233); (0x35D, 0x35E, 234); (0x35F, 0x35F, 233); (0x360, 0x361, 234);
  (0x362, 0x362, 233); (0x363, 0x36F, 230); (0x483, 0x487, 230); (0x591, 0x591, 220);
  (0x592, 0x595, 230); (0x596, 0x596, 220); (0x597, 0x599, 230); (0x59A, 0x59A, 222);
  (0x59B, 0x59B, 220); (0x59C, 0x5A1, 230); (0x5A2, 0x5A7, 220); (0x5A8, 0x5A9, 230);
  (0x5AA, 0x5AA, 220); (0x5AB, 0x5AC, 230); (0x5AD, 0x5AD, 222); (0x5AE, 0x5AE, 228);
  (0x5AF, 0x5AF, 230); (0x5B0, 0x5B0, 10); (0x5B1, 0x5B1, 11); (0x5B2, 0x5B2, 12);
  (0x5B3, 0x5B3, 13); (0x5B4, 0x5B4, 14); (0x5B5, 0x5B5, 15); (0x5B6, 0x5B6, 16);
  (0x5B7, 0x5B7, 17); (0x5B8, 0x5B8, 18); (0x5B9, 0x5BA, 19); (0x5BB, 0x5BB, 20);
  (0x5BC, 0x5BC, 21); (0x5BD, 0x5BD, 22); (0x5BF, 0x5BF, 23); (0x5C1, 0x5C1, 24);
  (0x5C2, 0x5C2, 25); (0x5C4, 0x5C4, 230); (0x5C5, 0x5C5, 220); (0x5C7, 0x5C7, 18);
  (0x610, 0x617, 230); (0x618, 0x618, 30); (0x619, 0x619, 31); (0x61A, 0x61A, 32);
  (0x64B, 0x64B, 27); (0x64C, 0x64C, 28); (0x64D, 0x64D, 29); (0x64E, 0x64E, 30);
  (0x64F, 0x64F, 31); (0x650, 0x650, 32); (0x651, 0x651, 33); (0x652, 0x652, 34);
  (0x653, 0x654, 230); (0x655, 0x656, 220); (0x657, 0x65B, 230); (0x65C, 0x65C, 220);
  (0x65D, 0x65E, 230); (0x65F, 0x65F, 220); (0x670, 0x670, 35); (0x6D6, 0x6DC, 230);
  (0x6DF, 0x6E2, 230); (0x6E3, 0x6E3, 220); (0x6E4, 0x6E4, 230); (0x6E7, 0x6E8, 230);
  (0x6EA, 0x6EA, 220); (0x6EB, 0x6EC, 230); (0x6ED, 0x6ED, 220); (0x711, 0x711, 36);
  (0x730, 0x730, 230); (0x731, 0x731, 220); (0x732, 0x733, 230); (0x734, 0x734, 220);
  (0x735, 0x736, 230); (0x737, 0x739, 220); (0x73A, 0x73A, 230); (0x73B, 0x73C, 220);
  (0x73D, 0x73D, 230); (0x73E, 0x73E, 220); (0x73F, 0x741, 230); (0x742, 0x742, 220);
  (0x743, 0x743, 230); (0x744, 0x744, 220); (0x745, 0x745, 230); (0x746, 0x746, 220);
  (0x747, 0x747, 230); (0x748, 0x748, 220); (0x749, 0x74A, 230); (0x7EB, 0x7F1, 230);
  (0x7F2, 0x7F2, 220); (0x7F3, 0x7F3, 230); (0x7FD, 0x7FD, 220); (0x816, 0x819, 230);
  (0x81B, 0x823, 230); (0x825, 0x827, 230); (0x829, 0x82D, 230); (0x859, 0x85B, 220);
  (0x898, 0x898, 230); (0x899, 0x89B, 220); (0x89C, 0x89F, 230); (0x8CA, 0x8CE, 230);
  (0x8CF, 0x8D3, 220); (0x8D4, 0x8E1, 230); (0x8E3, 0x8E3, 220); (0x8E4, 0x8E5, 230);
  (0x8E6, 0x8E6, 220); (0x8E7, 0x8E8, 230); (0x8E9, 0x8E9, 220); (0x8EA, 0x8EC, 230);
  (0x8ED, 0x8EF, 220); (0x8F0, 0x8F0, 27); (0x8F1, 0x8F1, 28); (0x8F2, 0x8F2, 29);
  (0x8F3, 0x8F5, 230); (0x8F6, 0x8F6, 220); (0x8F7, 0x8F8, 230); (0x8F9, 0x8FA, 220);
  (0x8FB, 0x8FF, 230); (0x93C, 0x93C, 7); (0x94D, 0x94D, 9); (0x951, 0x951, 230);
  (0x952, 0x952, 220); (0x953, 0x954, 230); (0x9BC, 0x9BC, 7); (0x9CD, 0x9CD, 9);
  (0x9FE, 0x9FE, 230); (0xA3C, 0xA3C, 7); (0xA4D, 0xA4D, 9); (0xABC, 0xABC, 7);
  (0xACD, 0xACD, 9); (0xB3C, 0xB3C, 7); (0xB4D, 0xB4D, 9); (0xBCD, 0xBCD, 9);
  (0xC3C, 0xC3C, 7); (0xC4D, 0xC4D, 9); (0xC55, 0xC55, 84); (0xC56, 0xC56, 91);
  (0xCBC, 0xCBC, 7); (0xCCD, 0xCCD, 9); (0xD3B, 0xD3C, 9); (0xD4D, 0xD4D, 9);
  (0xDCA, 0xDCA, 9); (0xE38, 0xE39, 103); (0xE3A, 0xE3A, 9); (0xE48, 0xE4B, 107);
  (0xEB8, 0xEB9, 118); (0xEBA, 0xEBA, 9); (0xEC8, 0xECB, 122); (0xF18, 0xF19, 220);
  (0xF35, 0xF35, 220); (0xF37, 0xF37, 220); (0xF39, 0xF39, 216); (0xF71, 0xF71, 129);
  (0xF72, 0xF72, 130); (0xF74, 0xF74, 132); (0xF7A, 0xF7D, 130); (0xF80, 0xF80, 130);
  (0xF82, 0xF83, 230); (0xF84, 0xF84, 9); (0xF86, 0xF87, 230); (0xFC6, 0xFC6, 220);
  (0x1037, 0x1037, 7); (0x1039, 0x103A, 9); (0x108D, 0x108D, 220); (0x135D, 0x135F, 230);
  (0x1714, 0x1715, 9); (0x1734, 0x1734, 9); (0x17D2, 0x17D2, 9); (0x17DD, 0x17DD, 230);
  (0x18A9, 0x18A9, 228); (0x1939, 0x1939, 222); (0x193A, 0x193A, 230); (0x193B, 0x193B, 220);
  (0x1A17, 0x1A17, 230); (0x1A18, 0x1A18, 220); (0x1A60, 0x1A60, 9); (0x1A75, 0x1A7C, 230);
  (0x1A7F, 0x1A7F, 220); (0x1AB0, 0x1AB4, 230); (0x1AB5, 0x1ABA, 220); (0x1ABB, 0x1ABC, 230);
  (0x1ABD, 0x1ABD, 220); (0x1ABF, 0x1AC0, 220); (0x1AC1, 0x1AC2, 230); (0x1AC3, 0x1AC4, 220);
  (0x1AC5, 0x1AC9, 230); (0x1ACA, 0x1ACA, 220); (0x1ACB, 0x1ACE, 230); (0x1B34, 0x1B34, 7);
  (0x1B44, 0x1B44, 9); (0x1B6B, 0x1B6B, 230); (0x1B6C, 0x1B6C, 220); (0x1B6D, 0x1B73, 230);
  (0x1BAA, 0x1BAB, 9); (0x1BE6, 0x1BE6, 7); (0x1BF2, 0x1BF3, 9); (0x1C37, 0x1C37, 7);
  (0x1CD0, 0x1CD2, 230); (0x1CD4, 0x1CD4, 1); (0x1CD5, 0x1CD9, 220); (0x1CDA, 0x1CDB, 230);
  (0x1CDC, 0x1CDF, 220); (0x1CE0, 0x1CE0, 230); (0x1CE2, 0x1CE8, 1); (0x1CED, 0x1CED, 220);
  (0x1CF4, 0x1CF4, 230); (0x1CF8, 0x1CF9, 230); (0x1DC0, 0x1DC1, 230); (0x1DC2, 0x1DC2, 220);
  (0x1DC3, 0x1DC9, 230); (0x1DCA, 0x1DCA, 220); (0x1DCB, 0x1DCC, 230); (0x1DCD, 0x1DCD, 234);
  (0x1DCE, 0x1DCE, 214); (0x1DCF, 0x1DCF, 220); (0x1DD0, 0x1DD0, 202); (0x1DD1, 0x1DF5, 230);
  (0x1DF6, 0x1DF6, 232); (0x1DF7, 0x1DF8, 228); (0x1DF9, 0x1DF9, 220); (0x1DFA, 0x1DFA, 218);
  (0x1DFB, 0x1DFB, 230); (0x1DFC, 0x1DFC, 233); (0x1DFD, 0x1DFD, 220); (0x1DFE, 0x1DFE, 230);
  (0x1DFF, 0x1DFF, 220); (0x20D0, 0x20D1, 230); (0x20D2, 0x20D3, 1); (0x20D4, 0x20D7, 230);
  (0x20D8, 0x20DA, 1); (0x20DB, 0x20DC, 230); (0x20E1, 0x20E1, 230); (0x20E5, 0x20E6, 1);
  (0x20E7, 0x20E7, 230); (0x20E8, 0x20E8, 220); (0x20E9, 0x20E9, 230); (0x20EA, 0x20EB, 1);
  (0x20EC, 0x20EF, 220); (0x20F0, 0x20F0, 230); (0x2CEF, 0x2CF1, 230); (0x2D7F, 0x2D7F, 9);
  (0x2DE0, 0x2DFF, 230); (0x302A, 0x302A, 218); (0x302B, 0x302B, 228); (0x302C, 0x302C, 232);
  (0x302D, 0x302D, 222); (0x302E, 0x302F, 224); (0x3099, 0x309A, 8); (0xA66F, 0xA66F, 230);
  (0xA674, 0xA67D, 230); (0xA69E, 0xA69F, 230); (0xA6F0, 0xA6F1, 230); (0xA806, 0xA806, 9);
  (0xA82C, 0xA82C, 9); (0xA8C4, 0xA8C4, 9); (0xA8E0, 0xA8F1, 230); (0xA92B, 0xA92D, 220);
  (0xA953, 0xA953, 9); (0xA9B3, 0xA9B3, 7); (0xA9C0, 0xA9C0, 9); (0xAAB0, 0xAAB0, 230);
  (0xAAB2, 0xAAB3, 230); (0xAAB4, 0xAAB4, 220); (0xAAB7, 0xAAB8, 230); (0xAABE, 0xAABF, 230);
  (0xAAC1, 0xAAC1, 230); (0xAAF6, 0xAAF6, 9); (0xABED, 0xABED, 9); (0xFB1E, 0xFB1E, 26);
  (0xFE20, 0xFE26, 230); (0xFE27, 0xFE2D, 220); (0xFE2E, 0xFE2F, 230); (0x101FD, 0x101FD, 220);
  (0x102E0, 0x102E0, 220); (0x10376, 0x1037A, 230); (0x10A0D, 0x10A0D, 220);
  (0x10A0F, 0x10A0F, 230); (0x10A38, 0x10A38, 230); (0x10A39, 0x10A39, 1);
  (0x10A3A, 0x10A3A, 220); (0x10A3F, 0x10A3F, 9); (0x10AE5, 0x10AE5, 230);
  (0x10AE6, 0x10AE6, 220); (0x10D24, 0x10D27, 230); (0x10EAB, 0x10EAC, 230);
  (0x10F46, 0x10F47, 220); (0x10F48, 0x10F4A, 230); (0x10F4B, 0x10F4B, 220);
  (0x10F4C, 0x10F4C, 230); (0x10F4D, 0x10F50, 220); (0x10F82, 0x10F82, 230);
  (0x10F83, 0x10F83, 220); (0x10F84, 0x10F84, 230); (0x10F85, 0x10F85, 220);
  (0x11046, 0x11046, 9); (0x11070, 0x11070, 9); (0x1107F, 0x1107F, 9); (0x110B9, 0x110B9, 9);
  (0x110BA, 0x110BA, 7); (0x11100, 0x11102, 230); (0x11133, 0x11134, 9); (0x11173, 0x11173, 7);
  (0x111C0, 0x111C0, 9); (0x111CA, 0x111CA, 7); (0x11235, 0x11235, 9); (0x11236, 0x11236, 7);
  (0x112E9, 0x112E9, 7); (0x112EA, 0x112EA, 9); (0x1133B, 0x1133C, 7); (0x1134D, 0x1134D, 9);
  (0x11366, 0x1136C, 230); (0x11370, 0x11374, 230); (0x11442, 0x11442, 9);
  (0x11446, 0x11446, 7); (0x1145E, 0x1145E, 230); (0x114C2, 0x114C2, 9); (0x114C3, 0x114C3, 7);
  (0x115BF, 0x115BF, 9); (0x115C0, 0x115C0, 7); (0x1163F, 0x1163F, 9); (0x116B6, 0x116B6, 9);
  (0x116B7, 0x116B7, 7); (0x1172B, 0x1172B, 9); (0x11839, 0x11839, 9); (0x1183A, 0x1183A, 7);
  (0x1193D, 0x1193E, 9); (0x11943, 0x11943, 7); (0x119E0, 0x119E0, 9); (0x11A34, 0x11A34, 9);
  (0x11A47, 0x11A47, 9); (0x11A99, 0x11A99, 9); (0x11C3F, 0x11C3F, 9); (0x11D42, 0x11D42, 7);
  (0x11D44, 0x11D45, 9); (0x11D97, 0x11D97, 9); (0x16AF0, 0x16AF4, 1); (0x16B30, 0x16B36, 230);
  (0x16FF0, 0x16FF1, 6); (0x1BC9E, 0x1BC9E, 1); (0x1D165, 0x1D166, 216); (0x1D167, 0x1D169, 1);
  (0x1D16D, 0x1D16D, 226); (0x1D16E, 0x1D172, 216); (0x1D17B, 0x1D182, 220);
  (0x1D185, 0x1D189, 230); (0x1D18A, 0x1D18B, 220); (0x1D1AA, 0x1D1AD, 230);
  (0x1D242, 0x1D244, 230); (0x1E000, 0x1E006, 230); (0x1E008, 0x1E018, 230);
  (0x1E01B, 0x1E021, 230); (0x1E023, 0x1E024, 230); (0x1E026, 0x1E02A, 230);
  (0x1E130, 0x1E136, 230); (0x1E2AE, 0x1E2AE, 230); (0x1E2EC, 0x1E2EF, 230);
  (0x1E8D0, 0x1E8D6, 220); (0x1E944, 0x1E949, 230); (0x1E94A, 0x1E94A, 7)
]%N.

(** Canonical decomposition mappings to one character: [(c, d)]. *)
Definition singleton_decompositions : list (N * N) := [
  (0x340, 0x300); (0x341, 0x301); (0x343, 0x313); (0x374, 0x2B9); (0x37E, 0x3B); (0x387, 0xB7);
  (0x1F71, 0x3AC); (0x1F73, 0x3AD); (0x1F75, 0x3AE); (0x1F77, 0x3AF); (0x1F79, 0x3CC);
  (0x1F7B, 0x3CD); (0x1F7D, 0x3CE); (0x1FBB, 0x386); (0x1FBE, 0x3B9); (0x1FC9, 0x388);
  (0x1FCB, 0x389); (0x1FD3, 0x390); (0x1FDB, 0x38A); (0x1FE3, 0x3B0); (0x1FEB, 0x38E);
  (0x1FEE, 0x385); (0x1FEF, 0x60); (0x1FF9, 0x38C); (0x1FFB, 0x38F); (0x1FFD, 0xB4);
  (0x2000, 0x2002); (0x2001, 0x2003); (0x2126, 0x3A9); (0x212A, 0x4B); (0x212B, 0xC5);
  (0x2329, 0x3008); (0x232A, 0x3009); (0xF900, 0x8C48); (0xF901, 0x66F4); (0xF902, 0x8ECA);
  (0xF903, 0x8CC8); (0xF904, 0x6ED1); (0xF905, 0x4E32); (0xF906, 0x53E5); (0xF907, 0x9F9C);
  (0xF908, 0x9F9C); (0xF909, 0x5951); (0xF90A, 0x91D1); (0xF90B, 0x5587); (0xF90C, 0x5948);
  (0xF90D, 0x61F6); (0xF90E, 0x7669); (0xF90F, 0x7F85); (0xF910, 0x863F); (0xF911, 0x87BA);
  (0xF912, 0x88F8); (0xF913, 0x908F); (0xF914, 0x6A02); (0xF915, 0x6D1B); (0xF916, 0x70D9);
  (0xF917, 0x73DE); (0xF918, 0x843D); (0xF919, 0x916A); (0xF91A, 0x99F1); (0xF91B, 0x4E82);
  (0xF91C, 0x5375); (0xF91D, 0x6B04); (0xF91E, 0x721B); (0xF91F, 0x862D); (0xF920, 0x9E1E);
  (0xF921, 0x5D50); (0xF922, 0x6FEB); (0xF923, 0x85CD); (0xF924, 0x8964); (0xF925, 0x62C9);
  (0xF926, 0x81D8); (0xF927, 0x881F); (0xF928, 0x5ECA); (0xF929, 0x6717); (0xF92A, 0x6D6A);
  (0xF92B, 0x72FC); (0xF92C, 0x90CE); (0xF92D, 0x4F86); (0xF92E, 0x51B7); (0xF92F, 0x52DE);
  (0xF930, 0x64C4); (0xF931, 0x6AD3); (0xF932, 0x7210); (0xF933, 0x76E7); (0xF934, 0x8001);
  (0xF935, 0x8606); (0xF936, 0x865C); (0xF937, 0x8DEF); (0xF938, 0x9732); (0xF939, 0x9B6F);
  (0xF93A, 0x9DFA); (0xF93B, 0x788C); (0xF93C, 0x797F); (0xF93D, 0x7DA0); (0xF93E, 0x83C9);
  (0xF93F, 0x9304); (0xF940, 0x9E7F); (0xF941, 0x8AD6); (0xF942, 0x58DF); (0xF943, 0x5F04);
  (0xF944, 0x7C60); (0xF945, 0x807E); (0xF946, 0x7262); (0xF947, 0x78CA); (0xF948, 0x8CC2);
  (0xF949, 0x96F7); (0xF94A, 0x58D8); (0xF94B, 0x5C62); (0xF94C, 0x6A13); (0xF94D, 0x6DDA);
  (0xF94E, 0x6F0F); (0xF94F, 0x7D2F); (0xF950, 0x7E37); (0xF951, 0x964B); (0xF952, 0x52D2);
  (0xF953, 0x808B); (0xF954, 0x51DC); (0xF955, 0x51CC); (0xF956, 0x7A1C); (0xF957, 0x7DBE);
  (0xF958, 0x83F1); (0xF959, 0x9675); (0xF95A, 0x8B80); (0xF95B, 0x62CF); (0xF95C, 0x6A02);
  (0xF95D, 0x8AFE); (0xF95E, 0x4E39); (0xF95F, 0x5BE7); (0xF960, 0x6012); (0xF961, 0x7387);
  (0xF962, 0x7570); (0xF963, 0x5317); (0xF964, 0x78FB); (0xF965, 0x4FBF); (0xF966, 0x5FA9);
  (0xF967, 0x4E0D); (0xF968, 0x6CCC); (0xF969, 0x6578); (0xF96A, 0x7D22); (0xF96B, 0x53C3);
  (0xF96C, 0x585E); (0xF96D, 0x7701); (0xF96E, 0x8449); (0xF96F, 0x8AAA); (0xF970, 0x6BBA);
  (0xF971, 0x8FB0); (0xF972, 0x6C88); (0xF973, 0x62FE); (0xF974, 0x82E5); (0xF975, 0x63A0);
  (0xF976, 0x7565); (0xF977, 0x4EAE); (0xF978, 0x5169); (0xF979, 0x51C9); (0xF97A, 0x6881);
  (0xF97B, 0x7CE7); (0xF97C, 0x826F); (0xF97D, 0x8AD2); (0xF97E, 0x91CF); (0xF97F, 0x52F5);
  (0xF980, 0x5442); (0xF981, 0x5973); (0xF982, 0x5EEC); (0xF983, 0x65C5); (0xF984, 0x6FFE);
  (0xF985, 0x792A); (0xF986, 0x95AD); (0xF987, 0x9A6A); (0xF988, 0x9E97); (0xF989, 0x9ECE);
  (0xF98A, 0x529B); (0xF98B, 0x66C6); (0xF98C, 0x6B77); (0xF98D, 0x8F62); (0xF98E, 0x5E74);
  (0xF98F, 0x6190); (0xF990, 0x6200); (0xF991, 0x649A); (0xF992, 0x6F23); (0xF993, 0x7149);
  (0xF994, 0x7489); (0xF995, 0x79CA); (0xF996, 0x7DF4); (0xF997, 0x806F); (0xF998, 0x8F26);
  (0xF999, 0x84EE); (0xF99A, 0x9023); (0xF99B, 0x934A); (0xF99C, 0x5217); (0xF99D, 0x52A3);
  (0xF99E, 0x54BD); (0xF99F, 0x70C8); (0xF9A0, 0x88C2); (0xF9A1, 0x8AAA); (0xF9A2, 0x5EC9);
  (0xF9A3, 0x5FF5); (0xF9A4, 0x637B); (0xF9A5, 0x6BAE); (0xF9A6, 0x7C3E); (0xF9A7, 0x7375);
  (0xF9A8, 0x4EE4); (0xF9A9, 0x56F9); (0xF9AA, 0x5BE7); (0xF9AB, 0x5DBA); (0xF9AC, 0x601C);
  (0xF9AD, 0x73B2); (0xF9AE, 0x7469); (0xF9AF, 0x7F9A); (0xF9B0, 0x8046); (0xF9B1, 0x9234);
  (0xF9B2, 0x96F6); (0xF9B3, 0x9748); (0xF9B4, 0x9818); (0xF9B5, 0x4F8B); (0xF9B6, 0x79AE);
  (0xF9B7, 0x91B4); (0xF9B8, 0x96B8); (0xF9B9, 0x60E1); (0xF9BA, 0x4E86); (0xF9BB, 0x50DA);
  (0xF9BC, 0x5BEE); (0xF9BD, 0x5C3F); (0xF9BE, 0x6599); (0xF9BF, 0x6A02); (0xF9C0, 0x71CE);
  (0xF9C1, 0x7642); (0xF9C2, 0x84FC); (0xF9C3, 0x907C); (0xF9C4, 0x9F8D); (0xF9C5, 0x6688);
  (0xF9C6, 0x962E); (0xF9C7, 0x5289); (0xF9C8, 0x677B); (0xF9C9, 0x67F3); (0xF9CA, 0x6D41);
  (0xF9CB, 0x6E9C); (0xF9CC, 0x7409); (0xF9CD, 0x7559); (0xF9CE, 0x786B); (0xF9CF, 0x7D10);
  (0xF9D0, 0x985E); (0xF9D1, 0x516D); (0xF9D2, 0x622E); (0xF9D3, 0x9678); (0xF9D4, 0x502B);
  (0xF9D5, 0x5D19); (0xF9D6, 0x6DEA); (0xF9D7, 0x8F2A); (0xF9D8, 0x5F8B); (0xF9D9, 0x6144);
  (0xF9DA, 0x6817); (0xF9DB, 0x7387); (0xF9DC, 0x9686); (0xF9DD, 0x5229); (0xF9DE, 0x540F);
  (0xF9DF, 0x5C65); (0xF9E0, 0x6613); (0xF9E1, 0x674E); (0xF9E2, 0x68A8); (0xF9E3, 0x6CE5);
  (0xF9E4, 0x7406); (0xF9E5, 0x75E2); (0xF9E6, 0x7F79); (0xF9E7, 0x88CF); (0xF9E8, 0x88E1);
  (0xF9E9, 0x91CC); (0xF9EA, 0x96E2); (0xF9EB, 0x533F); (0xF9EC, 0x6EBA); (0xF9ED, 0x541D);
  (0xF9EE, 0x71D0); (0xF9EF, 0x7498); (0xF9F0, 0x85FA); (0xF9F1, 0x96A3); (0xF9F2, 0x9C57);
  (0xF9F3, 0x9E9F); (0xF9F4, 0x6797); (0xF9F5, 0x6DCB); (0xF9F6, 0x81E8); (0xF9F7, 0x7ACB);
  (0xF9F8, 0x7B20); (0xF9F9, 0x7C92); (0xF9FA, 0x72C0); (0xF9FB, 0x7099); (0xF9FC, 0x8B58);
  (0xF9FD, 0x4EC0); (0xF9FE, 0x8336); (0xF9FF, 0x523A); (0xFA00, 0x5207); (0xFA01, 0x5EA6);
  (0xFA02, 0x62D3); (0xFA03, 0x7CD6); (0xFA04, 0x5B85); (0xFA05, 0x6D1E); (0xFA06, 0x66B4);
  (0xFA07, 0x8F3B); (0xFA08, 0x884C); (0xFA09, 0x964D); (0xFA0A, 0x898B); (0xFA0B, 0x5ED3);
  (0xFA0C, 0x5140); (0xFA0D, 0x55C0); (0xFA10, 0x585A); (0xFA12, 0x6674); (0xFA15, 0x51DE);
  (0xFA16, 0x732A); (0xFA17, 0x76CA); (0xFA18, 0x793C); (0xFA19, 0x795E); (0xFA1A, 0x7965);
  (0xFA1B, 0x798F); (0xFA1C, 0x9756); (0xFA1D, 0x7CBE); (0xFA1E, 0x7FBD); (0xFA20, 0x8612);
  (0xFA22, 0x8AF8); (0xFA25, 0x9038); (0xFA26, 0x90FD); (0xFA2A, 0x98EF); (0xFA2B, 0x98FC);
  (0xFA2C, 0x9928); (0xFA2D, 0x9DB4); (0xFA2E, 0x90DE); (0xFA2F, 0x96B7); (0xFA30, 0x4FAE);
  (0xFA31, 0x50E7); (0xFA32, 0x514D); (0xFA33, 0x52C9); (0xFA34, 0x52E4); (0xFA35, 0x5351);
  (0xFA36, 0x559D); (0xFA37, 0x5606); (0xFA38, 0x5668); (0xFA39, 0x5840); (0xFA3A, 0x58A8);
  (0xFA3B, 0x5C64); (0xFA3C, 0x5C6E); (0xFA3D, 0x6094); (0xFA3E, 0x6168); (0xFA3F, 0x618E);
  (0xFA40, 0x61F2); (0xFA41, 0x654F); (0xFA42, 0x65E2); (0xFA43, 0x6691); (0xFA44, 0x6885);
  (0xFA45, 0x6D77); (0xFA46, 0x6E1A); (0xFA47, 0x6F22); (0xFA48, 0x716E); (0xFA49, 0x722B);
  (0xFA4A, 0x7422); (0xFA4B, 0x7891); (0xFA4C, 0x793E); (0xFA4D, 0x7949); (0xFA4E, 0x7948);
  (0xFA4F, 0x7950); (0xFA50, 0x7956); (0xFA51, 0x795D); (0xFA52, 0x798D); (0xFA53, 0x798E);
  (0xFA54, 0x7A40); (0xFA55, 0x7A81); (0xFA56, 0x7BC0); (0xFA57, 0x7DF4); (0xFA58, 0x7E09);
  (0xFA59, 0x7E41); (0xFA5A, 0x7F72); (0xFA5B, 0x8005); (0xFA5C, 0x81ED); (0xFA5D, 0x8279);
  (0xFA5E, 0x8279); (0xFA5F, 0x8457); (0xFA60, 0x8910); (0xFA61, 0x8996); (0xFA62, 0x8B01);
  (0xFA63, 0x8B39); (0xFA64, 0x8CD3); (0xFA65, 0x8D08); (0xFA66, 0x8FB6); (0xFA67, 0x9038);
  (0xFA68, 0x96E3); (0xFA69, 0x97FF); (0xFA6A, 0x983B); (0xFA6B, 0x6075); (0xFA6C, 0x242EE);
  (0xFA6D, 0x8218); (0xFA70, 0x4E26); (0xFA71, 0x51B5); (0xFA72, 0x5168); (0xFA73, 0x4F80);
  (0xFA74, 0x5145); (0xFA75, 0x5180); (0xFA76, 0x52C7); (0xFA77, 0x52FA); (0xFA78, 0x559D);
  (0xFA79, 0x5555); (0xFA7A, 0x5599); (0xFA7B, 0x55E2); (0xFA7C, 0x585A); (0xFA7D, 0x58B3);
  (0xFA7E, 0x5944); (0xFA7F, 0x5954); (0xFA80, 0x5A62); (0xFA81, 0x5B28); (0xFA82, 0x5ED2);
  (0xFA83, 0x5ED9); (0xFA84, 0x5F69); (0xFA85, 0x5FAD); (0xFA86, 0x60D8); (0xFA87, 0x614E);
  (0xFA88, 0x6108); (0xFA89, 0x618E); (0xFA8A, 0x6160); (0xFA8B, 0x61F2); (0xFA8C, 0x6234);
  (0xFA8D, 0x63C4); (0xFA8E, 0x641C); (0xFA8F, 0x6452); (0xFA90, 0x6556); (0xFA91, 0x6674);
  (0xFA92, 0x6717); (0xFA93, 0x671B); (0xFA94, 0x6756); (0xFA95, 0x6B79); (0xFA96, 0x6BBA);
  (0xFA97, 0x6D41); (0xFA98, 0x6EDB); (0xFA99, 0x6ECB); (0xFA9A, 0x6F22); (0xFA9B, 0x701E);
  (0xFA9C, 0x716E); (0xFA9D, 0x77A7); (0xFA9E, 0x7235); (0xFA9F, 0x72AF); (0xFAA0, 0x732A);
  (0xFAA1, 0x7471); (0xFAA2, 0x7506); (0xFAA3, 0x753B); (0xFAA4, 0x761D); (0xFAA5, 0x761F);
  (0xFAA6, 0x76CA); (0xFAA7, 0x76DB); (0xFAA8, 0x76F4); (0xFAA9, 0x774A); (0xFAAA, 0x7740);
  (0xFAAB, 0x78CC); (0xFAAC, 0x7AB1); (0xFAAD, 0x7BC0); (0xFAAE, 0x7C7B); (0xFAAF, 0x7D5B);
  (0xFAB0, 0x7DF4); (0xFAB1, 0x7F3E); (0xFAB2, 0x8005); (0xFAB3, 0x8352); (0xFAB4, 0x83EF);
  (0xFAB5, 0x8779); (0xFAB6, 0x8941); (0xFAB7, 0x8986); (0xFAB8, 0x8996); (0xFAB9, 0x8ABF);
  (0xFABA, 0x8AF8); (0xFABB, 0x8ACB); (0xFABC, 0x8B01); (0xFABD, 0x8AFE); (0xFABE, 0x8AED);
  (0xFABF, 0x8B39); (0xFAC0, 0x8B8A); (0xFAC1, 0x8D08); (0xFAC2, 0x8F38); (0xFAC3, 0x9072);
  (0xFAC4, 0x9199); (0xFAC5, 0x9276); (0xFAC6, 0x967C); (0xFAC7, 0x96E3); (0xFAC8, 0x9756);
  (0xFAC9, 0x97DB); (0xFACA, 0x97FF); (0xFACB, 0x980B); (0xFACC, 0x983B); (0xFACD, 0x9B12);
  (0xFACE, 0x9F9C); (0xFACF, 0x2284A); (0xFAD0, 0x22844); (0xFAD1, 0x233D5); (0xFAD2, 0x3B9D);
  (0xFAD3, 0x4018); (0xFAD4, 0x4039); (0xFAD5, 0x25249); (0xFAD6, 0x25CD0); (0xFAD7, 0x27ED3);
  (0xFAD8, 0x9F43); (0xFAD9, 0x9F8E); (0x2F800, 0x4E3D); (0x2F801, 0x4E38); (0x2F802, 0x4E41);
  (0x2F803, 0x20122); (0x2F804, 0x4F60); (0x2F805, 0x4FAE); (0x2F806, 0x4FBB);
  (0x2F807, 0x5002); (0x2F808, 0x507A); (0x2F809, 0x5099); (0x2F80A, 0x50E7);
  (0x2F80B, 0x50CF); (0x2F80C, 0x349E); (0x2F80D, 0x2063A); (0x2F80E, 0x514D);
  (0x2F80F, 0x5154); (0x2F810, 0x5164); (0x2F811, 0x5177); (0x2F812, 0x2051C);
  (0x2F813, 0x34B9); (0x2F814, 0x5167); (0x2F815, 0x518D); (0x2F816, 0x2054B);
  (0x2F817, 0x5197); (0x2F818, 0x51A4); (0x2F819, 0x4ECC); (0x2F81A, 0x51AC);
  (0x2F81B, 0x51B5); (0x2F81C, 0x291DF); (0x2F81D, 0x51F5); (0x2F81E, 0x5203);
  (0x2F81F, 0x34DF); (0x2F820, 0x523B); (0x2F821, 0x5246); (0x2F822, 0x5272);
  (0x2F823, 0x5277); (0x2F824, 0x3515); (0x2F825, 0x52C7); (0x2F826, 0x52C9);
  (0x2F827, 0x52E4); (0x2F828, 0x52FA); (0x2F829, 0x5305); (0x2F82A, 0x5306);
  (0x2F82B, 0x5317); (0x2F82C, 0x5349); (0x2F82D, 0x5351); (0x2F82E, 0x535A);
  (0x2F82F, 0x5373); (0x2F830, 0x537D); (0x2F831, 0x537F); (0x2F832, 0x537F);
  (0x2F833, 0x537F); (0x2F834, 0x20A2C); (0x2F835, 0x7070); (0x2F836, 0x53CA);
  (0x2F837, 0x53DF); (0x2F838, 0x20B63); (0x2F839, 0x53EB); (0x2F83A, 0x53F1);
  (0x2F83B, 0x5406); (0x2F83C, 0x549E); (0x2F83D, 0x5438); (0x2F83E, 0x5448);
  (0x2F83F, 0x5468); (0x2F840, 0x54A2); (0x2F841, 0x54F6); (0x2F842, 0x5510);
  (0x2F843, 0x5553); (0x2F844, 0x5563); (0x2F845, 0x5584); (0x2F846, 0x5584);
  (0x2F847, 0x5599); (0x2F848, 0x55AB); (0x2F849, 0x55B3); (0x2F84A, 0x55C2);
  (0x2F84B, 0x5716); (0x2F84C, 0x5606); (0x2F84D, 0x5717); (0x2F84E, 0x5651);
  (0x2F84F, 0x5674); (0x2F850, 0x5207); (0x2F851, 0x58EE); (0x2F852, 0x57CE);
  (0x2F853, 0x57F4); (0x2F854, 0x580D); (0x2F855, 0x578B); (0x2F856, 0x5832);
  (0x2F857, 0x5831); (0x2F858, 0x58AC); (0x2F859, 0x214E4); (0x2F85A, 0x58F2);
  (0x2F85B, 0x58F7); (0x2F85C, 0x5906); (0x2F85D, 0x591A); (0x2F85E, 0x5922);
  (0x2F85F, 0x5962); (0x2F860, 0x216A8); (0x2F861, 0x216EA); (0x2F862, 0x59EC);
  (0x2F863, 0x5A1B); (0x2F864, 0x5A27); (0x2F865, 0x59D8); (0x2F866, 0x5A66);
  (0x2F867, 0x36EE); (0x2F868, 0x36FC); (0x2F869, 0x5B08); (0x2F86A, 0x5B3E);
  (0x2F86B, 0x5B3E); (0x2F86C, 0x219C8); (0x2F86D, 0x5BC3); (0x2F86E, 0x5BD8);
  (0x2F86F, 0x5BE7); (0x2F870, 0x5BF3); (0x2F871, 0x21B18); (0x2F872, 0x5BFF);
  (0x2F873, 0x5C06); (0x2F874, 0x5F53); (0x2F875, 0x5C22); (0x2F876, 0x3781);
  (0x2F877, 0x5C60); (0x2F878, 0x5C6E); (0x2F879, 0x5CC0); (0x2F87A, 0x5C8D);
  (0x2F87B, 0x21DE4); (0x2F87C, 0x5D43); (0x2F87D, 0x21DE6); (0x2F87E, 0x5D6E);
  (0x2F87F, 0x5D6B); (0x2F880, 0x5D7C); (0x2F881, 0x5DE1); (0x2F882, 0x5DE2);
  (0x2F883, 0x382F); (0x2F884, 0x5DFD); (0x2F885, 0x5E28); (0x2F886, 0x5E3D);
  (0x2F887, 0x5E69); (0x2F888, 0x3862); (0x2F889, 0x22183); (0x2F88A, 0x387C);
  (0x2F88B, 0x5EB0); (0x2F88C, 0x5EB3); (0x2F88D, 0x5EB6); (0x2F88E, 0x5ECA);
  (0x2F88F, 0x2A392); (0x2F890, 0x5EFE); (0x2F891, 0x22331); (0x2F892, 0x22331);
  (0x2F893, 0x8201); (0x2F894, 0x5F22); (0x2F895, 0x5F22); (0x2F896, 0x38C7);
  (0x2F897, 0x232B8); (0x2F898, 0x261DA); (0x2F899, 0x5F62); (0x2F89A, 0x5F6B);
  (0x2F89B, 0x38E3); (0x2F89C, 0x5F9A); (0x2F89D, 0x5FCD); (0x2F89E, 0x5FD7);
  (0x2F89F, 0x5FF9); (0x2F8A0, 0x6081); (0x2F8A1, 0x393A); (0x2F8A2, 0x391C);
  (0x2F8A3, 0x6094); (0x2F8A4, 0x226D4); (0x2F8A5, 0x60C7); (0x2F8A6, 0x6148);
  (0x2F8A7, 0x614C); (0x2F8A8, 0x614E); (0x2F8A9, 0x614C); (0x2F8AA, 0x617A);
  (0x2F8AB, 0x618E); (0x2F8AC, 0x61B2); (0x2F8AD, 0x61A4); (0x2F8AE, 0x61AF);
  (0x2F8AF, 0x61DE); (0x2F8B0, 0x61F2); (0x2F8B1, 0x61F6); (0x2F8B2, 0x6210);
  (0x2F8B3, 0x621B); (0x2F8B4, 0x625D); (0x2F8B5, 0x62B1); (0x2F8B6, 0x62D4);
  (0x2F8B7, 0x6350); (0x2F8B8, 0x22B0C); (0x2F8B9, 0x633D); (0x2F8BA, 0x62FC);
  (0x2F8BB, 0x6368); (0x2F8BC, 0x6383); (0x2F8BD, 0x63E4); (0x2F8BE, 0x22BF1);
  (0x2F8BF, 0x6422); (0x2F8C0, 0x63C5); (0x2F8C1, 0x63A9); (0x2F8C2, 0x3A2E);
  (0x2F8C3, 0x6469); (0x2F8C4, 0x647E); (0x2F8C5, 0x649D); (0x2F8C6, 0x6477);
  (0x2F8C7, 0x3A6C); (0x2F8C8, 0x654F); (0x2F8C9, 0x656C); (0x2F8CA, 0x2300A);
  (0x2F8CB, 0x65E3); (0x2F8CC, 0x66F8); (0x2F8CD, 0x6649); (0x2F8CE, 0x3B19);
  (0x2F8CF, 0x6691); (0x2F8D0, 0x3B08); (0x2F8D1, 0x3AE4); (0x2F8D2, 0x5192);
  (0x2F8D3, 0x5195); (0x2F8D4, 0x6700); (0x2F8D5, 0x669C); (0x2F8D6, 0x80AD);
  (0x2F8D7, 0x43D9); (0x2F8D8, 0x6717); (0x2F8D9, 0x671B); (0x2F8DA, 0x6721);
  (0x2F8DB, 0x675E); (0x2F8DC, 0x6753); (0x2F8DD, 0x233C3); (0x2F8DE, 0x3B49);
  (0x2F8DF, 0x67FA); (0x2F8E0, 0x6785); (0x2F8E1, 0x6852); (0x2F8E2, 0x6885);
  (0x2F8E3, 0x2346D); (0x2F8E4, 0x688E); (0x2F8E5, 0x681F); (0x2F8E6, 0x6914);
  (0x2F8E7, 0x3B9D); (0x2F8E8, 0x6942); (0x2F8E9, 0x69A3); (0x2F8EA, 0x69EA);
  (0x2F8EB, 0x6AA8); (0x2F8EC, 0x236A3); (0x2F8ED, 0x6ADB); (0x2F8EE, 0x3C18);
  (0x2F8EF, 0x6B21); (0x2F8F0, 0x238A7); (0x2F8F1, 0x6B54); (0x2F8F2, 0x3C4E);
  (0x2F8F3, 0x6B72); (0x2F8F4, 0x6B9F); (0x2F8F5, 0x6BBA); (0x2F8F6, 0x6BBB);
  (0x2F8F7, 0x23A8D); (0x2F8F8, 0x21D0B); (0x2F8F9, 0x23AFA); (0x2F8FA, 0x6C4E);
  (0x2F8FB, 0x23CBC); (0x2F8FC, 0x6CBF); (0x2F8FD, 0x6CCD); (0x2F8FE, 0x6C67);
  (0x2F8FF, 0x6D16); (0x2F900, 0x6D3E); (0x2F901, 0x6D77); (0x2F902, 0x6D41);
  (0x2F903, 0x6D69); (0x2F904, 0x6D78); (0x2F905, 0x6D85); (0x2F906, 0x23D1E);
  (0x2F907, 0x6D34); (0x2F908, 0x6E2F); (0x2F909, 0x6E6E); (0x2F90A, 0x3D33);
  (0x2F90B, 0x6ECB); (0x2F90C, 0x6EC7); (0x2F90D, 0x23ED1); (0x2F90E, 0x6DF9);
  (0x2F90F, 0x6F6E); (0x2F910, 0x23F5E); (0x2F911, 0x23F8E); (0x2F912, 0x6FC6);
  (0x2F913, 0x7039); (0x2F914, 0x701E); (0x2F915, 0x701B); (0x2F916, 0x3D96);
  (0x2F917, 0x704A); (0x2F918, 0x707D); (0x2F919, 0x7077); (0x2F91A, 0x70AD);
  (0x2F91B, 0x20525); (0x2F91C, 0x7145); (0x2F91D, 0x24263); (0x2F91E, 0x719C);
  (0x2F91F, 0x243AB); (0x2F920, 0x7228); (0x2F921, 0x7235); (0x2F922, 0x7250);
  (0x2F923, 0x24608); (0x2F924, 0x7280); (0x2F925, 0x7295); (0x2F926, 0x24735);
  (0x2F927, 0x24814); (0x2F928, 0x737A); (0x2F929, 0x738B); (0x2F92A, 0x3EAC);
  (0x2F92B, 0x73A5); (0x2F92C, 0x3EB8); (0x2F92D, 0x3EB8); (0x2F92E, 0x7447);
  (0x2F92F, 0x745C); (0x2F930, 0x7471); (0x2F931, 0x7485); (0x2F932, 0x74CA);
  (0x2F933, 0x3F1B); (0x2F934, 0x7524); (0x2F935, 0x24C36); (0x2F936, 0x753E);
  (0x2F937, 0x24C92); (0x2F938, 0x7570); (0x2F939, 0x2219F); (0x2F93A, 0x7610);
  (0x2F93B, 0x24FA1); (0x2F93C, 0x24FB8); (0x2F93D, 0x25044); (0x2F93E, 0x3FFC);
  (0x2F93F, 0x4008); (0x2F940, 0x76F4); (0x2F941, 0x250F3); (0x2F942, 0x250F2);
  (0x2F943, 0x25119); (0x2F944, 0x25133); (0x2F945, 0x771E); (0x2F946, 0x771F);
  (0x2F947, 0x771F); (0x2F948, 0x774A); (0x2F949, 0x4039); (0x2F94A, 0x778B);
  (0x2F94B, 0x4046); (0x2F94C, 0x4096); (0x2F94D, 0x2541D); (0x2F94E, 0x784E);
  (0x2F94F, 0x788C); (0x2F950, 0x78CC); (0x2F951, 0x40E3); (0x2F952, 0x25626);
  (0x2F953, 0x7956); (0x2F954, 0x2569A); (0x2F955, 0x256C5); (0x2F956, 0x798F);
  (0x2F957, 0x79EB); (0x2F958, 0x412F); (0x2F959, 0x7A40); (0x2F95A, 0x7A4A);
  (0x2F95B, 0x7A4F); (0x2F95C, 0x2597C); (0x2F95D, 0x25AA7); (0x2F95E, 0x25AA7);
  (0x2F95F, 0x7AEE); (0x2F960, 0x4202); (0x2F961, 0x25BAB); (0x2F962, 0x7BC6);
  (0x2F963, 0x7BC9); (0x2F964, 0x4227); (0x2F965, 0x25C80); (0x2F966, 0x7CD2);
  (0x2F967, 0x42A0); (0x2F968, 0x7CE8); (0x2F969, 0x7CE3); (0x2F96A, 0x7D00);
  (0x2F96B, 0x25F86); (0x2F96C, 0x7D63); (0x2F96D, 0x4301); (0x2F96E, 0x7DC7);
  (0x2F96F, 0x7E02); (0x2F970, 0x7E45); (0x2F971, 0x4334); (0x2F972, 0x26228);
  (0x2F973, 0x26247); (0x2F974, 0x4359); (0x2F975, 0x262D9); (0x2F976, 0x7F7A);
  (0x2F977, 0x2633E); (0x2F978, 0x7F95); (0x2F979, 0x7FFA); (0x2F97A, 0x8005);
  (0x2F97B, 0x264DA); (0x2F97C, 0x26523); (0x2F97D, 0x8060); (0x2F97E, 0x265A8);
  (0x2F97F, 0x8070); (0x2F980, 0x2335F); (0x2F981, 0x43D5); (0x2F982, 0x80B2);
  (0x2F983, 0x8103); (0x2F984, 0x440B); (0x2F985, 0x813E); (0x2F986, 0x5AB5);
  (0x2F987, 0x267A7); (0x2F988, 0x267B5); (0x2F989, 0x23393); (0x2F98A, 0x2339C);
  (0x2F98B, 0x8201); (0x2F98C, 0x8204); (0x2F98D, 0x8F9E); (0x2F98E, 0x446B);
  (0x2F98F, 0x8291); (0x2F990, 0x828B); (0x2F991, 0x829D); (0x2F992, 0x52B3);
  (0x2F993, 0x82B1); (0x2F994, 0x82B3); (0x2F995, 0x82BD); (0x2F996, 0x82E6);
  (0x2F997, 0x26B3C); (0x2F998, 0x82E5); (0x2F999, 0x831D); (0x2F99A, 0x8363);
  (0x2F99B, 0x83AD); (0x2F99C, 0x8323); (0x2F99D, 0x83BD); (0x2F99E, 0x83E7);
  (0x2F99F, 0x8457); (0x2F9A0, 0x8353); (0x2F9A1, 0x83CA); (0x2F9A2, 0x83CC);
  (0x2F9A3, 0x83DC); (0x2F9A4, 0x26C36); (0x2F9A5, 0x26D6B); (0x2F9A6, 0x26CD5);
  (0x2F9A7, 0x452B); (0x2F9A8, 0x84F1); (0x2F9A9, 0x84F3); (0x2F9AA, 0x8516);
  (0x2F9AB, 0x273CA); (0x2F9AC, 0x8564); (0x2F9AD, 0x26F2C); (0x2F9AE, 0x455D);
  (0x2F9AF, 0x4561); (0x2F9B0, 0x26FB1); (0x2F9B1, 0x270D2); (0x2F9B2, 0x456B);
  (0x2F9B3, 0x8650); (0x2F9B4, 0x865C); (0x2F9B5, 0x8667); (0x2F9B6, 0x8669);
  (0x2F9B7, 0x86A9); (0x2F9B8, 0x8688); (0x2F9B9, 0x870E); (0x2F9BA, 0x86E2);
  (0x2F9BB, 0x8779); (0x2F9BC, 0x8728); (0x2F9BD, 0x876B); (0x2F9BE, 0x8786);
  (0x2F9BF, 0x45D7); (0x2F9C0, 0x87E1); (0x2F9C1, 0x8801); (0x2F9C2, 0x45F9);
  (0x2F9C3, 0x8860); (0x2F9C4, 0x8863); (0x2F9C5, 0x27667); (0x2F9C6, 0x88D7);
  (0x2F9C7, 0x88DE); (0x2F9C8, 0x4635); (0x2F9C9, 0x88FA); (0x2F9CA, 0x34BB);
  (0x2F9CB, 0x278AE); (0x2F9CC, 0x27966); (0x2F9CD, 0x46BE); (0x2F9CE, 0x46C7);
  (0x2F9CF, 0x8AA0); (0x2F9D0, 0x8AED); (0x2F9D1, 0x8B8A); (0x2F9D2, 0x8C55);
  (0x2F9D3, 0x27CA8); (0x2F9D4, 0x8CAB); (0x2F9D5, 0x8CC1); (0x2F9D6, 0x8D1B);
  (0x2F9D7, 0x8D77); (0x2F9D8, 0x27F2F); (0x2F9D9, 0x20804); (0x2F9DA, 0x8DCB);
  (0x2F9DB, 0x8DBC); (0x2F9DC, 0x8DF0); (0x2F9DD, 0x208DE); (0x2F9DE, 0x8ED4);
  (0x2F9DF, 0x8F38); (0x2F9E0, 0x285D2); (0x2F9E1, 0x285ED); (0x2F9E2, 0x9094);
  (0x2F9E3, 0x90F1); (0x2F9E4, 0x9111); (0x2F9E5, 0x2872E); (0x2F9E6, 0x911B);
  (0x2F9E7, 0x9238); (0x2F9E8, 0x92D7); (0x2F9E9, 0x92D8); (0x2F9EA, 0x927C);
  (0x2F9EB, 0x93F9); (0x2F9EC, 0x9415); (0x2F9ED, 0x28BFA); (0x2F9EE, 0x958B);
  (0x2F9EF, 0x4995); (0x2F9F0, 0x95B7); (0x2F9F1, 0x28D77); (0x2F9F2, 0x49E6);
  (0x2F9F3, 0x96C3); (0x2F9F4, 0x5DB2); (0x2F9F5, 0x9723); (0x2F9F6, 0x29145);
  (0x2F9F7, 0x2921A); (0x2F9F8, 0x4A6E); (0x2F9F9, 0x4A76); (0x2F9FA, 0x97E0);
  (0x2F9FB, 0x2940A); (0x2F9FC, 0x4AB2); (0x2F9FD, 0x29496); (0x2F9FE, 0x980B);
  (0x2F9FF, 0x980B); (0x2FA00, 0x9829); (0x2FA01, 0x295B6); (0x2FA02, 0x98E2);
  (0x2FA03, 0x4B33); (0x2FA04, 0x9929); (0x2FA05, 0x99A7); (0x2FA06, 0x99C2);
  (0x2FA07, 0x99FE); (0x2FA08, 0x4BCE); (0x2FA09, 0x29B30); (0x2FA0A, 0x9B12);
  (0x2FA0B, 0x9C40); (0x2FA0C, 0x9CFD); (0x2FA0D, 0x4CCE); (0x2FA0E, 0x4CED);
  (0x2FA0F, 0x9D67); (0x2FA10, 0x2A0CE); (0x2FA11, 0x4CF8); (0x2FA12, 0x2A105);
  (0x2FA13, 0x2A20E); (0x2FA14, 0x2A291); (0x2FA15, 0x9EBB); (0x2FA16, 0x4D56);
  (0x2FA17, 0x9EF9); (0x2FA18, 0x9EFE); (0x2FA19, 0x9F05); (0x2FA1A, 0x9F0F);
  (0x2FA1B, 0x9F16); (0x2FA1C, 0x9F3B); (0x2FA1D, 0x2A600)
]%N.

(** Canonical decomposition mappings to two characters that also compose
    back: [(c, first, second)]. *)
Definition primary_composites : list (N * N * N) := [
  (0xC0, 0x41, 0x300); (0xC1, 0x41, 0x301); (0xC2, 0x41, 0x302); (0xC3, 0x41, 0x303);
  (0xC4, 0x41, 0x308); (0xC5, 0x41, 0x30A); (0xC7, 0x43, 0x327); (0xC8, 0x45, 0x300);
  (0xC9, 0x45, 0x301); (0xCA, 0x45, 0x302); (0xCB, 0x45, 0x308); (0xCC, 0x49, 0x300);
  (0xCD, 0x49, 0x301); (0xCE, 0x49, 0x302); (0xCF, 0x49, 0x308); (0xD1, 0x4E, 0x303);
  (0xD2, 0x4F, 0x300); (0xD3, 0x4F, 0x301); (0xD4, 0x4F, 0x302); (0xD5, 0x4F, 0x303);
  (0xD6, 0x4F, 0x308); (0xD9, 0x55, 0x300); (0xDA, 0x55, 0x301); (0xDB, 0x55, 0x302);
  (0xDC, 0x55, 0x308); (0xDD, 0x59, 0x301); (0xE0, 0x61, 0x300); (0xE1, 0x61, 0x301);
  (0xE2, 0x61, 0x302); (0xE3, 0x61, 0x303); (0xE4, 0x61, 0x308); (0xE5, 0x61, 0x30A);
  (0xE7, 0x63, 0x327); (0xE8, 0x65, 0x300); (0xE9, 0x65, 0x301); (0xEA, 0x65, 0x302);
  (0xEB, 0x65, 0x308); (0xEC, 0x69, 0x300); (0xED, 0x69, 0x301); (0xEE, 0x69, 0x302);
  (0xEF, 0x69, 0x308); (0xF1, 0x6E, 0x303); (0xF2, 0x6F, 0x300); (0xF3, 0x6F, 0x301);
  (0xF4, 0x6F, 0x302); (0xF5, 0x6F, 0x303); (0xF6, 0x6F, 0x308); (0xF9, 0x75, 0x300);
  (0xFA, 0x75, 0x301); (0xFB, 0x75, 0x302); (0xFC, 0x75, 0x308); (0xFD, 0x79, 0x301);
  (0xFF, 0x79, 0x308); (0x100, 0x41, 0x304); (0x101, 0x61, 0x304); (0x102, 0x41, 0x306);
  (0x103, 0x61, 0x306); (0x104, 0x41, 0x328); (0x105, 0x61, 0x328); (0x106, 0x43, 0x301);
  (0x107, 0x63, 0x301); (0x108, 0x43, 0x302); (0x109, 0x63, 0x302); (0x10A, 0x43, 0x307);
  (0x10B, 0x63, 0x307); (0x10C, 0x43, 0x30C); (0x10D, 0x63, 0x30C); (0x10E, 0x44, 0x30C);
  (0x10F, 0x64, 0x30C); (0x112, 0x45, 0x304); (0x113, 0x65, 0x304); (0x114, 0x45, 0x306);
  (0x115, 0x65, 0x306); (0x116, 0x45, 0x307); (0x117, 0x65, 0x307); (0x118, 0x45, 0x328);
  (0x119, 0x65, 0x328); (0x11A, 0x45, 0x30C); (0x11B, 0x65, 0x30C); (0x11C, 0x47, 0x302);
  (0x11D, 0x67, 0x302); (0x11E, 0x47, 0x306); (0x11F, 0x67, 0x306); (0x120, 0x47, 0x307);
  (0x121, 0x67, 0x307); (0x122, 0x47, 0x327); (0x123, 0x67, 0x327); (0x124, 0x48, 0x302);
  (0x125, 0x68, 0x302); (0x128, 0x49, 0x303); (0x129, 0x69, 0x303); (0x12A, 0x49, 0x304);
  (0x12B, 0x69, 0x304); (0x12C, 0x49, 0x306); (0x12D, 0x69, 0x306); (0x12E, 0x49, 0x328);
  (0x12F, 0x69, 0x328); (0x130, 0x49, 0x307); (0x134, 0x4A, 0x302); (0x135, 0x6A, 0x302);
  (0x136, 0x4B, 0x327); (0x137, 0x6B, 0x327); (0x139, 0x4C, 0x301); (0x13A, 0x6C, 0x301);
  (0x13B, 0x4C, 0x327); (0x13C, 0x6C, 0x327); (0x13D, 0x4C, 0x30C); (0x13E, 0x6C, 0x30C);
  (0x143, 0x4E, 0x301); (0x144, 0x6E, 0x301); (0x145, 0x4E, 0x327); (0x146, 0x6E, 0x327);
  (0x147, 0x4E, 0x30C); (0x148, 0x6E, 0x30C); (0x14C, 0x4F, 0x304); (0x14D, 0x6F, 0x304);
  (0x14E, 0x4F, 0x306); (0x14F, 0x6F, 0x306); (0x150, 0x4F, 0x30B); (0x151, 0x6F, 0x30B);
  (0x154, 0x52, 0x301); (0x155, 0x72, 0x301); (0x156, 0x52, 0x327); (0x157, 0x72, 0x327);
  (0x158, 0x52, 0x30C); (0x159, 0x72, 0x30C); (0x15A, 0x53, 0x301); (0x15B, 0x73, 0x301);
  (0x15C, 0x53, 0x302); (0x15D, 0x73, 0x302); (0x15E, 0x53, 0x327); (0x15F, 0x73, 0x327);
  (0x160, 0x53, 0x30C); (0x161, 0x73, 0x30C); (0x162, 0x54, 0x327); (0x163, 0x74, 0x327);
  (0x164, 0x54, 0x30C); (0x165, 0x74, 0x30C); (0x168, 0x55, 0x303); (0x169, 0x75, 0x303);
  (0x16A, 0x55, 0x304); (0x16B, 0x75, 0x304); (0x16C, 0x55, 0x306); (0x16D, 0x75, 0x306);
  (0x16E, 0x55, 0x30A); (0x16F, 0x75, 0x30A); (0x170, 0x55, 0x30B); (0x171, 0x75, 0x30B);
  (0x172, 0x55, 0x328); (0x173, 0x75, 0x328); (0x174, 0x57, 0x302); (0x175, 0x77, 0x302);
  (0x176, 0x59, 0x302); (0x177, 0x79, 0x302); (0x178, 0x59, 0x308); (0x179, 0x5A, 0x301);
  (0x17A, 0x7A, 0x301); (0x17B, 0x5A, 0x307); (0x17C, 0x7A, 0x307); (0x17D, 0x5A, 0x30C);
  (0x17E, 0x7A, 0x30C); (0x1A0, 0x4F, 0x31B); (0x1A1, 0x6F, 0x31B); (0x1AF, 0x55, 0x31B);
  (0x1B0, 0x75, 0x31B); (0x1CD, 0x41, 0x30C); (0x1CE, 0x61, 0x30C); (0x1CF, 0x49, 0x30C);
  (0x1D0, 0x69, 0x30C); (0x1D1, 0x4F, 0x30C); (0x1D2, 0x6F, 0x30C); (0x1D3, 0x55, 0x30C);
  (0x1D4, 0x75, 0x30C); (0x1D5, 0xDC, 0x304); (0x1D6, 0xFC, 0x304); (0x1D7, 0xDC, 0x301);
  (0x1D8, 0xFC, 0x301); (0x1D9, 0xDC, 0x30C); (0x1DA, 0xFC, 0x30C); (0x1DB, 0xDC, 0x300);
  (0x1DC, 0xFC, 0x300); (0x1DE, 0xC4, 0x304); (0x1DF, 0xE4, 0x304); (0x1E0, 0x226, 0x304);
  (0x1E1, 0x227, 0x304); (0x1E2, 0xC6, 0x304); (0x1E3, 0xE6, 0x304); (0x1E6, 0x47, 0x30C);
  (0x1E7, 0x67, 0x30C); (0x1E8, 0x4B, 0x30C); (0x1E9, 0x6B, 0x30C); (0x1EA, 0x4F, 0x328);
  (0x1EB, 0x6F, 0x328); (0x1EC, 0x1EA, 0x304); (0x1ED, 0x1EB, 0x304); (0x1EE, 0x1B7, 0x30C);
  (0x1EF, 0x292, 0x30C); (0x1F0, 0x6A, 0x30C); (0x1F4, 0x47, 0x301); (0x1F5, 0x67, 0x301);
  (0x1F8, 0x4E, 0x300); (0x1F9, 0x6E, 0x300); (0x1FA, 0xC5, 0x301); (0x1FB, 0xE5, 0x301);
  (0x1FC, 0xC6, 0x301); (0x1FD, 0xE6, 0x301); (0x1FE, 0xD8, 0x301); (0x1FF, 0xF8, 0x301);
  (0x200, 0x41, 0x30F); (0x201, 0x61, 0x30F); (0x202, 0x41, 0x311); (0x203, 0x61, 0x311);
  (0x204, 0x45, 0x30F); (0x205, 0x65, 0x30F); (0x206, 0x45, 0x311); (0x207, 0x65, 0x311);
  (0x208, 0x49, 0x30F); (0x209, 0x69, 0x30F); (0x20A, 0x49, 0x311); (0x20B, 0x69, 0x311);
  (0x20C, 0x4F, 0x30F); (0x20D, 0x6F, 0x30F); (0x20E, 0x4F, 0x311); (0x20F, 0x6F, 0x311);
  (0x210, 0x52, 0x30F); (0x211, 0x72, 0x30F); (0x212, 0x52, 0x311); (0x213, 0x72, 0x311);
  (0x214, 0x55, 0x30F); (0x215, 0x75, 0x30F); (0x216, 0x55, 0x311); (0x217, 0x75, 0x311);
  (0x218, 0x53, 0x326); (0x219, 0x73, 0x326); (0x21A, 0x54, 0x326); (0x21B, 0x74, 0x326);
  (0x21E, 0x48, 0x30C); (0x21F, 0x68, 0x30C); (0x226, 0x41, 0x307); (0x227, 0x61, 0x307);
  (0x228, 0x45, 0x327); (0x229, 0x65, 0x327); (0x22A, 0xD6, 0x304); (0x22B, 0xF6, 0x304);
  (0x22C, 0xD5, 0x304); (0x22D, 0xF5, 0x304); (0x22E, 0x4F, 0x307); (0x22F, 0x6F, 0x307);
  (0x230, 0x22E, 0x304); (0x231, 0x22F, 0x304); (0x232, 0x59, 0x304); (0x233, 0x79, 0x304);
  (0x385, 0xA8, 0x301); (0x386, 0x391, 0x301); (0x388, 0x395, 0x301); (0x389, 0x397, 0x301);
  (0x38A, 0x399, 0x301); (0x38C, 0x39F, 0x301); (0x38E, 0x3A5, 0x301); (0x38F, 0x3A9, 0x301);
  (0x390, 0x3CA, 0x301); (0x3AA, 0x399, 0x308); (0x3AB, 0x3A5, 0x308); (0x3AC, 0x3B1, 0x301);
  (0x3AD, 0x3B5, 0x301); (0x3AE, 0x3B7, 0x301); (0x3AF, 0x3B9, 0x301); (0x3B0, 0x3CB, 0x301);
  (0x3CA, 0x3B9, 0x308); (0x3CB, 0x3C5, 0x308); (0x3CC, 0x3BF, 0x301); (0x3CD, 0x3C5, 0x301);
  (0x3CE, 0x3C9, 0x301); (0x3D3, 0x3D2, 0x301); (0x3D4, 0x3D2, 0x308); (0x400, 0x415, 0x300);
  (0x401, 0x415, 0x308); (0x403, 0x413, 0x301); (0x407, 0x406, 0x308); (0x40C, 0x41A, 0x301);
  (0x40D, 0x418, 0x300); (0x40E, 0x423, 0x306); (0x419, 0x418, 0x306); (0x439, 0x438, 0x306);
  (0x450, 0x435, 0x300); (0x451, 0x435, 0x308); (0x453, 0x433, 0x301); (0x457, 0x456, 0x308);
  (0x45C, 0x43A, 0x301); (0x45D, 0x438, 0x300); (0x45E, 0x443, 0x306); (0x476, 0x474, 0x30F);
  (0x477, 0x475, 0x30F); (0x4C1, 0x416, 0x306); (0x4C2, 0x436, 0x306); (0x4D0, 0x410, 0x306);
  (0x4D1, 0x430, 0x306); (0x4D2, 0x410, 0x308); (0x4D3, 0x430, 0x308); (0x4D6, 0x415, 0x306);
  (0x4D7, 0x435, 0x306); (0x4DA, 0x4D8, 0x308); (0x4DB, 0x4D9, 0x308); (0x4DC, 0x416, 0x308);
  (0x4DD, 0x436, 0x308); (0x4DE, 0x417, 0x308); (0x4DF, 0x437, 0x308); (0x4E2, 0x418, 0x304);
  (0x4E3, 0x438, 0x304); (0x4E4, 0x418, 0x308); (0x4E5, 0x438, 0x308); (0x4E6, 0x41E, 0x308);
  (0x4E7, 0x43E, 0x308); (0x4EA, 0x4E8, 0x308); (0x4EB, 0x4E9, 0x308); (0x4EC, 0x42D, 0x308);
  (0x4ED, 0x44D, 0x308); (0x4EE, 0x423, 0x304); (0x4EF, 0x443, 0x304); (0x4F0, 0x423, 0x308);
  (0x4F1, 0x443, 0x308); (0x4F2, 0x423, 0x30B); (0x4F3, 0x443, 0x30B); (0x4F4, 0x427, 0x308);
  (0x4F5, 0x447, 0x308); (0x4F8, 0x42B, 0x308); (0x4F9, 0x44B, 0x308); (0x622, 0x627, 0x653);
  (0x623, 0x627, 0x654); (0x624, 0x648, 0x654); (0x625, 0x627, 0x655); (0x626, 0x64A, 0x654);
  (0x6C0, 0x6D5, 0x654); (0x6C2, 0x6C1, 0x654); (0x6D3, 0x6D2, 0x654); (0x929, 0x928, 0x93C);
  (0x931, 0x930, 0x93C); (0x934, 0x933, 0x93C); (0x9CB, 0x9C7, 0x9BE); (0x9CC, 0x9C7, 0x9D7);
  (0xB48, 0xB47, 0xB56); (0xB4B, 0xB47, 0xB3E); (0xB4C, 0xB47, 0xB57); (0xB94, 0xB92, 0xBD7);
  (0xBCA, 0xBC6, 0xBBE); (0xBCB, 0xBC7, 0xBBE); (0xBCC, 0xBC6, 0xBD7); (0xC48, 0xC46, 0xC56);
  (0xCC0, 0xCBF, 0xCD5); (0xCC7, 0xCC6, 0xCD5); (0xCC8, 0xCC6, 0xCD6); (0xCCA, 0xCC6, 0xCC2);
  (0xCCB, 0xCCA, 0xCD5); (0xD4A, 0xD46, 0xD3E); (0xD4B, 0xD47, 0xD3E); (0xD4C, 0xD46, 0xD57);
  (0xDDA, 0xDD9, 0xDCA); (0xDDC, 0xDD9, 0xDCF); (0xDDD, 0xDDC, 0xDCA); (0xDDE, 0xDD9, 0xDDF);
  (0x1026, 0x1025, 0x102E); (0x1B06, 0x1B05, 0x1B35); (0x1B08, 0x1B07, 0x1B35);
  (0x1B0A, 0x1B09, 0x1B35); (0x1B0C, 0x1B0B, 0x1B35); (0x1B0E, 0x1B0D, 0x1B35);
  (0x1B12, 0x1B11, 0x1B35); (0x1B3B, 0x1B3A, 0x1B35); (0x1B3D, 0x1B3C, 0x1B35);
  (0x1B40, 0x1B3E, 0x1B35); (0x1B41, 0x1B3F, 0x1B35); (0x1B43, 0x1B42, 0x1B35);
  (0x1E00, 0x41, 0x325); (0x1E01, 0x61, 0x325); (0x1E02, 0x42, 0x307); (0x1E03, 0x62, 0x307);
  (0x1E04, 0x42, 0x323); (0x1E05, 0x62, 0x323); (0x1E06, 0x42, 0x331); (0x1E07, 0x62, 0x331);
  (0x1E08, 0xC7, 0x301); (0x1E09, 0xE7, 0x301); (0x1E0A, 0x44, 0x307); (0x1E0B, 0x64, 0x307);
  (0x1E0C, 0x44, 0x323); (0x1E0D, 0x64, 0x323); (0x1E0E, 0x44, 0x331); (0x1E0F, 0x64, 0x331);
  (0x1E10, 0x44, 0x327); (0x1E11, 0x64, 0x327); (0x1E12, 0x44, 0x32D); (0x1E13, 0x64, 0x32D);
  (0x1E14, 0x112, 0x300); (0x1E15, 0x113, 0x300); (0x1E16, 0x112, 0x301);
  (0x1E17, 0x113, 0x301); (0x1E18, 0x45, 0x32D); (0x1E19, 0x65, 0x32D); (0x1E1A, 0x45, 0x330);
  (0x1E1B, 0x65, 0x330); (0x1E1C, 0x228, 0x306); (0x1E1D, 0x229, 0x306); (0x1E1E, 0x46, 0x307);
  (0x1E1F, 0x66, 0x307); (0x1E20, 0x47, 0x304); (0x1E21, 0x67, 0x304); (0x1E22, 0x48, 0x307);
  (0x1E23, 0x68, 0x307); (0x1E24, 0x48, 0x323); (0x1E25, 0x68, 0x323); (0x1E26, 0x48, 0x308);
  (0x1E27, 0x68, 0x308); (0x1E28, 0x48, 0x327); (0x1E29, 0x68, 0x327); (0x1E2A, 0x48, 0x32E);
  (0x1E2B, 0x68, 0x32E); (0x1E2C, 0x49, 0x330); (0x1E2D, 0x69, 0x330); (0x1E2E, 0xCF, 0x301);
  (0x1E2F, 0xEF, 0x301); (0x1E30, 0x4B, 0x301); (0x1E31, 0x6B, 0x301); (0x1E32, 0x4B, 0x323);
  (0x1E33, 0x6B, 0x323); (0x1E34, 0x4B, 0x331); (0x1E35, 0x6B, 0x331); (0x1E36, 0x4C, 0x323);
  (0x1E37, 0x6C, 0x323); (0x1E38, 0x1E36, 0x304); (0x1E39, 0x1E37, 0x304);
  (0x1E3A, 0x4C, 0x331); (0x1E3B, 0x6C, 0x331); (0x1E3C, 0x4C, 0x32D); (0x1E3D, 0x6C, 0x32D);
  (0x1E3E, 0x4D, 0x301); (0x1E3F, 0x6D, 0x301); (0x1E40, 0x4D, 0x307); (0x1E41, 0x6D, 0x307);
  (0x1E42, 0x4D, 0x323); (0x1E43, 0x6D, 0x323); (0x1E44, 0x4E, 0x307); (0x1E45, 0x6E, 0x307);
  (0x1E46, 0x4E, 0x323); (0x1E47, 0x6E, 0x323); (0x1E48, 0x4E, 0x331); (0x1E49, 0x6E, 0x331);
  (0x1E4A, 0x4E, 0x32D); (0x1E4B, 0x6E, 0x32D); (0x1E4C, 0xD5, 0x301); (0x1E4D, 0xF5, 0x301);
  (0x1E4E, 0xD5, 0x308); (0x1E4F, 0xF5, 0x308); (0x1E50, 0x14C, 0x300); (0x1E51, 0x14D, 0x300);
  (0x1E52, 0x14C, 0x301); (0x1E53, 0x14D, 0x301); (0x1E54, 0x50, 0x301); (0x1E55, 0x70, 0x301);
  (0x1E56, 0x50, 0x307); (0x1E57, 0x70, 0x307); (0x1E58, 0x52, 0x307); (0x1E59, 0x72, 0x307);
  (0x1E5A, 0x52, 0x323); (0x1E5B, 0x72, 0x323); (0x1E5C, 0x1E5A, 0x304);
  (0x1E5D, 0x1E5B, 0x304); (0x1E5E, 0x52, 0x331); (0x1E5F, 0x72, 0x331); (0x1E60, 0x53, 0x307);
  (0x1E61, 0x73, 0x307); (0x1E62, 0x53, 0x323); (0x1E63, 0x73, 0x323); (0x1E64, 0x15A, 0x307);
  (0x1E65, 0x15B, 0x307); (0x1E66, 0x160, 0x307); (0x1E67, 0x161, 0x307);
  (0x1E68, 0x1E62, 0x307); (0x1E69, 0x1E63, 0x307); (0x1E6A, 0x54, 0x307);
  (0x1E6B, 0x74, 0x307); (0x1E6C, 0x54, 0x323); (0x1E6D, 0x74, 0x323); (0x1E6E, 0x54, 0x331);
  (0x1E6F, 0x74, 0x331); (0x1E70, 0x54, 0x32D); (0x1E71, 0x74, 0x32D); (0x1E72, 0x55, 0x324);
  (0x1E73, 0x75, 0x324); (0x1E74, 0x55, 0x330); (0x1E75, 0x75, 0x330); (0x1E76, 0x55, 0x32D);
  (0x1E77, 0x75, 0x32D); (0x1E78, 0x168, 0x301); (0x1E79, 0x169, 0x301);
  (0x1E7A, 0x16A, 0x308); (0x1E7B, 0x16B, 0x308); (0x1E7C, 0x56, 0x303); (0x1E7D, 0x76, 0x303);
  (0x1E7E, 0x56, 0x323); (0x1E7F, 0x76, 0x323); (0x1E80, 0x57, 0x300); (0x1E81, 0x77, 0x300);
  (0x1E82, 0x57, 0x301); (0x1E83, 0x77, 0x301); (0x1E84, 0x57, 0x308); (0x1E85, 0x77, 0x308);
  (0x1E86, 0x57, 0x307); (0x1E87, 0x77, 0x307); (0x1E88, 0x57, 0x323); (0x1E89, 0x77, 0x323);
  (0x1E8A, 0x58, 0x307); (0x1E8B, 0x78, 0x307); (0x1E8C, 0x58, 0x308); (0x1E8D, 0x78, 0x308);
  (0x1E8E, 0x59, 0x307); (0x1E8F, 0x79, 0x307); (0x1E90, 0x5A, 0x302); (0x1E91, 0x7A, 0x302);
  (0x1E92, 0x5A, 0x323); (0x1E93, 0x7A, 0x323); (0x1E94, 0x5A, 0x331); (0x1E95, 0x7A, 0x331);
  (0x1E96, 0x68, 0x331); (0x1E97, 0x74, 0x308); (0x1E98, 0x77, 0x30A); (0x1E99, 0x79, 0x30A);
  (0x1E9B, 0x17F, 0x307); (0x1EA0, 0x41, 0x323); (0x1EA1, 0x61, 0x323); (0x1EA2, 0x41, 0x309);
  (0x1EA3, 0x61, 0x309); (0x1EA4, 0xC2, 0x301); (0x1EA5, 0xE2, 0x301); (0x1EA6, 0xC2, 0x300);
  (0x1EA7, 0xE2, 0x300); (0x1EA8, 0xC2, 0x309); (0x1EA9, 0xE2, 0x309); (0x1EAA, 0xC2, 0x303);
  (0x1EAB, 0xE2, 0x303); (0x1EAC, 0x1EA0, 0x302); (0x1EAD, 0x1EA1, 0x302);
  (0x1EAE, 0x102, 0x301); (0x1EAF, 0x103, 0x301); (0x1EB0, 0x102, 0x300);
  (0x1EB1, 0x103, 0x300); (0x1EB2, 0x102, 0x309); (0x1EB3, 0x103, 0x309);
  (0x1EB4, 0x102, 0x303); (0x1EB5, 0x103, 0x303); (0x1EB6, 0x1EA0, 0x306);
  (0x1EB7, 0x1EA1, 0x306); (0x1EB8, 0x45, 0x323); (0x1EB9, 0x65, 0x323); (0x1EBA, 0x45, 0x309);
  (0x1EBB, 0x65, 0x309); (0x1EBC, 0x45, 0x303); (0x1EBD, 0x65, 0x303); (0x1EBE, 0xCA, 0x301);
  (0x1EBF, 0xEA, 0x301); (0x1EC0, 0xCA, 0x300); (0x1EC1, 0xEA, 0x300); (0x1EC2, 0xCA, 0x309);
  (0x1EC3, 0xEA, 0x309); (0x1EC4, 0xCA, 0x303); (0x1EC5, 0xEA, 0x303); (0x1EC6, 0x1EB8, 0x302);
  (0x1EC7, 0x1EB9, 0x302); (0x1EC8, 0x49, 0x309); (0x1EC9, 0x69, 0x309); (0x1ECA, 0x49, 0x323);
  (0x1ECB, 0x69, 0x323); (0x1ECC, 0x4F, 0x323); (0x1ECD, 0x6F, 0x323); (0x1ECE, 0x4F, 0x309);
  (0x1ECF, 0x6F, 0x309); (0x1ED0, 0xD4, 0x301); (0x1ED1, 0xF4, 0x301); (0x1ED2, 0xD4, 0x300);
  (0x1ED3, 0xF4, 0x300); (0x1ED4, 0xD4, 0x309); (0x1ED5, 0xF4, 0x309); (0x1ED6, 0xD4, 0x303);
  (0x1ED7, 0xF4, 0x303); (0x1ED8, 0x1ECC, 0x302); (0x1ED9, 0x1ECD, 0x302);
  (0x1EDA, 0x1A0, 0x301); (0x1EDB, 0x1A1, 0x301); (0x1EDC, 0x1A0, 0x300);
  (0x1EDD, 0x1A1, 0x300); (0x1EDE, 0x1A0, 0x309); (0x1EDF, 0x1A1, 0x309);
  (0x1EE0, 0x1A0, 0x303); (0x1EE1, 0x1A1, 0x303); (0x1EE2, 0x1A0, 0x323);
  (0x1EE3, 0x1A1, 0x323); (0x1EE4, 0x55, 0x323); (0x1EE5, 0x75, 0x323); (0x1EE6, 0x55, 0x309);
  (0x1EE7, 0x75, 0x309); (0x1EE8, 0x1AF, 0x301); (0x1EE9, 0x1B0, 0x301);
  (0x1EEA, 0x1AF, 0x300); (0x1EEB, 0x1B0, 0x300); (0x1EEC, 0x1AF, 0x309);
  (0x1EED, 0x1B0, 0x309); (0x1EEE, 0x1AF, 0x303); (0x1EEF, 0x1B0, 0x303);
  (0x1EF0, 0x1AF, 0x323); (0x1EF1, 0x1B0, 0x323); (0x1EF2, 0x59, 0x300); (0x1EF3, 0x79, 0x300);
  (0x1EF4, 0x59, 0x323); (0x1EF5, 0x79, 0x323); (0x1EF6, 0x59, 0x309); (0x1EF7, 0x79, 0x309);
  (0x1EF8, 0x59, 0x303); (0x1EF9, 0x79, 0x303); (0x1F00, 0x3B1, 0x313); (0x1F01, 0x3B1, 0x314);
  (0x1F02, 0x1F00, 0x300); (0x1F03, 0x1F01, 0x300); (0x1F04, 0x1F00, 0x301);
  (0x1F05, 0x1F01, 0x301); (0x1F06, 0x1F00, 0x342); (0x1F07, 0x1F01, 0x342);
  (0x1F08, 0x391, 0x313); (0x1F09, 0x391, 0x314); (0x1F0A, 0x1F08, 0x300);
  (0x1F0B, 0x1F09, 0x300); (0x1F0C, 0x1F08, 0x301); (0x1F0D, 0x1F09, 0x301);
  (0x1F0E, 0x1F08, 0x342); (0x1F0F, 0x1F09, 0x342); (0x1F10, 0x3B5, 0x313);
  (0x1F11, 0x3B5, 0x314); (0x1F12, 0x1F10, 0x300); (0x1F13, 0x1F11, 0x300);
  (0x1F14, 0x1F10, 0x301); (0x1F15, 0x1F11, 0x301); (0x1F18, 0x395, 0x313);
  (0x1F19, 0x395, 0x314); (0x1F1A, 0x1F18, 0x300); (0x1F1B, 0x1F19, 0x300);
  (0x1F1C, 0x1F18, 0x301); (0x1F1D, 0x1F19, 0x301); (0x1F20, 0x3B7, 0x313);
  (0x1F21, 0x3B7, 0x314); (0x1F22, 0x1F20, 0x300); (0x1F23, 0x1F21, 0x300);
  (0x1F24, 0x1F20, 0x301); (0x1F25, 0x1F21, 0x301); (0x1F26, 0x1F20, 0x342);
  (0x1F27, 0x1F21, 0x342); (0x1F28, 0x397, 0x313); (0x1F29, 0x397, 0x314);
  (0x1F2A, 0x1F28, 0x300); (0x1F2B, 0x1F29, 0x300); (0x1F2C, 0x1F28, 0x301);
  (0x1F2D, 0x1F29, 0x301); (0x1F2E, 0x1F28, 0x342); (0x1F2F, 0x1F29, 0x342);
  (0x1F30, 0x3B9, 0x313); (0x1F31, 0x3B9, 0x314); (0x1F32, 0x1F30, 0x300);
  (0x1F33, 0x1F31, 0x300); (0x1F34, 0x1F30, 0x301); (0x1F35, 0x1F31, 0x301);
  (0x1F36, 0x1F30, 0x342); (0x1F37, 0x1F31, 0x342); (0x1F38, 0x399, 0x313);
  (0x1F39, 0x399, 0x314); (0x1F3A, 0x1F38, 0x300); (0x1F3B, 0x1F39, 0x300);
  (0x1F3C, 0x1F38, 0x301); (0x1F3D, 0x1F39, 0x301); (0x1F3E, 0x1F38, 0x342);
  (0x1F3F, 0x1F39, 0x342); (0x1F40, 0x3BF, 0x313); (0x1F41, 0x3BF, 0x314);
  (0x1F42, 0x1F40, 0x300); (0x1F43, 0x1F41, 0x300); (0x1F44, 0x1F40, 0x301);
  (0x1F45, 0x1F41, 0x301); (0x1F48, 0x39F, 0x313); (0x1F49, 0x39F, 0x314);
  (0x1F4A, 0x1F48, 0x300); (0x1F4B, 0x1F49, 0x300); (0x1F4C, 0x1F48, 0x301);
  (0x1F4D, 0x1F49, 0x301); (0x1F50, 0x3C5, 0x313); (0x1F51, 0x3C5, 0x314);
  (0x1F52, 0x1F50, 0x300); (0x1F53, 0x1F51, 0x300); (0x1F54, 0x1F50, 0x301);
  (0x1F55, 0x1F51, 0x301); (0x1F56, 0x1F50, 0x342); (0x1F57, 0x1F51, 0x342);
  (0x1F59, 0x3A5, 0x314); (0x1F5B, 0x1F59, 0x300); (0x1F5D, 0x1F59, 0x301);
  (0x1F5F, 0x1F59, 0x342); (0x1F60, 0x3C9, 0x313); (0x1F61, 0x3C9, 0x314);
  (0x1F62, 0x1F60, 0x300); (0x1F63, 0x1F61, 0x300); (0x1F64, 0x1F60, 0x301);
  (0x1F65, 0x1F61, 0x301); (0x1F66, 0x1F60, 0x342); (0x1F67, 0x1F61, 0x342);
  (0x1F68, 0x3A9, 0x313); (0x1F69, 0x3A9, 0x314); (0x1F6A, 0x1F68, 0x300);
  (0x1F6B, 0x1F69, 0x300); (0x1F6C, 0x1F68, 0x301); (0x1F6D, 0x1F69, 0x301);
  (0x1F6E, 0x1F68, 0x342); (0x1F6F, 0x1F69, 0x342); (0x1F70, 0x3B1, 0x300);
  (0x1F72, 0x3B5, 0x300); (0x1F74, 0x3B7, 0x300); (0x1F76, 0x3B9, 0x300);
  (0x1F78, 0x3BF, 0x300); (0x1F7A, 0x3C5, 0x300); (0x1F7C, 0x3C9, 0x300);
  (0x1F80, 0x1F00, 0x345); (0x1F81, 0x1F01, 0x345); (0x1F82, 0x1F02, 0x345);
  (0x1F83, 0x1F03, 0x345); (0x1F84, 0x1F04, 0x345); (0x1F85, 0x1F05, 0x345);
  (0x1F86, 0x1F06, 0x345); (0x1F87, 0x1F07, 0x345); (0x1F88, 0x1F08, 0x345);
  (0x1F89, 0x1F09, 0x345); (0x1F8A, 0x1F0A, 0x345); (0x1F8B, 0x1F0B, 0x345);
  (0x1F8C, 0x1F0C, 0x345); (0x1F8D, 0x1F0D, 0x345); (0x1F8E, 0x1F0E, 0x345);
  (0x1F8F, 0x1F0F, 0x345); (0x1F90, 0x1F20, 0x345); (0x1F91, 0x1F21, 0x345);
  (0x1F92, 0x1F22, 0x345); (0x1F93, 0x1F23, 0x345); (0x1F94, 0x1F24, 0x345);
  (0x1F95, 0x1F25, 0x345); (0x1F96, 0x1F26, 0x345); (0x1F97, 0x1F27, 0x345);
  (0x1F98, 0x1F28, 0x345); (0x1F99, 0x1F29, 0x345); (0x1F9A, 0x1F2A, 0x345);
  (0x1F9B, 0x1F2B, 0x345); (0x1F9C, 0x1F2C, 0x345); (0x1F9D, 0x1F2D, 0x345);
  (0x1F9E, 0x1F2E, 0x345); (0x1F9F, 0x1F2F, 0x345); (0x1FA0, 0x1F60, 0x345);
  (0x1FA1, 0x1F61, 0x345); (0x1FA2, 0x1F62, 0x345); (0x1FA3, 0x1F63, 0x345);
  (0x1FA4, 0x1F64, 0x345); (0x1FA5, 0x1F65, 0x345); (0x1FA6, 0x1F66, 0x345);
  (0x1FA7, 0x1F67, 0x345); (0x1FA8, 0x1F68, 0x345); (0x1FA9, 0x1F69, 0x345);
  (0x1FAA, 0x1F6A, 0x345); (0x1FAB, 0x1F6B, 0x345); (0x1FAC, 0x1F6C, 0x345);
  (0x1FAD, 0x1F6D, 0x345); (0x1FAE, 0x1F6E, 0x345); (0x1FAF, 0x1F6F, 0x345);
  (0x1FB0, 0x3B1, 0x306); (0x1FB1, 0x3B1, 0x304); (0x1FB2, 0x1F70, 0x345);
  (0x1FB3, 0x3B1, 0x345); (0x1FB4, 0x3AC, 0x345); (0x1FB6, 0x3B1, 0x342);
  (0x1FB7, 0x1FB6, 0x345); (0x1FB8, 0x391, 0x306); (0x1FB9, 0x391, 0x304);
  (0x1FBA, 0x391, 0x300); (0x1FBC, 0x391, 0x345); (0x1FC1, 0xA8, 0x342);
  (0x1FC2, 0x1F74, 0x345); (0x1FC3, 0x3B7, 0x345); (0x1FC4, 0x3AE, 0x345);
  (0x1FC6, 0x3B7, 0x342); (0x1FC7, 0x1FC6, 0x345); (0x1FC8, 0x395, 0x300);
  (0x1FCA, 0x397, 0x300); (0x1FCC, 0x397, 0x345); (0x1FCD, 0x1FBF, 0x300);
  (0x1FCE, 0x1FBF, 0x301); (0x1FCF, 0x1FBF, 0x342); (0x1FD0, 0x3B9, 0x306);
  (0x1FD1, 0x3B9, 0x304); (0x1FD2, 0x3CA, 0x300); (0x1FD6, 0x3B9, 0x342);
  (0x1FD7, 0x3CA, 0x342); (0x1FD8, 0x399, 0x306); (0x1FD9, 0x399, 0x304);
  (0x1FDA, 0x399, 0x300); (0x1FDD, 0x1FFE, 0x300); (0x1FDE, 0x1FFE, 0x301);
  (0x1FDF, 0x1FFE, 0x342); (0x1FE0, 0x3C5, 0x306); (0x1FE1, 0x3C5, 0x304);
  (0x1FE2, 0x3CB, 0x300); (0x1FE4, 0x3C1, 0x313); (0x1FE5, 0x3C1, 0x314);
  (0x1FE6, 0x3C5, 0x342); (0x1FE7, 0x3CB, 0x342); (0x1FE8, 0x3A5, 0x306);
  (0x1FE9, 0x3A5, 0x304); (0x1FEA, 0x3A5, 0x300); (0x1FEC, 0x3A1, 0x314);
  (0x1FED, 0xA8, 0x300); (0x1FF2, 0x1F7C, 0x345); (0x1FF3, 0x3C9, 0x345);
  (0x1FF4, 0x3CE, 0x345); (0x1FF6, 0x3C9, 0x342); (0x1FF7, 0x1FF6, 0x345);
  (0x1FF8, 0x39F, 0x300); (0x1FFA, 0x3A9, 0x300); (0x1FFC, 0x3A9, 0x345);
  (0x219A, 0x2190, 0x338); (0x219B, 0x2192, 0x338); (0x21AE, 0x2194, 0x338);
  (0x21CD, 0x21D0, 0x338); (0x21CE, 0x21D4, 0x338); (0x21CF, 0x21D2, 0x338);
  (0x2204, 0x2203, 0x338); (0x2209, 0x2208, 0x338); (0x220C, 0x220B, 0x338);
  (0x2224, 0x2223, 0x338); (0x2226, 0x2225, 0x338); (0x2241, 0x223C, 0x338);
  (0x2244, 0x2243, 0x338); (0x2247, 0x2245, 0x338); (0x2249, 0x2248, 0x338);
  (0x2260, 0x3D, 0x338); (0x2262, 0x2261, 0x338); (0x226D, 0x224D, 0x338);
  (0x226E, 0x3C, 0x338); (0x226F, 0x3E, 0x338); (0x2270, 0x2264, 0x338);
  (0x2271, 0x2265, 0x338); (0x2274, 0x2272, 0x338); (0x2275, 0x2273, 0x338);
  (0x2278, 0x2276, 0x338); (0x2279, 0x2277, 0x338); (0x2280, 0x227A, 0x338);
  (0x2281, 0x227B, 0x338); (0x2284, 0x2282, 0x338); (0x2285, 0x2283, 0x338);
  (0x2288, 0x2286, 0x338); (0x2289, 0x2287, 0x338); (0x22AC, 0x22A2, 0x338);
  (0x22AD, 0x22A8, 0x338); (0x22AE, 0x22A9, 0x338); (0x22AF, 0x22AB, 0x338);
  (0x22E0, 0x227C, 0x338); (0x22E1, 0x227D, 0x338); (0x22E2, 0x2291, 0x338);
  (0x22E3, 0x2292, 0x338); (0x22EA, 0x22B2, 0x338); (0x22EB, 0x22B3, 0x338);
  (0x22EC, 0x22B4, 0x338); (0x22ED, 0x22B5, 0x338); (0x304C, 0x304B, 0x3099);
  (0x304E, 0x304D, 0x3099); (0x3050, 0x304F, 0x3099); (0x3052, 0x3051, 0x3099);
  (0x3054, 0x3053, 0x3099); (0x3056, 0x3055, 0x3099); (0x3058, 0x3057, 0x3099);
  (0x305A, 0x3059, 0x3099); (0x305C, 0x305B, 0x3099); (0x305E, 0x305D, 0x3099);
  (0x3060, 0x305F, 0x3099); (0x3062, 0x3061, 0x3099); (0x3065, 0x3064, 0x3099);
  (0x3067, 0x3066, 0x3099); (0x3069, 0x3068, 0x3099); (0x3070, 0x306F, 0x3099);
  (0x3071, 0x306F, 0x309A); (0x3073, 0x3072, 0x3099); (0x3074, 0x3072, 0x309A);
  (0x3076, 0x3075, 0x3099); (0x3077, 0x3075, 0x309A); (0x3079, 0x3078, 0x3099);
  (0x307A, 0x3078, 0x309A); (0x307C, 0x307B, 0x3099); (0x307D, 0x307B, 0x309A);
  (0x3094, 0x3046, 0x3099); (0x309E, 0x309D, 0x3099); (0x30AC, 0x30AB, 0x3099);
  (0x30AE, 0x30AD, 0x3099); (0x30B0, 0x30AF, 0x3099); (0x30B2, 0x30B1, 0x3099);
  (0x30B4, 0x30B3, 0x3099); (0x30B6, 0x30B5, 0x3099); (0x30B8, 0x30B7, 0x3099);
  (0x30BA, 0x30B9, 0x3099); (0x30BC, 0x30BB, 0x3099); (0x30BE, 0x30BD, 0x3099);
  (0x30C0, 0x30BF, 0x3099); (0x30C2, 0x30C1, 0x3099); (0x30C5, 0x30C4, 0x3099);
  (0x30C7, 0x30C6, 0x3099); (0x30C9, 0x30C8, 0x3099); (0x30D0, 0x30CF, 0x3099);
  (0x30D1, 0x30CF, 0x309A); (0x30D3, 0x30D2, 0x3099); (0x30D4, 0x30D2, 0x309A);
  (0x30D6, 0x30D5, 0x3099); (0x30D7, 0x30D5, 0x309A); (0x30D9, 0x30D8, 0x3099);
  (0x30DA, 0x30D8, 0x309A); (0x30DC, 0x30DB, 0x3099); (0x30DD, 0x30DB, 0x309A);
  (0x30F4, 0x30A6, 0x3099); (0x30F7, 0x30EF, 0x3099); (0x30F8, 0x30F0, 0x3099);
  (0x30F9, 0x30F1, 0x3099); (0x30FA, 0x30F2, 0x3099); (0x30FE, 0x30FD, 0x3099);
  (0x1109A, 0x11099, 0x110BA); (0x1109C, 0x1109B, 0x110BA); (0x110AB, 0x110A5, 0x110BA);
  (0x1112E, 0x11131, 0x11127); (0x1112F, 0x11132, 0x11127); (0x1134B, 0x11347, 0x1133E);
  (0x1134C, 0x11347, 0x11357); (0x114BB, 0x114B9, 0x114BA); (0x114BC, 0x114B9, 0x114B0);
  (0x114BE, 0x114B9, 0x114BD); (0x115BA, 0x115B8, 0x115AF); (0x115BB, 0x115B9, 0x115AF);
  (0x11938, 0x11935, 0x11930)
]%N.

(** Canonical decomposition mappings to two characters that are excluded
    from composition (Full_Composition_Exclusion): decomposed, never composed. *)
Definition excluded_composites : list (N * N * N) := [
  (0x344, 0x308, 0x301); (0x958, 0x915, 0x93C); (0x959, 0x916, 0x93C); (0x95A, 0x917, 0x93C);
  (0x95B, 0x91C, 0x93C); (0x95C, 0x921, 0x93C); (0x95D, 0x922, 0x93C); (0x95E, 0x92B, 0x93C);
  (0x95F, 0x92F, 0x93C); (0x9DC, 0x9A1, 0x9BC); (0x9DD, 0x9A2, 0x9BC); (0x9DF, 0x9AF, 0x9BC);
  (0xA33, 0xA32, 0xA3C); (0xA36, 0xA38, 0xA3C); (0xA59, 0xA16, 0xA3C); (0xA5A, 0xA17, 0xA3C);
  (0xA5B, 0xA1C, 0xA3C); (0xA5E, 0xA2B, 0xA3C); (0xB5C, 0xB21, 0xB3C); (0xB5D, 0xB22, 0xB3C);
  (0xF43, 0xF42, 0xFB7); (0xF4D, 0xF4C, 0xFB7); (0xF52, 0xF51, 0xFB7); (0xF57, 0xF56, 0xFB7);
  (0xF5C, 0xF5B, 0xFB7); (0xF69, 0xF40, 0xFB5); (0xF73, 0xF71, 0xF72); (0xF75, 0xF71, 0xF74);
  (0xF76, 0xFB2, 0xF80); (0xF78, 0xFB3, 0xF80); (0xF81, 0xF71, 0xF80); (0xF93, 0xF92, 0xFB7);
  (0xF9D, 0xF9C, 0xFB7); (0xFA2, 0xFA1, 0xFB7); (0xFA7, 0xFA6, 0xFB7); (0xFAC, 0xFAB, 0xFB7);
  (0xFB9, 0xF90, 0xFB5); (0x2ADC, 0x2ADD, 0x338); (0xFB1D, 0x5D9, 0x5B4);
  (0xFB1F, 0x5F2, 0x5B7); (0xFB2A, 0x5E9, 0x5C1); (0xFB2B, 0x5E9, 0x5C2);
  (0xFB2C, 0xFB49, 0x5C1); (0xFB2D, 0xFB49, 0x5C2); (0xFB2E, 0x5D0, 0x5B7);
  (0xFB2F, 0x5D0, 0x5B8); (0xFB30, 0x5D0, 0x5BC); (0xFB31, 0x5D1, 0x5BC);
  (0xFB32, 0x5D2, 0x5BC); (0xFB33, 0x5D3, 0x5BC); (0xFB34, 0x5D4, 0x5BC);
  (0xFB35, 0x5D5, 0x5BC); (0xFB36, 0x5D6, 0x5BC); (0xFB38, 0x5D8, 0x5BC);
  (0xFB39, 0x5D9, 0x5BC); (0xFB3A, 0x5DA, 0x5BC); (0xFB3B, 0x5DB, 0x5BC);
  (0xFB3C, 0x5DC, 0x5BC); (0xFB3E, 0x5DE, 0x5BC); (0xFB40, 0x5E0, 0x5BC);
  (0xFB41, 0x5E1, 0x5BC); (0xFB43, 0x5E3, 0x5BC); (0xFB44, 0x5E4, 0x5BC);
  (0xFB46, 0x5E6, 0x5BC); (0xFB47, 0x5E7, 0x5BC); (0xFB48, 0x5E8, 0x5BC);
  (0xFB49, 0x5E9, 0x5BC); (0xFB4A, 0x5EA, 0x5BC); (0xFB4B, 0x5D5, 0x5B9);
  (0xFB4C, 0x5D1, 0x5BF); (0xFB4D, 0x5DB, 0x5BF); (0xFB4E, 0x5E4, 0x5BF);
  (0x1D15E, 0x1D157, 0x1D165); (0x1D15F, 0x1D158, 0x1D165); (0x1D160, 0x1D15F, 0x1D16E);
  (0x1D161, 0x1D15F, 0x1D16F); (0x1D162, 0x1D15F, 0x1D170); (0x1D163, 0x1D15F, 0x1D171);
  (0x1D164, 0x1D15F, 0x1D172); (0x1D1BB, 0x1D1B9, 0x1D165); (0x1D1BC, 0x1D1BA, 0x1D165);
  (0x1D1BD, 0x1D1BB, 0x1D16E); (0x1D1BE, 0x1D1BC, 0x1D16E); (0x1D1BF, 0x1D1BB, 0x1D16F);
  (0x1D1C0, 0x1D1BC, 0x1D16F)
]%N.

(** [ch.isprintable()] *)
Definition isprintable (c : char) : bool := in_ranges c printable_ranges.

(** [ch.isdecimal()] and [ch.isdigit()] for one character. *)
Definition isdecimal (c : char) : bool := in_ranges c decimal_ranges.
Definition isdigit (c : char) : bool :=
  in_ranges c decimal_ranges || in_ranges c other_digit_ranges.

(** What [\s] matches. *)
Definition isspace (c : char) : bool := in_ranges c space_ranges.

(** Canonical_Combining_Class of a character, 0 for a starter. *)
Definition combining (c : char) : N :=
  match find (λ r, (r.1.1 <=? c)%N && (c <=? r.1.2)%N) combining_classes with
  | Some r => r.2
  | None => 0%N
  end.

(** *** Hangul syllables, composed and decomposed by arithmetic *)

Definition SBase : N := 0xAC00.
Definition LBase : N := 0x1100.
Definition VBase : N := 0x1161.
Definition TBase : N := 0x11A7.
Definition LCount : N := 19.
Definition VCount : N := 21.
Definition TCount : N := 28.
Definition NCount : N := 588.
Definition SCount : N := 11172.

Definition is_hangul_syllable (c : char) : bool :=
  (SBase <=? c)%N && (c <? SBase + SCount)%N.

Definition hangul_decomposition (c : char) : str :=
  let s := (c - SBase)%N in
  let l := (LBase + s / NCount)%N in
  let v := (VBase + (s mod NCount) / TCount)%N in
  let t := (TBase + s mod TCount)%N in
  if (t =? TBase)%N then [l; v] else [l; v; t].

(** *** Canonical decomposition (NFD) *)

(** The decomposition mapping of one character, one level deep. *)
Definition decomposition (c : char) : option str :=
  if is_hangul_syllable c then Some (hangul_decomposition c)
  else
    match find (λ e, (e.1 =? c)%N) singleton_decompositions with
    | Some e => Some [e.2]
    | None =>
        match find (λ e, (e.1.1 =? c)%N) (primary_composites ++ excluded_composites) with
        | Some e => Some [e.1.2; e.2]
        | None => None
        end
    end.

(** The full decomposition: mappings applied again to their results.  No
    mapping of Unicode 14 nests deeper than three levels. *)
Fixpoint decompose (depth : nat) (c : char) : str :=
  match depth with
  | O => [c]
  | S d =>
      match decomposition c with
      | Some cs => flat_map (decompose d) cs
      | None => [c]
      end
  end.

(** Canonical ordering.  The text built so far is kept reversed; a new
    character moves in front of the marks of a higher class that precede
    it, and never across a starter. *)
Fixpoint insert_mark (c : char) (rev : str) : str :=
  match rev with
  | d :: rev' =>
      if negb (combining c =? 0)%N && (combining c <? combining d)%N
      then d :: insert_mark c rev'
      else c :: rev
  | [] => [c]
  end.

Definition nfd (s : str) : str :=
  rev (fold_left (λ acc c, fold_left (λ acc' d, insert_mark d acc') (decompose 4 c) acc) s []).

(** *** Canonical composition (NFC) *)

(** The primary composite of a starter and a following character. *)
Definition compose_pair (s c : char) : option char :=
  if (LBase <=? s)%N && (s <? LBase + LCount)%N && (VBase <=? c)%N && (c <? VBase + VCount)%N
  then Some (SBase + ((s - LBase) * VCount + (c - VBase)) * TCount)%N
  else if is_hangul_syllable s && ((s - SBase) mod TCount =? 0)%N
          && (TBase <? c)%N && (c <? TBase + TCount)%N
  then Some (s + (c - TBase))%N
  else
    match find (λ e, (e.1.2 =? s)%N && (e.2 =? c)%N) primary_composites with
    | Some e => Some e.1.1
    | None => None
    end.

(** [compose_from st pend comb s]: [st] is the character being built,
    [pend] the characters after it that did not combine (reversed), [comb]
    the class of the last of them (0 when there is none), [s] the text
    still to read.  A character combines with [st] unless a character of
    class 0 or of a class at least its own stands between them. *)
Fixpoint compose_from (st : char) (pend : str) (comb : N) (s : str) : str :=
  match s with
  | [] => st :: rev pend
  | c :: s' =>
      let k := combining c in
      if negb (comb =? 0)%N && (k =? 0)%N then
        st :: rev pend ++ compose_from c [] 0%N s'
      else if negb (comb =? 0)%N && (k <=? comb)%N then
        compose_from st (c :: pend) comb s'
      else
        match compose_pair st c with
        | Some p => compose_from p pend comb s'
        | None =>
            if (k =? 0)%N then st :: rev pend ++ compose_from c [] 0%N s'
            else compose_from st (c :: pend) k s'
        end
  end.

Definition compose (s : str) : str :=
  match s with
  | [] => []
  | c :: s' => compose_from c [] 0%N s'
  end.

(** [unicodedata.normalize('NFC', s)] *)
Definition nfc (s : str) : str := compose (nfd s).

End Unicode.

(** ** Regular expressions: the fragment of [re] that [_clean_text] uses *)

Module Re.

(** Patterns.  Every quantifier of the four patterns stands on a single
    character class, so [Star] and [Lazy] take a class. *)
Inductive regex : Type :=
| Chr (p : char → bool)        (* one character of the class [p] *)
| Cat (r1 r2 : regex)          (* [r1 r2] *)
| Alt (r1 r2 : regex)          (* [r1|r2], the left branch tried first *)
| Star (p : char → bool)       (* [p*], greedy *)
| Lazy (p : char → bool)       (* [p*?], non-greedy *)
| Group (r : regex).           (* [(r)], the pattern's group 1 *)

Section Matcher.
Context {A : Type}.

(** [p*] then [k]: the longest run first, giving characters back one at
    a time while [k] fails. *)
Fixpoint star (p : char → bool) (k : str → option A) (s : str) : option A :=
  match s with
  | c :: s' =>
      if p c then
        match star p k s' with
        | Some a => Some a
        | None => k s
        end
      else k s
  | [] => k []
  end.

(** [p*?] then [k]: the empty run first, one more character each time
    [k] fails. *)
Fixpoint lazy_star (p : char → bool) (k : str → option A) (s : str) : option A :=
  match k s with
  | Some a => Some a
  | None =>
      match s with
      | c :: s' => if p c then lazy_star p k s' else None
      | [] => None
      end
  end.

(** The backtracking matcher: [run r s g k] matches [r] at the start of
    [s]; [g] is what group 1 holds so far; [k] receives the rest of the
    text and the group, and its failure makes [r] try its next way of
    matching. *)
Fixpoint run (r : regex) (s : str) (g : option str)
    (k : str → option str → option A) : option A :=
  match r with
  | Chr p =>
      match s with
      | c :: s' => if p c then k s' g else None
      | [] => None
      end
  | Cat r1 r2 => run r1 s g (λ s' g', run r2 s' g' k)
  | Alt r1 r2 =>
      match run r1 s g k with
      | Some a => Some a
      | None => run r2 s g k
      end
  | Star p => star p (λ s', k s' g) s
  | Lazy p => lazy_star p (λ s', k s' g) s
  | Group r' => run r' s g (λ s' _, k s' (Some (take (length s - length s') s)))
  end.
End Matcher.

(** [re.match]: group 1 and the text after the match. *)
Definition re_match (r : regex) (s : str) : option (option str * str) :=
  run r s None (λ s' g, Some (g, s')).

(** [re.search(r, s) is not None] *)
Fixpoint re_search (r : regex) (s : str) : bool :=
  match re_match r s with
  | Some _ => true
  | None =>
      match s with
      | _ :: s' => re_search r s'
      | [] => false
      end
  end.

(** Replacement templates: literal text and [\1]. *)
Inductive piece : Type :=
| Lit (l : str)
| Backref.

Definition expand (tpl : list piece) (g : option str) : str :=
  flat_map (λ t, match t with Lit l => l | Backref => default [] g end) tpl.

(** [re.sub]: the matches are found from left to right, each search
    starting where the previous match ended; text outside the matches is
    copied.  [skip] counts the characters of the last match that are still
    to be passed over.  Each of the four patterns begins with a literal
    [<], so none of their matches is empty (lemma [re_match_consumes]); the
    treatment of an empty match below (replace, then copy one character) is
    never exercised by them. *)
Fixpoint sub_from (r : regex) (tpl : list piece) (skip : nat) (s : str) : str :=
  match s with
  | [] =>
      match skip, re_match r [] with
      | O, Some (g, _) => expand tpl g
      | _, _ => []
      end
  | c :: s' =>
      match skip with
      | S n => sub_from r tpl n s'
      | O =>
          match re_match r s with
          | Some (g, rest) =>
              match length s - length rest with
              | O => expand tpl g ++ c :: sub_from r tpl 0 s'
              | S n => expand tpl g ++ sub_from r tpl n s'
              end
          | None => c :: sub_from r tpl 0 s'
          end
      end
  end.

Definition re_sub (r : regex) (tpl : list piece) (s : str) : str :=
  sub_from r tpl 0 s.

End Re.

(** ** [_clean_text] (the same function in both scripts) *)

Module Cleaner.
Import Re.

Declare Scope regex_scope.
Delimit Scope regex_scope with re.
Infix "⋅" := Cat (at level 60, right associativity) : regex_scope.
Infix "∣" := Alt (at level 65, right associativity) : regex_scope.

(** A literal character. *)
Definition chr (a : ascii) : regex := Chr (N.eqb (N_of_ascii a)).

(** A lower-case ASCII letter under [re.IGNORECASE]: the letter, its
    upper case, and the further characters that [re] takes for the same
    letter (U+017F for [s], U+0130 and U+0131 for [i]). *)
Definition ignorecase (a : ascii) : list char :=
  let l := N_of_ascii a in
  [l; (l - 32)%N] ++
  (if (l =? 0x73)%N then [0x17F%N] else []) ++
  (if (l =? 0x69)%N then [0x130%N; 0x131%N] else []).

Definition letter (a : ascii) : regex :=
  Chr (λ c, existsb (N.eqb c) (ignorecase a)).

(** A word of lower-case letters under [re.IGNORECASE]. *)
Fixpoint word (w : string) : regex :=
  match w with
  | String a EmptyString => letter a
  | String a w' => Cat (letter a) (word w')
  | EmptyString => Star (λ _, false)
  end.

(** [\s*], [.] (any character but a newline) and [[^>]]. *)
Definition ws : regex := Star Unicode.isspace.
Definition dot (c : char) : bool := negb (c =? 10)%N.
Definition not_gt (c : char) : bool := negb (c =? 62)%N.

(** [<\s*(?:n1|n2)\s*>(.*?)<\s*/\s*(?:n1|n2)\s*>] *)
Definition element (name : regex) : regex :=
  (chr "<" ⋅ ws ⋅ name ⋅ ws ⋅ chr ">" ⋅ Group (Lazy dot) ⋅
   chr "<" ⋅ ws ⋅ chr "/" ⋅ ws ⋅ name ⋅ ws ⋅ chr ">")%re.

Definition bold_re : regex := element (word "b" ∣ word "strong")%re.
Definition italic_re : regex := element (word "i" ∣ word "em")%re.
Definition underline_re : regex := element (word "u").

(** [<[^>]+>] *)
Definition tag_re : regex := (chr "<" ⋅ Chr not_gt ⋅ Star not_gt ⋅ chr ">")%re.

(** Steps 1 to 4: the three conversions, then the removal of what tags
    remain. *)
Definition convert_tags (value : str) : str :=
  let text := value in
  let text := re_sub bold_re [Lit (py "**"); Backref; Lit (py "**")] text in
  let text := re_sub italic_re [Lit (py "*"); Backref; Lit (py "*")] text in
  let text := re_sub underline_re [Lit (py "_"); Backref; Lit (py "_")] text in
  re_sub tag_re [] text.

(** [ch.isprintable() or ch in '\t\n\r'] *)
Definition keeps (ch : char) : bool :=
  Unicode.isprintable ch || existsb (N.eqb ch) [9; 10; 13]%N.

Definition _clean_text (value : str) : str :=
  let text := convert_tags value in
  let normalized := Unicode.nfc text in
  List.filter keeps normalized.

(** Whether a text has a substring of the form [<[^>]+>]. *)
Definition has_tag (s : str) : bool := re_search tag_re s.

End Cleaner.

(** ** Python control flow: exceptions, indexing, [while] *)

Module Py.

Inductive exn : Type :=
| IndexError
| StopIteration
| FileNotFoundError
| CsvError (msg : string)
| UnicodeDecodeError (msg : string).

(** [str(e)], for the handler that prints it. *)
Definition exn_message (e : exn) : string :=
  match e with
  | IndexError => "list index out of range"
  | StopIteration => ""
  | FileNotFoundError => "No such file or directory"
  | CsvError msg | UnicodeDecodeError msg => msg
  end.

(** How a computation ends: with a value, with an exception, or not
    within the fuel it was given. *)
Inductive outcome (A : Type) : Type :=
| Ret (a : A)
| Raise (e : exn)
| OutOfFuel.
Global Arguments Ret {A} a.
Global Arguments Raise {A} e.
Global Arguments OutOfFuel {A}.

(** [x ← m; f] runs [m], names its value [x] and goes on with [f]; an
    exception in [m] ends the whole. *)
Global Instance outcome_bind : MBind outcome := λ A B f m,
  match m with
  | Ret a => f a
  | Raise e => Raise e
  | OutOfFuel => OutOfFuel
  end.

(** [l[n]] for a counter [n] that is never negative. *)
Definition item {A : Type} (l : list A) (n : nat) : outcome A :=
  match l !! n with
  | Some x => Ret x
  | None => Raise IndexError
  end.

(** [l[i]] for any integer [i]: a negative index counts from the end. *)
Definition getitem {A : Type} (l : list A) (i : Z) : outcome A :=
  if (0 <=? i)%Z then item l (Z.to_nat i)
  else if (- Z.of_nat (length l) <=? i)%Z then item l (Z.to_nat (Z.of_nat (length l) + i))
  else Raise IndexError.

(** [while cond: body] over the local variables [s]. *)
Fixpoint while {S : Type} (fuel : nat) (cond : S → outcome bool)
    (body : S → outcome S) (s : S) : outcome S :=
  match fuel with
  | O => OutOfFuel
  | Datatypes.S fuel' =>
      b ← cond s;
      if b : bool then s' ← body s; while fuel' cond body s' else Ret s
  end.

End Py.

(** ** Rows, files and the two streams *)

Module Csv.
Import Py.

(** A row is the list of its cells. *)
Abbreviation row := (list (list N)) (only parsing).

(** What stops [csv.reader] before the end of a file: a field of more
    than [csv.field_size_limit()] (131072) characters raises [csv.Error],
    bytes that are not UTF-8 raise [UnicodeDecodeError].  [msg] is the
    text of the exception, [str(e)]. *)
Inductive read_error : Type :=
| csv_error (msg : string)
| decode_error (msg : string).

Definition raised (e : read_error) : exn :=
  match e with
  | csv_error msg => CsvError msg
  | decode_error msg => UnicodeDecodeError msg
  end.

(** A file, as [csv.reader] reads it: the rows that it yields and the
    error, if any, that it raises after them instead of coming to the end
    of the file. *)
Record file : Type := File {
  file_rows : list row;
  file_error : option read_error;
}.

(** The directory of a path: what stands before its last [/], nothing
    for a bare file name. *)
Fixpoint has_slash (path : string) : bool :=
  match path with
  | EmptyString => false
  | String c rest => Ascii.eqb c "/" || has_slash rest
  end.

Fixpoint dirname (path : string) : string :=
  match path with
  | EmptyString => EmptyString
  | String c rest => if has_slash rest then String c (dirname rest) else EmptyString
  end.

(** The files, by path, the directories that exist, and what has been
    printed. *)
Record world : Type := World {
  files : gmap string file;
  dirs : gset string;
  stdout : list string;
}.

(** A computation with effects on the world; an exception leaves the
    effects made before it in place. *)
Definition io (A : Type) : Type := world → outcome A * world.

Definition io_ret {A : Type} (a : A) : io A := λ w, (Ret a, w).

Global Instance io_bind : MBind io := λ A B f m w,
  match m w with
  | (Ret a, w') => f a w'
  | (Raise e, w') => (Raise e, w')
  | (OutOfFuel, w') => (OutOfFuel, w')
  end.

(** A computation without effects, run inside [io]. *)
Definition lift {A : Type} (m : outcome A) : io A := λ w, (m, w).

(** [try: m except e: handler e] *)
Definition try_except {A : Type} (m : io A) (handler : exn → io A) : io A :=
  λ w, match m w with
       | (Raise e, w') => handler e w'
       | r => r
       end.

(** [print(line)] *)
Definition print (line : string) : io unit :=
  λ w, (Ret (), World (files w) (dirs w) (stdout w ++ [line])).

(** [open(path, 'r')]: the file must exist. *)
Definition open_read (path : string) : io unit :=
  λ w, match files w !! path with
       | Some _ => (Ret (), w)
       | None => (Raise FileNotFoundError, w)
       end.

(** [open(path, 'w')]: a file that exists is emptied; a file that does
    not is created, which its directory must exist for. *)
Definition open_write (path : string) : io unit :=
  λ w, if bool_decide (is_Some (files w !! path) ∨ dirname path ∈ dirs w)
       then (Ret (), World (<[path := File [] None]> (files w)) (dirs w) (stdout w))
       else (Raise FileNotFoundError, w).

(** [csv.reader(infile)]: what the reader is going to yield, the file as
    it stands once both files are open (the file exists: it has been
    opened). *)
Definition csv_reader (path : string) : io file :=
  λ w, match files w !! path with
       | Some f => (Ret f, w)
       | None => (Raise FileNotFoundError, w)
       end.

(** [next(reader)]: the next row and the reader after it. *)
Definition next (reader : file) : outcome (row * file) :=
  match file_rows reader, file_error reader with
  | r :: rest, e => Ret (r, File rest e)
  | [], Some e => Raise (raised e)
  | [], None => Raise StopIteration
  end.

(** [list(reader)] *)
Definition list_of (reader : file) : outcome (list row) :=
  match file_error reader with
  | Some e => Raise (raised e)
  | None => Ret (file_rows reader)
  end.

(** [writer.writerow(r)]: one more row at the end of the output file. *)
Definition writerow (path : string) (r : row) : io unit :=
  λ w, (Ret (),
        World (<[path := File (from_option file_rows [] (files w !! path) ++ [r]) None]> (files w))
              (dirs w) (stdout w)).

(** [for x in xs: body x] *)
Fixpoint for_each {A : Type} (xs : list A) (body : A → io unit) : io unit :=
  match xs with
  | [] => io_ret ()
  | x :: xs' => body x;; for_each xs' body
  end.

(** [for row in reader: body row] *)
Definition for_reader (reader : file) (body : row → io unit) : io unit :=
  for_each (file_rows reader) body;;
  match file_error reader with
  | Some e => lift (Raise (raised e))
  | None => io_ret ()
  end.

(** [[row[i] for i in columns if 0 <= i < len(row)]] *)
Fixpoint project (r : row) (columns : list Z) : outcome row :=
  match columns with
  | [] => Ret []
  | i :: columns' =>
      if (0 <=? i)%Z && (i <? Z.of_nat (length r))%Z then
        (cell ← getitem r i;
         cells ← project r columns';
         Ret (cell :: cells))
      else project r columns'
  end.

End Csv.

(** ** [questionnaire.py] *)

Module Questionnaire.
Import Py Csv Cleaner.

Definition filter_csv_columns (input_file output_file : string) (columns : list Z) : io unit :=
  try_except
    (completed ←
       (open_read input_file;;
        open_write output_file;;
        reader ← csv_reader input_file;
        (* header = next(reader), StopIteration caught on the spot *)
        match next reader with
        | Raise StopIteration =>
            print ("Error: '" +:+ input_file +:+ "' is empty.");;
            io_ret false  (* return *)
        | first =>
            '(header, reader) ← lift first;
            selected_header ← lift (project header columns);
            writerow output_file selected_header;;
            for_reader reader (λ r,
              filtered_row ← lift (project r columns);
              let cleaned := map _clean_text filtered_row in
              writerow output_file cleaned);;
            io_ret true
        end);
     if completed : bool
     then print ("Successfully wrote filtered CSV to " +:+ output_file)
     else io_ret ())
    (λ e, match e with
          | FileNotFoundError => print ("Error: File '" +:+ input_file +:+ "' not found.")
          | _ => print ("Error: " +:+ exn_message e)
          end).

(** The driver: the body of [if __name__ == "__main__"]. *)
Definition input_csv : string :=
  "Download_raw_Feb24-2026-NewNewprotocol_10participants/data_exp_258706-v2_questionnaire-6fz5.csv".
Definition output_csv : string := "output/questionnaire_output.csv".
Definition columns_to_keep : list Z :=
  [5; 8; 11; 12; 14; 28; 29; 30; 31; 32; 33; 34; 38; 40; 41;
   42; 43; 44; 45; 46; 47; 48; 49; 50; 51; 52; 53; 54; 55;
   56; 57; 58; 60; 61; 63; 64; 65; 67; 70; 71; 72; 73; 74]%Z.

Definition main : io unit :=
  filter_csv_columns input_csv output_csv columns_to_keep.

End Questionnaire.

(** ** [task_data.py] *)

Module TaskData.
Import Py Csv Cleaner.

(** [s.isdigit()]: at least one character, and every character a digit. *)
Definition str_isdigit (s : str) : bool :=
  negb (bool_decide (s = [])) && forallb Unicode.isdigit s.

Section Sampler.
Variable rows : list row.

(** [rows[i][51] if len(rows[i]) > 51 else ''] *)
Definition az_of (i : nat) : outcome str :=
  r ← item rows i;
  if 51 <? length r then item r 51 else Ret [].

(** [j < len(rows) and len(rows[j]) > 51 and rows[j][51] == num] *)
Definition in_run (num : str) (j : nat) : outcome bool :=
  if j <? length rows then
    (r ← item rows j;
     if 51 <? length r then
       (v ← item r 51; Ret (bool_decide (v = num)))
     else Ret false)
  else Ret false.

(** The inner loop: [j = i; while ...: j += 1]. *)
Definition run_end (num : str) (i : nat) : outcome nat :=
  while (S (length rows)) (in_run num) (λ j, Ret (j + 1)) i.

(** One turn of the outer loop, on the variables [i] and [keep]. *)
Definition step (st : nat * list row) : outcome (nat * list row) :=
  let '(i, keep) := st in
  az_val ← az_of i;
  if str_isdigit az_val then
    let num := az_val in
    j ← run_end num i;
    let seq_len := j - i in
    keep ←
      (if 5 <=? seq_len then
         (r ← item rows i;
          let keep := keep ++ [r] in
          if i + 3 <? j then
            (r3 ← item rows (i + 3);
             Ret (keep ++ [r3]))
          else Ret keep)
       else Ret keep);
    Ret (j, keep)
  else
    Ret (i + 1, keep).

(** [keep = []; i = 0; while i < len(rows): ...] *)
Definition run_sampler : outcome (list row) :=
  st ← while (S (length rows)) (λ st, Ret (st.1 <? length rows)) step (0, []);
  Ret st.2.
End Sampler.

Definition filter_csv_columns (input_file output_file : string) (columns : list Z) : io unit :=
  try_except
    (completed ←
       (open_read input_file;;
        open_write output_file;;
        reader ← csv_reader input_file;
        (* header = next(reader), StopIteration caught on the spot *)
        match next reader with
        | Raise StopIteration =>
            print ("Error: '" +:+ input_file +:+ "' is empty.");;
            io_ret false  (* return *)
        | first =>
            '(header, reader) ← lift first;
            selected_header ← lift (project header columns);
            writerow output_file selected_header;;
            rows ← lift (list_of reader);
            keep ← lift (run_sampler rows);
            for_each keep (λ r,
              filtered_row ← lift (project r columns);
              let cleaned := map _clean_text filtered_row in
              writerow output_file cleaned);;
            io_ret true
        end);
     if completed : bool
     then print ("Successfully wrote filtered CSV to " +:+ output_file)
     else io_ret ())
    (λ e, match e with
          | FileNotFoundError => print ("Error: File '" +:+ input_file +:+ "' not found.")
          | _ => print ("Error: " +:+ exn_message e)
          end).

(** The driver: the body of [if __name__ == "__main__"]. *)
Definition input_csv_1 : string :=
  "Download_raw_Feb24-2026-NewNewprotocol_10participants/data_exp_258706-v2_task-e3jl.csv".
Definition output_csv_1 : string := "output/task_data_e3jl_output.csv".
Definition input_csv_2 : string :=
  "Download_raw_Feb24-2026-NewNewprotocol_10participants/data_exp_258706-v2_task-o8hz.csv".
Definition output_csv_2 : string := "output/task_data_o8hz_output.csv".
Definition columns_to_keep : list Z := [5; 11; 12; 28; 31; 37; 39; 47; 48; 51; 57]%Z.

Definition main : io unit :=
  filter_csv_columns input_csv_1 output_csv_1 columns_to_keep;;
  filter_csv_columns input_csv_2 output_csv_2 columns_to_keep.

End TaskData.

(** * Notions used to state the properties *)

Import Unicode Re Cleaner Py Csv.

(** ** The language of a pattern *)

(** [lang r u]: the pattern [r] can match exactly the text [u]. *)
Inductive lang : regex → str → Prop :=
| lang_chr p c : p c = true → lang (Chr p) [c]
| lang_cat r1 r2 u1 u2 : lang r1 u1 → lang r2 u2 → lang (Cat r1 r2) (u1 ++ u2)
| lang_alt_l r1 r2 u : lang r1 u → lang (Alt r1 r2) u
| lang_alt_r r1 r2 u : lang r2 u → lang (Alt r1 r2) u
| lang_star p u : forallb p u = true → lang (Star p) u
| lang_lazy p u : forallb p u = true → lang (Lazy p) u
| lang_group r u : lang r u → lang (Group r) u.

(** [avoids c r]: no text that [r] matches contains [c]. *)
Fixpoint avoids (c : char) (r : regex) : bool :=
  match r with
  | Chr p | Star p | Lazy p => negb (p c)
  | Cat r1 r2 | Alt r1 r2 => avoids c r1 && avoids c r2
  | Group r' => avoids c r'
  end.

(** [nonempty r]: no text that [r] matches is empty. *)
Fixpoint nonempty (r : regex) : bool :=
  match r with
  | Chr _ => true
  | Star _ | Lazy _ => false
  | Cat r1 r2 => nonempty r1 || nonempty r2
  | Alt r1 r2 => nonempty r1 && nonempty r2
  | Group r' => nonempty r'
  end.

(** ** Tags *)

(** The text after the first [>] of [s]. *)
Fixpoint after_gt (s : str) : option str :=
  match s with
  | [] => None
  | c :: s' => if (c =? 62)%N then Some s' else after_gt s'
  end.

(** A tag at the start of [s]: a [<], a character other than [>], and a
    [>] somewhere after; the result is the text after that [>]. *)
Definition tag_at (s : str) : option str :=
  match s with
  | c :: d :: s' => if (c =? 60)%N && negb (d =? 62)%N then after_gt s' else None
  | _ => None
  end.

(** [re.sub] with the tag pattern and the empty replacement. *)
Definition strip (s : str) : str := re_sub tag_re [] s.

(** ** Normalization and the angle brackets *)

(** [<] and [>]. *)
Definition is_angle (c : char) : bool := (c =? 60)%N || (c =? 62)%N.

(** [overlaid s]: in canonical order, [s] starts with U+0338 (combining
    long solidus overlay, of class 1): a U+0338 stands in [s] after
    nothing but combining characters of higher classes. *)
Fixpoint overlaid (s : str) : bool :=
  match s with
  | [] => false
  | c :: s' => (c =? 0x338)%N || (1 <? combining c)%N && overlaid s'
  end.

(** [gt_overlaid s]: some [>] of [s] is followed by such a U+0338, once
    what follows it is decomposed; NFC composes the two into U+226F. *)
Fixpoint gt_overlaid (s : str) : bool :=
  match s with
  | [] => false
  | c :: s' => (c =? 62)%N && overlaid (flat_map (decompose 4) s') || gt_overlaid s'
  end.

(** Canonical ordering, of a text that is decomposed already. *)
Definition canonical_order (s : str) : str :=
  rev (fold_left (λ acc d, insert_mark d acc) s []).

(** [bound s]: every [<] and [>] of [s] stands directly before a U+0338,
    as in the decomposition of U+226E and U+226F. *)
Fixpoint bound (s : str) : bool :=
  match s with
  | [] => true
  | c :: s' => (negb (is_angle c) || bool_decide (head s' = Some 0x338%N)) && bound s'
  end.

(** [keeps_gt y z]: [z] is [y] with some characters other than [>]
    replaced by texts without [<] and [>] (or by nothing). *)
Inductive keeps_gt : str → str → Prop :=
| keeps_gt_nil : keeps_gt [] []
| keeps_gt_same c y z : keeps_gt y z → keeps_gt (c :: y) (c :: z)
| keeps_gt_other c b y z :
    c ≠ 62%N → existsb is_angle b = false →
    keeps_gt y z → keeps_gt (c :: y) (b ++ z).

(** ** Projection and sampling *)

(** The cells of [r] at the indices of [columns] that are valid for [r],
    in the order of [columns]. *)
Definition select (r : row) (columns : list Z) : row :=
  omap (λ i : Z, if bool_decide (0 ≤ i)%Z then r !! Z.to_nat i else None) columns.

(** The value of the key column (index 51), when the row has one. *)
Definition key (r : row) : option str := r !! 51.

(** What is kept of a run: its first and fourth rows when it has at least
    five rows, nothing otherwise. *)
Definition kept_of_run (run : list row) : list row :=
  match run with
  | r0 :: _ :: _ :: r3 :: _ :: _ => [r0; r3]
  | _ => []
  end.

(** How many rows at the start of [rs] carry the key [num]. *)
Fixpoint run_length (num : str) (rs : list row) : nat :=
  match rs with
  | r :: rs' => if bool_decide (key r = Some num) then S (run_length num rs') else 0
  | [] => 0
  end.

(** [sampled rs out]: [rs] splits, from left to right, into rows without
    an all-digit key, which are dropped, and maximal runs of rows with one
    all-digit key, of which [kept_of_run] is kept; [out] is what is kept. *)
Inductive sampled : list row → list row → Prop :=
| sampled_nil : sampled [] []
| sampled_drop r rs out :
    TaskData.str_isdigit (default [] (key r)) = false →
    sampled rs out →
    sampled (r :: rs) out
| sampled_run num run rs out :
    TaskData.str_isdigit num = true →
    run ≠ [] →
    Forall (λ r, key r = Some num) run →
    head rs ≫= key ≠ Some num →
    sampled rs out →
    sampled (run ++ rs) (kept_of_run run ++ out).

(** The lines that [filter_csv_columns] can print. *)
Definition not_found_message (input : string) : string :=
  "Error: File '" +:+ input +:+ "' not found.".
Definition empty_message (input : string) : string :=
  "Error: '" +:+ input +:+ "' is empty.".
Definition success_message (output : string) : string :=
  "Successfully wrote filtered CSV to " +:+ output.
Definition error_message (e : read_error) : string :=
  "Error: " +:+ exn_message (raised e).

(** [writable w path]: [open(path, 'w')] succeeds in [w]: a file stands
    at [path], or the directory of [path] exists. *)
Definition writable (w : world) (path : string) : Prop :=
  is_Some (files w !! path) ∨ dirname path ∈ dirs w.


(** A row of 52 cells for the examples: a label in column 0, [k] in
    column 51, nothing between. *)
Definition keyed (label : string) (k : str) : row :=
  py label :: replicate 50 [] ++ [k].

(** A decimal digit in the narrow sense, [0] to [9]. *)
Definition is_ascii_digit (c : char) : bool := (48 <=? c)%N && (c <=? 57)%N.

(** Plain text: the printable ASCII characters, tab, newline and carriage
    return. *)
Definition plain (c : char) : bool :=
  (32 <=? c)%N && (c <=? 126)%N || existsb (N.eqb c) [9; 10; 13]%N.

(** The rows that the sampler keeps, as a list. *)
Definition kept_rows (rows : list row) : list row :=
  match TaskData.run_sampler rows with
  | Ret kept => kept
  | _ => []
  end.

(** ** A call of [filter_csv_columns] *)

(** The rows that [filter_csv_columns] writes for the data rows [rs]. *)
Definition written (columns : list Z) (rs : list row) : list row :=
  map (λ r, map _clean_text (select r columns)) rs.

(** What a call leaves in the output file and prints, once both files
    are open and the reader is [reader]: in [questionnaire.py] and in
    [task_data.py]. *)
Definition questionnaire_result (input output : string) (columns : list Z)
    (reader : file) : list row * string :=
  match file_rows reader, file_error reader with
  | [], None => ([], empty_message input)
  | [], Some e => ([], error_message e)
  | header :: rs, None =>
      (select header columns :: written columns rs, success_message output)
  | header :: rs, Some e =>
      (select header columns :: written columns rs, error_message e)
  end.

Definition task_data_result (input output : string) (columns : list Z)
    (reader : file) : list row * string :=
  match file_rows reader, file_error reader with
  | [], None => ([], empty_message input)
  | [], Some e => ([], error_message e)
  | header :: rs, None =>
      (select header columns :: written columns (kept_rows rs), success_message output)
  | header :: rs, Some e => ([select header columns], error_message e)
  end.

(** The world after a call, by the state of the two files: without the
    input file, or without a way to open the output file, the not-found
    line is printed and nothing else changes; otherwise the output file is
    emptied before the input file is read. *)
Definition after_call (result : file → list row * string) (input output : string)
    (w : world) : world :=
  match files w !! input with
  | None => World (files w) (dirs w) (stdout w ++ [not_found_message input])
  | Some f =>
      if bool_decide (writable w output) then
        let reader := if decide (output = input) then File [] None else f in
        World (<[output := File (result reader).1 None]> (files w)) (dirs w)
              (stdout w ++ [(result reader).2])
      else World (files w) (dirs w) (stdout w ++ [not_found_message input])
  end.

(** * Properties *)

(** ** The matcher *)

Section MatcherFacts.
Context {A : Type}.
Implicit Types (k : str → option A) (s u : str) (a : A).

Lemma star_sound p k s a :
  star p k s = Some a →
  ∃ u s', s = u ++ s' ∧ forallb p u = true ∧ k s' = Some a.
Proof.
  induction s as [|c s IH]; simpl.
  - intros H. by exists [], [].
  - destruct (p c) eqn:Hp.
    + destruct (star p k s) as [b|] eqn:Hs.
      * intros [= ->]. destruct (IH eq_refl) as (u & s' & -> & Hu & Hk).
        exists (c :: u), s'. simpl. by rewrite Hp, Hu.
      * intros H. by exists [], (c :: s).
    + intros H. by exists [], (c :: s).
Qed.

Lemma lazy_star_sound p k s a :
  lazy_star p k s = Some a →
  ∃ u s', s = u ++ s' ∧ forallb p u = true ∧ k s' = Some a.
Proof.
  induction s as [|c s IH]; simpl.
  - destruct (k []) eqn:Hk; [|done]. intros [= ->]. by exists [], [].
  - destruct (k (c :: s)) eqn:Hk.
    + intros [= ->]. by exists [], (c :: s).
    + destruct (p c) eqn:Hp; [|done]. intros H.
      destruct (IH H) as (u & s' & -> & Hu & Hk').
      exists (c :: u), s'. simpl. by rewrite Hp, Hu.
Qed.

(** Whatever the matcher answers, it has split the text into a part in
    the language of the pattern and a rest accepted by the continuation. *)
Lemma run_sound r s g (k : str → option str → option A) a :
  run r s g k = Some a →
  ∃ u s' g', s = u ++ s' ∧ lang r u ∧ k s' g' = Some a.
Proof.
  revert s g k a. induction r as [p|r1 IH1 r2 IH2|r1 IH1 r2 IH2|p|p|r IH];
    intros s g k a; simpl.
  - destruct s as [|c s]; [done|]. destruct (p c) eqn:Hp; [|done].
    intros H. exists [c], s, g. split_and!; [done|by constructor|done].
  - intros H. apply IH1 in H as (u1 & s1 & g1 & -> & Hu1 & H).
    apply IH2 in H as (u2 & s2 & g2 & -> & Hu2 & H).
    exists (u1 ++ u2), s2, g2. rewrite <-(assoc_L (++)).
    split_and!; [done|by constructor|done].
  - destruct (run r1 s g k) as [b|] eqn:H1.
    + intros [= ->]. apply IH1 in H1 as (u & s' & g' & -> & Hu & H).
      exists u, s', g'. split_and!; [done|by apply lang_alt_l|done].
    + intros H. apply IH2 in H as (u & s' & g' & -> & Hu & H).
      exists u, s', g'. split_and!; [done|by apply lang_alt_r|done].
  - intros H. apply star_sound in H as (u & s' & -> & Hu & H).
    exists u, s', g. split_and!; [done|by constructor|done].
  - intros H. apply lazy_star_sound in H as (u & s' & -> & Hu & H).
    exists u, s', g. split_and!; [done|by constructor|done].
  - intros H. apply IH in H as (u & s' & g' & -> & Hu & H).
    eexists u, s', _. split_and!; [done|by constructor|done].
Qed.
End MatcherFacts.

Lemma re_match_sound r s g rest :
  re_match r s = Some (g, rest) → ∃ u, s = u ++ rest ∧ lang r u.
Proof.
  unfold re_match. intros H.
  apply run_sound in H as (u & s' & g' & -> & Hu & [= _ ->]). by exists u.
Qed.

Lemma avoids_lang c r u : avoids c r = true → lang r u → c ∉ u.
Proof.
  intros Hr Hu. induction Hu as [p d Hd|r1 r2 u1 u2 _ IH1 _ IH2| | |p u Hu|p u Hu|];
    simpl in Hr; try (apply andb_prop in Hr as [??]); eauto.
  - apply not_elem_of_cons. split; [|apply not_elem_of_nil].
    intros ->. by rewrite Hd in Hr.
  - apply not_elem_of_app. auto.
  - intros Hin. apply list_elem_of_In in Hin.
    eapply forallb_forall in Hu; [|done]. by rewrite Hu in Hr.
  - intros Hin. apply list_elem_of_In in Hin.
    eapply forallb_forall in Hu; [|done]. by rewrite Hu in Hr.
Qed.

Lemma nonempty_lang r u : nonempty r = true → lang r u → u ≠ [].
Proof.
  intros Hr Hu. induction Hu as [|r1 r2 u1 u2 _ IH1 _ IH2| | | | |]; simpl in Hr; try done.
  - apply orb_prop in Hr as [?|?]; intros [??]%app_eq_nil; naive_solver.
  - apply andb_prop in Hr as [??]. auto.
  - apply andb_prop in Hr as [??]. auto.
  - auto.
Qed.

(** ** [re.sub] *)

(** The characters skipped after a match are those up to the rest of the
    text that the match left. *)
Lemma sub_from_skip r tpl n s :
  n ≤ length s → sub_from r tpl n s = sub_from r tpl 0 (drop n s).
Proof.
  revert n. induction s as [|c s IH]; intros [|n] Hn; simpl in *; try done; try lia.
  apply IH. lia.
Qed.

(** One step of [re.sub] on a text that is not empty. *)
Lemma re_sub_cons r tpl c s :
  re_sub r tpl (c :: s) =
    match re_match r (c :: s) with
    | Some (g, rest) =>
        if bool_decide (rest = c :: s) then expand tpl g ++ c :: re_sub r tpl s
        else expand tpl g ++ re_sub r tpl rest
    | None => c :: re_sub r tpl s
    end.
Proof.
  unfold re_sub. cbn [sub_from].
  destruct (re_match r (c :: s)) as [[g rest]|] eqn:Hm; [|done].
  destruct (re_match_sound _ _ _ _ Hm) as (u & Hu & _).
  case_bool_decide as Hrest.
  - subst rest. by rewrite Nat.sub_diag.
  - destruct u as [|d u]; [done|]. injection Hu as <- ->.
    replace (length (c :: u ++ rest) - length rest) with (S (length u))
      by (simpl; rewrite length_app; lia).
    rewrite sub_from_skip by (rewrite length_app; lia).
    by rewrite drop_app_length.
Qed.

(** Where the pattern matches nowhere, [re.sub] changes nothing. *)
Lemma re_sub_no_match r tpl s :
  re_search r s = false → re_sub r tpl s = s.
Proof.
  induction s as [|c s IH].
  - unfold re_sub. simpl. by destruct (re_match r []).
  - simpl. rewrite re_sub_cons.
    destruct (re_match r (c :: s)); [done|]. intros H. by rewrite IH.
Qed.

(** ** The tag pattern [<[^>]+>] *)

Lemma after_gt_Some s rest :
  after_gt s = Some rest ↔ ∃ w, s = w ++ 62%N :: rest ∧ 62%N ∉ w.
Proof.
  revert rest. induction s as [|c s IH]; intros rest; simpl.
  - split; [done|]. intros ([|??] & ? & ?); done.
  - destruct (c =? 62)%N eqn:Hc.
    + apply N.eqb_eq in Hc as ->. split.
      * intros [= ->]. exists []. split; [done|apply not_elem_of_nil].
      * intros ([|d w] & Hw & Hn); simpl in Hw.
        -- by injection Hw as ->.
        -- injection Hw as <- _. exfalso. apply Hn. left.
    + apply N.eqb_neq in Hc. rewrite IH. split.
      * intros (w & -> & Hn). exists (c :: w). split; [done|].
        apply not_elem_of_cons. done.
      * intros ([|d w] & Hw & Hn); simpl in Hw.
        -- by injection Hw as -> _.
        -- injection Hw as <- ->. exists w. split; [done|].
           by apply not_elem_of_cons in Hn as [_ ?].
Qed.

Lemma after_gt_None s : after_gt s = None ↔ 62%N ∉ s.
Proof.
  induction s as [|c s IH]; simpl.
  - split; [intros _; apply not_elem_of_nil|done].
  - destruct (c =? 62)%N eqn:Hc.
    + apply N.eqb_eq in Hc as ->. split; [done|]. intros H. exfalso. apply H. left.
    + apply N.eqb_neq in Hc. rewrite IH, not_elem_of_cons.
      split; [by split|by intros [_ ?]].
Qed.

(** [[^>]*] followed by a literal [>]. *)
Lemma star_not_gt {A} (k : str → option A) s :
  star not_gt (λ s', match s' with
                     | c :: s'' => if (62 =? c)%N then k s'' else None
                     | [] => None
                     end) s
  = after_gt s ≫= k.
Proof.
  induction s as [|c s IH]; cbn [star after_gt]; [done|].
  unfold not_gt at 1. rewrite (N.eqb_sym 62 c).
  destruct (c =? 62)%N eqn:Hc; cbn [negb]; [done|].
  rewrite IH. by destruct (after_gt s ≫= k).
Qed.

(** The matcher on the tag pattern, in closed form. *)
Lemma tag_re_match s : re_match tag_re s = (λ rest, (None, rest)) <$> tag_at s.
Proof.
  unfold re_match, tag_re, chr. cbn [run].
  change (N_of_ascii "<") with 60%N. change (N_of_ascii ">") with 62%N.
  destruct s as [|c [|d s]]; cbn [tag_at]; [done|by destruct (60 =? c)%N|].
  rewrite (N.eqb_sym 60 c). destruct (c =? 60)%N; cbn [andb]; [|done].
  unfold not_gt at 1. destruct (d =? 62)%N; cbn [negb]; [done|].
  rewrite (star_not_gt (λ s', Some (None, s'))).
  by destruct (after_gt s).
Qed.

Lemma tag_at_shorter s rest : tag_at s = Some rest → length rest < length s.
Proof.
  destruct s as [|c [|d s]]; simpl; try done.
  destruct (_ && _); [|done]. intros H. apply after_gt_Some in H as (w & -> & _).
  simpl. rewrite length_app. simpl. lia.
Qed.

Lemma tag_at_subset s rest : tag_at s = Some rest → rest ⊆ s.
Proof.
  destruct s as [|c [|d s]]; simpl; try done.
  destruct (_ && _); [|done]. intros H. apply after_gt_Some in H as (w & -> & _).
  intros x Hx. do 2 right. apply elem_of_app. right. by right.
Qed.

Lemma strip_nil : strip [] = [].
Proof. done. Qed.

Lemma strip_cons c s :
  strip (c :: s) =
    match tag_at (c :: s) with
    | Some rest => strip rest
    | None => c :: strip s
    end.
Proof.
  unfold strip. rewrite re_sub_cons, tag_re_match.
  destruct (tag_at (c :: s)) as [rest|] eqn:Ht; simpl; [|done].
  rewrite bool_decide_eq_false_2; [done|].
  intros ->. apply tag_at_shorter in Ht. lia.
Qed.

Lemma has_tag_nil : has_tag [] = false.
Proof. done. Qed.

Lemma has_tag_cons c s :
  has_tag (c :: s) = bool_decide (is_Some (tag_at (c :: s))) || has_tag s.
Proof.
  unfold has_tag. cbn [re_search]. rewrite tag_re_match.
  destruct (tag_at (c :: s)) eqn:Ht; cbn [fmap option_fmap option_map].
  - rewrite bool_decide_eq_true_2; [done|by eexists].
  - rewrite bool_decide_eq_false_2; [done|]. by intros [??].
Qed.

(** What [strip] returns is made of characters of its argument. *)
Lemma strip_subset s : strip s ⊆ s.
Proof.
  induction s as [s IH] using (induction_ltof1 _ length). unfold ltof in IH.
  destruct s as [|c s]; [done|]. rewrite strip_cons.
  destruct (tag_at (c :: s)) as [rest|] eqn:Ht.
  - etrans; [apply IH; by eapply tag_at_shorter|by apply tag_at_subset].
  - intros x [->|Hx]%elem_of_cons; [left|right]. apply IH; [simpl; lia|done].
Qed.

(** After the tags are removed, no tag is left. *)
Lemma strip_no_tag s : has_tag (strip s) = false.
Proof.
  induction s as [s IH] using (induction_ltof1 _ length). unfold ltof in IH.
  destruct s as [|c s]; [done|]. rewrite strip_cons.
  destruct (tag_at (c :: s)) as [rest|] eqn:Ht.
  - apply IH. by eapply tag_at_shorter.
  - rewrite has_tag_cons, IH by (simpl; lia). rewrite orb_false_r.
    apply bool_decide_eq_false_2. intros [rest Hrest].
    destruct (strip s) as [|d t] eqn:Hs; [done|]. simpl in Hrest.
    destruct (c =? 60)%N eqn:Hc; [|done]. destruct (d =? 62)%N eqn:Hd; [done|].
    simpl in Hrest. apply after_gt_Some in Hrest as (w & -> & _).
    assert (62%N ∈ s) as Hin.
    { apply strip_subset. rewrite Hs. right. apply elem_of_app. right. left. }
    destruct s as [|e s]; [by apply elem_of_nil in Hin|].
    rewrite strip_cons in Hs. simpl in Ht. rewrite Hc in Ht. simpl in Ht.
    destruct (e =? 62)%N eqn:He; simpl in Ht.
    + apply N.eqb_eq in He as ->.
      assert (tag_at (62%N :: s) = None) as Hnone by (by destruct s).
      rewrite Hnone in Hs. injection Hs as Hd' _. subst d. done.
    + apply after_gt_None in Ht. apply elem_of_cons in Hin as [<-|?]; [|done].
      by rewrite N.eqb_refl in He.
Qed.

(** Dropping characters other than [<] and [>] creates no tag. *)
Lemma filter_no_tag (f : char → bool) s :
  f 60%N = true → f 62%N = true →
  has_tag s = false → has_tag (List.filter f s) = false.
Proof.
  intros Hlt Hgt. induction s as [|c s IH]; [done|].
  rewrite has_tag_cons. intros [Hc Hs]%orb_false_elim. specialize (IH Hs).
  simpl. destruct (f c) eqn:Hf; [|done].
  rewrite has_tag_cons, IH, orb_false_r.
  apply bool_decide_eq_false_2. intros [rest Hrest].
  apply bool_decide_eq_false_1 in Hc. apply Hc. clear Hc.
  destruct (List.filter f s) as [|d t] eqn:Hfs; [done|]. simpl in Hrest.
  destruct (c =? 60)%N eqn:Hc; [|done]. destruct (d =? 62)%N eqn:Hd; [done|].
  simpl in Hrest. apply after_gt_Some in Hrest as (w & -> & _).
  assert (62%N ∈ s) as Hin.
  { apply list_elem_of_In. eapply (proj1 (filter_In f _ _)).
    rewrite Hfs. apply list_elem_of_In. right. apply elem_of_app. right. left. }
  destruct s as [|e s]; [by apply elem_of_nil in Hin|].
  simpl. rewrite Hc. simpl.
  destruct (e =? 62)%N eqn:He; simpl.
  - apply N.eqb_eq in He as ->. simpl in Hfs. rewrite Hgt in Hfs.
    injection Hfs as Hd' _. subst d. done.
  - apply elem_of_cons in Hin as [<-|Hin]; [by rewrite N.eqb_refl in He|].
    destruct (after_gt s) eqn:Ha; [by eexists|].
    by apply after_gt_None in Ha.
Qed.
(** ** NFC and the angle brackets *)

Lemma find_None_forallb {T} (q p : T → bool) (l : list T) :
  forallb q l = true → (∀ e, q e = true → p e = false) → find p l = None.
Proof.
  intros Hq Hp. induction l as [|e l IH]; [done|].
  simpl in *. apply andb_prop in Hq as [He Hl]. rewrite (Hp e He). auto.
Qed.

Lemma find_Some_forallb {T} (q p : T → bool) (l : list T) e :
  forallb q l = true → find p l = Some e → q e = true ∧ p e = true.
Proof.
  intros Hq Hf. apply find_some in Hf as [Hin Hp].
  split; [|done]. by apply (proj1 (forallb_forall q l) Hq).
Qed.

Lemma existsb_rev {T} (f : T → bool) (l : list T) : existsb f (rev l) = existsb f l.
Proof.
  induction l as [|x l IH]; [done|]. cbn [rev existsb].
  rewrite existsb_app, IH. cbn [existsb]. rewrite orb_false_r. apply orb_comm.
Qed.

Section Angles.
Implicit Types (c g st : N) (s u v y z : list N).

Lemma is_angle_true c : is_angle c = true ↔ c = 60%N ∨ c = 62%N.
Proof. unfold is_angle. rewrite orb_true_iff, !N.eqb_eq. done. Qed.

Lemma is_angle_ascii c : is_angle c = true → (c < 128)%N.
Proof. intros [->| ->]%is_angle_true; lia. Qed.

(** *** What the tables say about [<], [>] and U+0338 *)

Lemma combining_below_128 c : (c < 128)%N → combining c = 0%N.
Proof.
  intros Hc. unfold combining.
  rewrite (find_None_forallb (λ e, (128 <=? e.1.1)%N)); [done|by vm_compute|].
  intros e He%N.leb_le. apply andb_false_iff. left. apply N.leb_gt. lia.
Qed.

Lemma combining_angle g : is_angle g = true → combining g = 0%N.
Proof. intros Hg%is_angle_ascii. by apply combining_below_128. Qed.

Lemma mark_not_angle c : combining c ≠ 0%N → is_angle c = false.
Proof.
  intros Hc. destruct (is_angle c) eqn:Hg; [|done]. by apply combining_angle in Hg.
Qed.

Lemma combining_overlay : combining 0x338 = 1%N.
Proof. reflexivity. Qed.

(** Nothing composes with a following [<] or [>]. *)
Lemma compose_pair_angle st g : is_angle g = true → compose_pair st g = None.
Proof.
  intros Hg%is_angle_ascii. unfold compose_pair, VBase, TBase.
  rewrite (proj2 (N.leb_gt 0x1161 g)) by lia. rewrite andb_false_r. cbn [andb].
  rewrite (proj2 (N.ltb_ge 0x11A7 g)) by lia. rewrite andb_false_r. cbn [andb].
  rewrite (find_None_forallb (λ e, (128 <=? e.2)%N)); [done|by vm_compute|].
  intros e He%N.leb_le. apply andb_false_iff. right. apply N.eqb_neq. lia.
Qed.

(** No composite is [<] or [>]. *)
Lemma compose_pair_not_angle st c p : compose_pair st c = Some p → is_angle p = false.
Proof.
  unfold compose_pair. intros H.
  assert ((128 <= p)%N) as Hp.
  { destruct (_ && _ && _ && _) eqn:H1.
    - injection H as <-. rewrite !andb_true_iff in H1. destruct H1 as [[[H1 _] _] _].
      apply N.leb_le in H1. unfold SBase, LBase, VBase, VCount, TCount in *. lia.
    - destruct (is_hangul_syllable st && _ && _ && _) eqn:H2.
      + injection H as <-. unfold is_hangul_syllable in H2.
        rewrite !andb_true_iff in H2. destruct H2 as [[[[H2 _] _] _] _].
        apply N.leb_le in H2. unfold SBase, TBase in *. lia.
      + destruct (find _ primary_composites) as [e|] eqn:Hf; [|done].
        injection H as <-.
        apply (find_Some_forallb (λ e, (128 <=? e.1.1)%N)) in Hf as [He%N.leb_le _];
          [done|by vm_compute]. }
  destruct (is_angle p) eqn:Hg; [|done]. apply is_angle_ascii in Hg. lia.
Qed.

(** [<] and [>] compose with U+0338 and with nothing else. *)
Lemma compose_pair_from_angle g c p :
  is_angle g = true → compose_pair g c = Some p → c = 0x338%N.
Proof.
  intros Hg. pose proof (is_angle_ascii _ Hg) as Hlt.
  unfold compose_pair, is_hangul_syllable, LBase, SBase.
  rewrite (proj2 (N.leb_gt 0x1100 g)) by lia. cbn [andb].
  rewrite (proj2 (N.leb_gt 0xAC00 g)) by lia. cbn [andb].
  destruct (find _ primary_composites) as [e|] eqn:Hf; [|done]. intros _.
  apply (find_Some_forallb (λ e, negb (is_angle e.1.2) || (e.2 =? 0x338)%N)) in Hf
    as [He Hp]; [|by vm_compute].
  apply andb_prop in Hp as [H1 H2]. apply N.eqb_eq in H1, H2. subst g c.
  rewrite Hg in He. by apply N.eqb_eq in He.
Qed.

Lemma compose_pair_overlay g :
  is_angle g = true → ∃ p, compose_pair g 0x338 = Some p.
Proof. intros [->| ->]%is_angle_true; by eexists. Qed.

(** The characters that are, or decompose to, [<] or [>]. *)
Lemma decomposition_no_angle c cs :
  existsb (N.eqb c) [60; 62; 0x226E; 0x226F]%N = false →
  decomposition c = Some cs →
  Forall (λ d, existsb (N.eqb d) [60; 62; 0x226E; 0x226F]%N = false) cs.
Proof.
  intros Hc. unfold decomposition.
  destruct (is_hangul_syllable c) eqn:Hh.
  - intros [= <-]. unfold is_hangul_syllable, SBase, SCount in Hh.
    apply andb_prop in Hh as [H1%N.leb_le H2%N.ltb_lt].
    unfold hangul_decomposition, SBase, LBase, VBase, TBase, NCount, TCount.
    assert ((c - 0xAC00) / 588 < 19)%N by (apply N.Div0.div_lt_upper_bound; lia).
    assert (((c - 0xAC00) mod 588) / 28 < 21)%N.
    { apply N.Div0.div_lt_upper_bound.
      assert ((c - 0xAC00) mod 588 < 588)%N by (by apply N.mod_upper_bound). lia. }
    assert ((c - 0xAC00) mod 28 < 28)%N by (by apply N.mod_upper_bound).
    assert (∀ d, (0x1100 <= d < 0x1200)%N →
                 existsb (N.eqb d) [60; 62; 0x226E; 0x226F]%N = false) as Hd.
    { intros d Hd. cbn [existsb]. rewrite !orb_false_iff, !N.eqb_neq. lia. }
    remember ((c - 0xAC00) / 588)%N as l eqn:El.
    remember (((c - 0xAC00) mod 588) / 28)%N as v eqn:Ev.
    remember ((c - 0xAC00) mod 28)%N as t eqn:Et. clear El Ev Et.
    destruct (_ =? _)%N; repeat (apply Forall_cons_2; [apply Hd; lia|]); apply Forall_nil_2.
  - destruct (find _ singleton_decompositions) as [e|] eqn:Hf.
    + intros [= <-].
      apply (find_Some_forallb
               (λ e, existsb (N.eqb e.1) [60; 62; 0x226E; 0x226F]%N
                     || negb (existsb (N.eqb e.2) [60; 62; 0x226E; 0x226F]%N))) in Hf
        as [He Hp]; [|by vm_compute].
      apply N.eqb_eq in Hp. subst c. rewrite Hc in He. cbn [orb] in He.
      apply negb_true_iff in He. by constructor.
    + destruct (find _ (_ ++ _)) as [e|] eqn:Hg; [|done]. intros [= <-].
      apply (find_Some_forallb
               (λ e, existsb (N.eqb e.1.1) [60; 62; 0x226E; 0x226F]%N
                     || negb (existsb (N.eqb e.1.2) [60; 62; 0x226E; 0x226F]%N)
                        && negb (existsb (N.eqb e.2) [60; 62; 0x226E; 0x226F]%N))) in Hg
        as [He Hp]; [|by vm_compute].
      apply N.eqb_eq in Hp. subst c. rewrite Hc in He. cbn [orb] in He.
      apply andb_prop in He as [H1 H2]. apply negb_true_iff in H1, H2.
      by repeat constructor.
Qed.

Lemma decompose_no_angle n c :
  existsb (N.eqb c) [60; 62; 0x226E; 0x226F]%N = false →
  existsb is_angle (decompose n c) = false.
Proof.
  revert c. induction n as [|n IH]; intros c Hc.
  - cbn [decompose existsb]. rewrite orb_false_r. unfold is_angle.
    cbn [existsb] in Hc. rewrite !orb_false_iff in Hc. rewrite orb_false_iff. tauto.
  - cbn [decompose]. destruct (decomposition c) as [cs|] eqn:Hd.
    + apply decomposition_no_angle in Hd; [|done].
      induction Hd as [|d cs Hd _ IHcs]; [done|].
      cbn [flat_map]. rewrite existsb_app, IH by done. done.
    + cbn [existsb]. rewrite orb_false_r. unfold is_angle.
      cbn [existsb] in Hc. rewrite !orb_false_iff in Hc. rewrite orb_false_iff. tauto.
Qed.

(** What a character contributes to the decomposed text: itself when it
    is [<] or [>], a [<] or [>] and a U+0338 when it is U+226E or U+226F,
    and neither [<] nor [>] otherwise. *)
Lemma decompose_cases c :
  (is_angle c = true ∧ decompose 4 c = [c]) ∨
  (is_angle c = false ∧
   ((∃ g, is_angle g = true ∧ decompose 4 c = [g; 0x338%N]) ∨
    existsb is_angle (decompose 4 c) = false)).
Proof.
  destruct (existsb (N.eqb c) [60; 62; 0x226E; 0x226F]%N) eqn:Hc.
  - cbn [existsb] in Hc. rewrite !orb_true_iff, !N.eqb_eq in Hc.
    destruct Hc as [->|[->|[->|[->|?]]]].
    + by left.
    + by left.
    + right. split; [done|]. left. by exists 60%N.
    + right. split; [done|]. left. by exists 62%N.
    + done.
  - right. split.
    + unfold is_angle. cbn [existsb] in Hc. rewrite !orb_false_iff in Hc.
      rewrite orb_false_iff. tauto.
    + right. by apply decompose_no_angle.
Qed.

(** *** Canonical ordering *)

Lemma nfd_canonical_order s : nfd s = canonical_order (flat_map (decompose 4) s).
Proof.
  unfold nfd, canonical_order. f_equal. generalize (@nil N).
  induction s as [|c s IH]; intros acc; [done|].
  cbn [fold_left flat_map]. by rewrite fold_left_app, IH.
Qed.

Lemma insert_mark_starter c acc : combining c = 0%N → insert_mark c acc = c :: acc.
Proof. intros Hc. destruct acc; [done|]. cbn [insert_mark]. by rewrite Hc. Qed.

(** No mark moves in front of a starter or of a mark of class 1. *)
Lemma insert_mark_barrier m l x r :
  (combining x <= 1)%N → insert_mark m (l ++ x :: r) = insert_mark m l ++ x :: r.
Proof.
  intros Hx. induction l as [|d l IH].
  - cbn [app insert_mark].
    destruct (combining m =? 0)%N eqn:Hm; cbn [negb andb]; [done|].
    apply N.eqb_neq in Hm. by rewrite (proj2 (N.ltb_ge _ _)) by lia.
  - cbn [app insert_mark]. rewrite IH. by destruct (_ && _).
Qed.

Lemma fold_insert_barrier d l x r :
  (combining x <= 1)%N →
  fold_left (λ acc e, insert_mark e acc) d (l ++ x :: r)
  = fold_left (λ acc e, insert_mark e acc) d l ++ x :: r.
Proof.
  intros Hx. revert l. induction d as [|e d IH]; intros l; [done|].
  cbn [fold_left]. by rewrite insert_mark_barrier, IH.
Qed.

Lemma fold_insert_above d x r :
  (combining x <= 1)%N →
  fold_left (λ acc e, insert_mark e acc) d (x :: r)
  = fold_left (λ acc e, insert_mark e acc) d [] ++ x :: r.
Proof. apply (fold_insert_barrier d [] x r). Qed.

Lemma canonical_order_app_starter d c d' :
  combining c = 0%N →
  canonical_order (d ++ c :: d') = canonical_order d ++ c :: canonical_order d'.
Proof.
  intros Hc. unfold canonical_order. rewrite fold_left_app. cbn [fold_left].
  rewrite insert_mark_starter by done.
  rewrite (fold_insert_above d' c) by lia.
  rewrite rev_app_distr. cbn [rev]. by rewrite <-app_assoc.
Qed.

Lemma canonical_order_cons_low x d :
  (combining x <= 1)%N → canonical_order (x :: d) = x :: canonical_order d.
Proof.
  intros Hx. unfold canonical_order. cbn [fold_left insert_mark].
  rewrite (fold_insert_above d x []) by done.
  by rewrite rev_app_distr.
Qed.

Lemma existsb_insert_mark (f : N → bool) m l :
  existsb f (insert_mark m l) = f m || existsb f l.
Proof.
  induction l as [|d l IH]; [done|]. cbn [insert_mark].
  destruct (_ && _); cbn [existsb]; [|done].
  rewrite IH. by destruct (f m), (f d).
Qed.

Lemma Forall_insert_mark (P : N → Prop) m l :
  P m → Forall P l → Forall P (insert_mark m l).
Proof.
  intros Hm. induction 1 as [|d l Hd Hl IH]; [by repeat constructor|].
  cbn [insert_mark]. destruct (_ && _); by repeat constructor.
Qed.

(** *** Bound angle brackets stay bound *)

Lemma bound_cons c s :
  bound (c :: s) = (negb (is_angle c) || bool_decide (head s = Some 0x338%N)) && bound s.
Proof. done. Qed.

Lemma bound_app_free p q : existsb is_angle p = false → bound (p ++ q) = bound q.
Proof.
  induction p as [|c p IH]; [done|]. cbn [existsb].
  intros [Hc Hp]%orb_false_elim. cbn [app]. rewrite bound_cons, Hc, IH by done. done.
Qed.

Lemma marks_no_angle acc :
  Forall (λ e, combining e ≠ 0%N) acc → existsb is_angle (rev acc) = false.
Proof.
  intros Hacc. apply not_true_is_false. intros (e & He & Hg)%existsb_exists.
  rewrite Forall_forall in Hacc. apply in_rev, list_elem_of_In, Hacc in He.
  by rewrite mark_not_angle in Hg.
Qed.

Lemma bound_canonical_order_gen d acc :
  Forall (λ e, combining e ≠ 0%N) acc → bound d = true →
  bound (rev (fold_left (λ acc e, insert_mark e acc) d acc)) = true.
Proof.
  revert acc. induction d as [|c d IH]; intros acc Hacc Hd.
  - cbn [fold_left]. rewrite <-(app_nil_r (rev acc)), bound_app_free; [done|].
    by apply marks_no_angle.
  - rewrite bound_cons in Hd. apply andb_prop in Hd as [Hc Hd]. cbn [fold_left].
    destruct (combining c =? 0)%N eqn:Hk.
    + apply N.eqb_eq in Hk. rewrite insert_mark_starter by done.
      rewrite (fold_insert_above d c acc) by lia.
      rewrite rev_app_distr. cbn [rev]. rewrite <-app_assoc. cbn [app].
      rewrite bound_app_free by (by apply marks_no_angle).
      rewrite bound_cons. fold (canonical_order d).
      apply andb_true_intro. split; [|by apply (IH [])].
      destruct (is_angle c); [|done]. cbn [negb orb] in *.
      apply bool_decide_eq_true_1 in Hc. destruct d as [|m d]; [done|].
      injection Hc as ->. by rewrite canonical_order_cons_low.
    + apply N.eqb_neq in Hk. apply IH; [|done]. by apply Forall_insert_mark.
Qed.

Lemma bound_canonical_order d : bound d = true → bound (canonical_order d) = true.
Proof. by apply bound_canonical_order_gen. Qed.

(** *** When the ordered text starts with U+0338 *)

Lemma head_rev {A} (l : list A) : head (rev l) = last l.
Proof.
  induction l as [|x l _] using rev_ind; [done|].
  by rewrite rev_app_distr, last_snoc.
Qed.

Lemma insert_mark_below m acc :
  combining m = 1%N → Forall (λ e, (1 < combining e)%N) acc →
  insert_mark m acc = acc ++ [m].
Proof.
  intros Hm. induction 1 as [|e acc He _ IH]; [done|].
  cbn [insert_mark app]. rewrite Hm, IH. cbn [N.eqb negb andb].
  by rewrite (proj2 (N.ltb_lt _ _)) by done.
Qed.

Lemma overlaid_canonical_order_gen d acc :
  Forall (λ e, (1 < combining e)%N) acc →
  last (fold_left (λ acc e, insert_mark e acc) d acc) = Some 0x338%N →
  overlaid d = true.
Proof.
  revert acc. induction d as [|c d IH]; intros acc Hacc Hlast.
  - cbn [fold_left] in Hlast. apply last_Some_elem_of in Hlast.
    rewrite Forall_forall in Hacc. apply Hacc in Hlast.
    rewrite combining_overlay in Hlast. lia.
  - cbn [overlaid]. destruct (c =? 0x338)%N eqn:Hc; [done|]. cbn [orb].
    apply N.eqb_neq in Hc. cbn [fold_left] in Hlast.
    destruct (1 <? combining c)%N eqn:Hk; cbn [andb].
    + apply N.ltb_lt in Hk. apply (IH (insert_mark c acc)); [|done].
      by apply Forall_insert_mark.
    + exfalso. apply N.ltb_ge in Hk.
      destruct (decide (combining c = 0%N)) as [H0|H0].
      * rewrite insert_mark_starter, fold_insert_above in Hlast by (done || lia).
        rewrite last_app_cons in Hlast. destruct acc as [|e acc].
        -- by injection Hlast.
        -- rewrite last_cons_cons in Hlast. apply last_Some_elem_of in Hlast.
           rewrite Forall_forall in Hacc. apply Hacc in Hlast.
           rewrite combining_overlay in Hlast. lia.
      * rewrite insert_mark_below in Hlast by (done || lia).
        rewrite (fold_insert_barrier d acc c []), last_snoc in Hlast by done.
        by injection Hlast.
Qed.

Lemma head_canonical_order_overlaid d :
  head (canonical_order d) = Some 0x338%N → overlaid d = true.
Proof.
  unfold canonical_order. rewrite head_rev. by apply overlaid_canonical_order_gen.
Qed.

Lemma overlaid_app u v : overlaid u = true → overlaid (u ++ v) = true.
Proof.
  induction u as [|c u IH]; [done|]. cbn [overlaid app].
  destruct (c =? 0x338)%N; [done|]. cbn [orb].
  intros [-> Hu]%andb_prop. by rewrite IH.
Qed.

Lemma gt_overlaid_app u v : gt_overlaid (u ++ v) = false → gt_overlaid v = false.
Proof.
  induction u as [|c u IH]; [done|]. cbn [gt_overlaid app].
  intros [_ H]%orb_false_elim. auto.
Qed.

(** *** Composition *)

Lemma compose_from_app_angle g u v st pend comb :
  is_angle g = true →
  compose_from st pend comb (u ++ g :: v)
  = compose_from st pend comb u ++ compose_from g [] 0%N v.
Proof.
  intros Hg. revert st pend comb. induction u as [|c u IH]; intros st pend comb.
  - cbn [app compose_from]. rewrite combining_angle, compose_pair_angle by done.
    cbn [N.eqb]. rewrite andb_true_r. by destruct (negb (comb =? 0)%N).
  - cbn [app compose_from].
    destruct (_ && _); [rewrite IH; cbn [app]; by rewrite app_assoc|].
    destruct (_ && _); [by rewrite IH|].
    destruct (compose_pair st c); [by rewrite IH|].
    destruct (_ =? _)%N; [rewrite IH; cbn [app]; by rewrite app_assoc|by rewrite IH].
Qed.

Lemma compose_app_angle g u v :
  is_angle g = true → compose (u ++ g :: v) = compose u ++ compose_from g [] 0%N v.
Proof.
  intros Hg. destruct u as [|c u]; [done|]. cbn [app compose].
  by apply compose_from_app_angle.
Qed.

(** A character other than [<] and [>], or a [<] or [>] with its U+0338,
    composes with what follows into a text without [<] and [>]. *)
Lemma compose_from_no_angle u st pend comb :
  bound u = true → existsb is_angle pend = false →
  is_angle st = false ∨
    (is_angle st = true ∧ pend = [] ∧ comb = 0%N ∧ head u = Some 0x338%N) →
  existsb is_angle (compose_from st pend comb u) = false.
Proof.
  revert st pend comb. induction u as [|c u IH]; intros st pend comb Hb Hp Hst.
  - destruct Hst as [Hst|(_ & _ & _ & ?)]; [|done].
    cbn [compose_from existsb]. by rewrite Hst, existsb_rev.
  - rewrite bound_cons in Hb. apply andb_prop in Hb as [Hc Hb].
    assert (existsb is_angle (compose_from c [] 0%N u) = false) as Hnext.
    { apply IH; [done..|]. destruct (is_angle c); [right|by left].
      by apply bool_decide_eq_true_1 in Hc. }
    destruct Hst as [Hst|(Hst & -> & -> & [= ->])].
    + cbn [compose_from].
      destruct (negb (comb =? 0)%N && (combining c =? 0)%N) eqn:E1.
      { cbn [existsb]. by rewrite Hst, existsb_app, existsb_rev, Hp, Hnext. }
      destruct (negb (comb =? 0)%N && (combining c <=? comb)%N) eqn:E2.
      { apply IH; [done| |by left]. cbn [existsb]. rewrite Hp, orb_false_r.
        apply mark_not_angle. intros Hk. rewrite Hk in E1.
        apply andb_prop in E2 as [E2 _]. by rewrite E2 in E1. }
      destruct (compose_pair st c) as [p|] eqn:E3.
      { apply IH; [done..|]. left. by eapply compose_pair_not_angle. }
      destruct (combining c =? 0)%N eqn:E4.
      { cbn [existsb]. by rewrite Hst, existsb_app, existsb_rev, Hp, Hnext. }
      apply IH; [done| |by left]. cbn [existsb]. rewrite Hp, orb_false_r.
      apply mark_not_angle. by apply N.eqb_neq.
    + cbn [compose_from]. rewrite combining_overlay. cbn [N.eqb negb andb].
      destruct (compose_pair_overlay st Hst) as [p Hpair]. rewrite Hpair.
      apply IH; [done..|]. left. by eapply compose_pair_not_angle.
Qed.

(** A [<] or [>] that no U+0338 follows stays, and what follows it
    composes into a text without [<] and [>]. *)
Lemma compose_from_keeps_angle u g pend comb :
  is_angle g = true → bound u = true → existsb is_angle pend = false →
  comb ≠ 0%N ∨ head u ≠ Some 0x338%N →
  ∃ z, compose_from g pend comb u = g :: z ∧ existsb is_angle z = false.
Proof.
  intros Hg. revert pend comb. induction u as [|c u IH]; intros pend comb Hb Hp Hcomb.
  - exists (rev pend). by rewrite existsb_rev.
  - rewrite bound_cons in Hb. apply andb_prop in Hb as [Hc Hb].
    assert (existsb is_angle (compose_from c [] 0%N u) = false) as Hnext.
    { apply compose_from_no_angle; [done..|]. destruct (is_angle c); [right|by left].
      by apply bool_decide_eq_true_1 in Hc. }
    cbn [compose_from].
    destruct (negb (comb =? 0)%N && (combining c =? 0)%N) eqn:E1.
    { eexists. split; [done|]. by rewrite existsb_app, existsb_rev, Hp, Hnext. }
    destruct (negb (comb =? 0)%N && (combining c <=? comb)%N) eqn:E2.
    { apply andb_prop in E2 as [E2 _]. rewrite E2 in E1. cbn [andb] in E1.
      apply IH; [done| |].
      - cbn [existsb]. rewrite Hp, orb_false_r. apply mark_not_angle. by apply N.eqb_neq.
      - left. apply negb_true_iff in E2. by apply N.eqb_neq. }
    destruct (compose_pair g c) as [p|] eqn:E3.
    { exfalso. apply compose_pair_from_angle in E3 as ->; [|done].
      destruct Hcomb as [Hcomb|Hcomb]; [|done].
      rewrite combining_overlay in E2. apply N.eqb_neq in Hcomb. rewrite Hcomb in E2.
      cbn [negb andb] in E2. apply N.leb_gt in E2. apply N.eqb_neq in Hcomb. lia. }
    destruct (combining c =? 0)%N eqn:E4.
    { eexists. split; [done|]. by rewrite existsb_app, existsb_rev, Hp, Hnext. }
    apply IH; [done| |].
    + cbn [existsb]. rewrite Hp, orb_false_r. apply mark_not_angle. by apply N.eqb_neq.
    + left. by apply N.eqb_neq.
Qed.

(** *** Texts with the same [>] *)

Lemma keeps_gt_app y1 z1 y2 z2 :
  keeps_gt y1 z1 → keeps_gt y2 z2 → keeps_gt (y1 ++ y2) (z1 ++ z2).
Proof.
  intros H1 H2. induction H1 as [|c y z _ IH|c b y z Hc Hb _ IH]; [done|..].
  - cbn [app]. by constructor.
  - cbn [app]. rewrite <-app_assoc. by constructor.
Qed.

Lemma keeps_gt_drop s : existsb is_angle s = false → keeps_gt s [].
Proof.
  induction s as [|c s IH]; [constructor|]. cbn [existsb].
  intros [Hc Hs]%orb_false_elim. apply (keeps_gt_other c [] s []); [|done|auto].
  intros ->. done.
Qed.

Lemma keeps_gt_block s b :
  existsb is_angle s = false → existsb is_angle b = false → (s = [] → b = []) →
  keeps_gt s b.
Proof.
  intros Hs Hb Hnil. destruct s as [|c s].
  - rewrite Hnil by done. constructor.
  - cbn [existsb] in Hs. apply orb_false_elim in Hs as [Hc Hs].
    rewrite <-(app_nil_r b). apply keeps_gt_other; [|done|by apply keeps_gt_drop].
    intros ->. done.
Qed.

Lemma keeps_gt_lt_block s b :
  existsb is_angle s = false → existsb is_angle b = false → keeps_gt (60%N :: s) b.
Proof.
  intros Hs Hb. rewrite <-(app_nil_r b).
  apply keeps_gt_other; [done|done|by apply keeps_gt_drop].
Qed.

Lemma keeps_gt_elem_of y z : keeps_gt y z → 62%N ∈ z → 62%N ∈ y.
Proof.
  induction 1 as [|c y z _ IH|c b y z Hc Hb _ IH]; [done|..].
  - intros [->|?]%elem_of_cons; [left|right; auto].
  - intros [Hin|?]%elem_of_app; [|right; auto].
    exfalso. apply list_elem_of_In in Hin.
    assert (existsb is_angle b = true) as Hb'; [|by rewrite Hb in Hb'].
    apply existsb_exists. by exists 62%N.
Qed.

Lemma tag_at_not_lt c s : c ≠ 60%N → tag_at (c :: s) = None.
Proof. intros Hc%N.eqb_neq. destruct s; [done|]. cbn [tag_at]. by rewrite Hc. Qed.

Lemma has_tag_app_free b s : existsb is_angle b = false → has_tag (b ++ s) = has_tag s.
Proof.
  induction b as [|c b IH]; [done|]. cbn [existsb].
  intros [Hc Hb]%orb_false_elim. cbn [app].
  rewrite has_tag_cons, tag_at_not_lt, IH by (done || by intros ->).
  rewrite bool_decide_eq_false_2; [done|]. by intros [??].
Qed.

(** Replacing characters other than [>] by texts without [<] and [>]
    creates no tag. *)
Lemma keeps_gt_no_tag y z : keeps_gt y z → has_tag y = false → has_tag z = false.
Proof.
  induction 1 as [|c y z Hyz IH|c b y z Hc Hb _ IH]; [done|..].
  - rewrite !has_tag_cons. intros [Hy Hty]%orb_false_elim.
    rewrite IH, orb_false_r by done.
    apply bool_decide_eq_false_2. intros [rest Hrest].
    apply bool_decide_eq_false_1 in Hy. apply Hy. clear Hy.
    destruct z as [|d z]; [done|]. cbn [tag_at] in Hrest.
    destruct (c =? 60)%N eqn:E; [|done]. destruct (d =? 62)%N eqn:Ed; [done|].
    cbn [negb andb] in Hrest.
    assert (62%N ∈ y) as Hin.
    { apply (keeps_gt_elem_of _ _ Hyz). right.
      destruct (after_gt z) eqn:Ha; [|done]. apply after_gt_Some in Ha as (w & -> & _).
      apply elem_of_app. right. left. }
    destruct y as [|e y]; [by apply elem_of_nil in Hin|].
    cbn [tag_at]. rewrite E. cbn [andb].
    destruct (e =? 62)%N eqn:Ee.
    + apply N.eqb_eq in Ee as ->. inversion Hyz; subst; [|done].
      by rewrite N.eqb_refl in Ed.
    + cbn [negb]. apply elem_of_cons in Hin as [<-|Hin]; [by rewrite N.eqb_refl in Ee|].
      destruct (after_gt y) eqn:Ha; [by eexists|]. by apply after_gt_None in Ha.
  - rewrite has_tag_cons. intros [_ Hty]%orb_false_elim.
    rewrite has_tag_app_free by done. auto.
Qed.

(** *** NFC keeps every [>] that no U+0338 follows *)

Lemma split_at_angle y :
  ∃ s rest, y = s ++ rest ∧ existsb is_angle s = false ∧
            (rest = [] ∨ ∃ g b, rest = g :: b ∧ is_angle g = true).
Proof.
  induction y as [|c y (s & rest & -> & Hs & Hrest)].
  - exists [], []. auto.
  - destruct (is_angle c) eqn:Hc.
    + exists [], (c :: s ++ rest). split_and!; [done..|]. right. eauto.
    + exists (c :: s), rest. split_and!; [done| |done]. cbn [existsb]. by rewrite Hc.
Qed.

Lemma decompose_angle g : is_angle g = true → decompose 4 g = [g].
Proof. by intros [->| ->]%is_angle_true. Qed.

Lemma nfd_app_angle s g b :
  is_angle g = true → nfd (s ++ g :: b) = nfd s ++ g :: nfd b.
Proof.
  intros Hg. rewrite !nfd_canonical_order, flat_map_app. cbn [flat_map].
  rewrite decompose_angle by done. cbn [app].
  apply canonical_order_app_starter. by apply combining_angle.
Qed.

Lemma bound_decomposed s :
  existsb is_angle s = false → bound (flat_map (decompose 4) s) = true.
Proof.
  induction s as [|c s IH]; [done|]. cbn [existsb flat_map].
  intros [Hc Hs]%orb_false_elim.
  destruct (decompose_cases c) as [[Hc' _]|[_ [(g & Hg & ->)|Hd]]].
  - by rewrite Hc in Hc'.
  - cbn [app]. rewrite !bound_cons. cbn [head]. rewrite bool_decide_eq_true_2 by done.
    rewrite orb_true_r. cbn [andb]. auto.
  - rewrite bound_app_free by done. auto.
Qed.

Lemma bound_nfd s : existsb is_angle s = false → bound (nfd s) = true.
Proof.
  intros Hs. rewrite nfd_canonical_order.
  apply bound_canonical_order. by apply bound_decomposed.
Qed.

(** NFC of a text without [<] and [>] has neither. *)
Lemma nfc_no_angle s : existsb is_angle s = false → existsb is_angle (nfc s) = false.
Proof.
  intros Hs. unfold nfc. pose proof (bound_nfd s Hs) as Hb.
  destruct (nfd s) as [|c u]; [done|]. cbn [compose].
  rewrite bound_cons in Hb. apply andb_prop in Hb as [Hc Hb].
  apply compose_from_no_angle; [done..|].
  destruct (is_angle c); [right|by left]. by apply bool_decide_eq_true_1 in Hc.
Qed.

(** A [<] or [>] and the text up to the next one. *)
Lemma nfc_angle_block g s :
  is_angle g = true → existsb is_angle s = false →
  (g = 62%N → overlaid (flat_map (decompose 4) s) = false) →
  keeps_gt (g :: s) (compose_from g [] 0%N (nfd s)).
Proof.
  intros Hg Hs Hover. pose proof (bound_nfd s Hs) as Hb.
  destruct (decide (head (nfd s) = Some 0x338%N)) as [Hh|Hh].
  - assert (g = 60%N) as ->.
    { apply is_angle_true in Hg as [->| ->]; [done|].
      rewrite nfd_canonical_order in Hh. apply head_canonical_order_overlaid in Hh.
      by rewrite Hover in Hh. }
    apply keeps_gt_lt_block; [done|]. apply compose_from_no_angle; [done..|]. by right.
  - destruct (compose_from_keeps_angle (nfd s) g [] 0%N) as (z & Hc & Hz); [done..|by right|].
    rewrite Hc. constructor. apply keeps_gt_block; [done..|].
    intros ->. by injection Hc.
Qed.

Lemma nfc_from_angle b : ∀ g,
  is_angle g = true → gt_overlaid (g :: b) = false →
  keeps_gt (g :: b) (compose_from g [] 0%N (nfd b)).
Proof.
  induction b as [b IH] using (induction_ltof1 _ length). unfold ltof in IH.
  intros g Hg Hover. cbn [gt_overlaid] in Hover.
  apply orb_false_elim in Hover as [Hhere Hafter].
  destruct (split_at_angle b) as (s & rest & -> & Hs & [->|(g' & b' & -> & Hg')]).
  - rewrite app_nil_r in *. apply nfc_angle_block; [done..|].
    intros ->. by rewrite N.eqb_refl in Hhere.
  - rewrite nfd_app_angle, compose_from_app_angle by done.
    change (g :: s ++ g' :: b') with ((g :: s) ++ g' :: b').
    apply keeps_gt_app.
    + apply nfc_angle_block; [done..|]. intros ->. rewrite N.eqb_refl in Hhere.
      cbn [andb] in Hhere. rewrite flat_map_app in Hhere.
      destruct (overlaid (flat_map (decompose 4) s)) eqn:Ho; [|done].
      by rewrite overlaid_app in Hhere.
    + apply IH; [|done|by apply gt_overlaid_app in Hafter].
      rewrite length_app. simpl. lia.
Qed.

(** Unless a [>] is followed by U+0338, NFC keeps every [>] and puts
    nothing between a [<] and a [>] that stand side by side. *)
Lemma nfc_keeps_gt y : gt_overlaid y = false → keeps_gt y (nfc y).
Proof.
  intros Hover.
  destruct (split_at_angle y) as (s & rest & -> & Hs & [->|(g & b & -> & Hg)]).
  - rewrite app_nil_r. apply keeps_gt_block; [done|by apply nfc_no_angle|by intros ->].
  - unfold nfc. rewrite nfd_app_angle, compose_app_angle by done.
    apply keeps_gt_app.
    + apply keeps_gt_block; [done|by apply nfc_no_angle|by intros ->].
    + apply nfc_from_angle; [done|]. by apply gt_overlaid_app in Hover.
Qed.

(** NFC creates no tag unless it composes a [>] with a U+0338. *)
Lemma nfc_no_tag y : has_tag y = false → gt_overlaid y = false → has_tag (nfc y) = false.
Proof. intros Ht Hover. apply (keeps_gt_no_tag y); [by apply nfc_keeps_gt|done]. Qed.

(** *** Texts without U+0338 *)

(** No character other than U+0338 decomposes into a text that starts
    with U+0338. *)
Lemma decompose_S n c :
  decompose (S n) c =
    match decomposition c with
    | Some cs => flat_map (decompose n) cs
    | None => [c]
    end.
Proof. done. Qed.

(** The leading consonant of a Hangul syllable is a starter without a
    decomposition. *)
Lemma hangul_lead l n :
  (l < 19)%N → decompose n (0x1100 + l) = [(0x1100 + l)%N] ∧ combining (0x1100 + l) = 0%N.
Proof.
  intros Hl. split.
  - destruct n as [|n]; [done|]. rewrite decompose_S.
    unfold decomposition, is_hangul_syllable, SBase.
    rewrite (proj2 (N.leb_gt _ _)) by lia. cbn [andb].
    rewrite (find_None_forallb (λ e, (e.1 <? 0x1100)%N || (0x1200 <? e.1)%N));
      [|by vm_compute|].
    2:{ intros e [He%N.ltb_lt|He%N.ltb_lt]%orb_prop; apply N.eqb_neq; lia. }
    rewrite (find_None_forallb (λ e, (e.1.1 <? 0x1100)%N || (0x1200 <? e.1.1)%N));
      [done|by vm_compute|].
    intros e [He%N.ltb_lt|He%N.ltb_lt]%orb_prop; apply N.eqb_neq; lia.
  - unfold combining.
    rewrite (find_None_forallb (λ e, (e.1.2 <? 0x1100)%N || (0x1200 <? e.1.1)%N));
      [done|by vm_compute|].
    intros e [He%N.ltb_lt|He%N.ltb_lt]%orb_prop; apply andb_false_iff;
      [right|left]; apply N.leb_gt; lia.
Qed.

Lemma decompose_not_overlaid c : c ≠ 0x338%N → overlaid (decompose 4 c) = false.
Proof.
  intros Hc. rewrite decompose_S. destruct (decomposition c) as [cs|] eqn:Hd.
  2:{ cbn [overlaid]. apply N.eqb_neq in Hc. rewrite Hc. by rewrite andb_false_r. }
  unfold decomposition in Hd. destruct (is_hangul_syllable c) eqn:Hh.
  - unfold is_hangul_syllable, SBase, SCount in Hh.
    apply andb_prop in Hh as [H1%N.leb_le H2%N.ltb_lt].
    assert ((c - 0xAC00) / 588 < 19)%N as Hl by (apply N.Div0.div_lt_upper_bound; lia).
    unfold hangul_decomposition, SBase, LBase, NCount in Hd.
    remember ((c - 0xAC00) / 588)%N as l eqn:El. clear El.
    destruct (hangul_lead l 3 Hl) as [Hlead Hk].
    assert ((0x1100 + l =? 0x338)%N = false) as Hne by (apply N.eqb_neq; lia).
    destruct (_ =? _)%N; injection Hd as <-; cbn [flat_map]; rewrite Hlead;
      cbn [app overlaid]; by rewrite Hne, Hk.
  - destruct (find _ singleton_decompositions) as [e|] eqn:Hf.
    + injection Hd as <-.
      apply (find_Some_forallb
               (λ e, negb (overlaid (flat_map (decompose 3) [e.2])))) in Hf
        as [He _]; [|by vm_compute].
      by apply negb_true_iff in He.
    + destruct (find _ (_ ++ _)) as [e|] eqn:Hg; [|done]. injection Hd as <-.
      apply (find_Some_forallb
               (λ e, negb (overlaid (flat_map (decompose 3) [e.1.2; e.2])))) in Hg
        as [He _]; [|by vm_compute].
      by apply negb_true_iff in He.
Qed.

Lemma overlaid_app_inv u v : overlaid u = false → overlaid (u ++ v) = true → overlaid v = true.
Proof.
  induction u as [|c u IH]; [done|]. cbn [overlaid app].
  destruct (c =? 0x338)%N; [done|]. cbn [orb].
  destruct (1 <? combining c)%N; [|done]. cbn [andb]. auto.
Qed.

Lemma no_overlay_not_overlaid s :
  0x338%N ∉ s → overlaid (flat_map (decompose 4) s) = false.
Proof.
  induction s as [|c s IH]; [done|]. intros [Hc Hs]%not_elem_of_cons.
  cbn [flat_map]. apply not_true_is_false. intros H.
  apply overlaid_app_inv in H; [|by apply decompose_not_overlaid].
  by rewrite IH in H.
Qed.

(** In a text without U+0338 no [>] is followed by one. *)
Lemma no_overlay_no_gt_overlaid s : 0x338%N ∉ s → gt_overlaid s = false.
Proof.
  induction s as [|c s IH]; [done|]. intros [Hc Hs]%not_elem_of_cons.
  cbn [gt_overlaid]. by rewrite no_overlay_not_overlaid, IH, andb_false_r.
Qed.

End Angles.

(** ** The element patterns *)

(** A pattern that cannot match the empty text leaves less text than it
    was given; the four patterns of [_clean_text] are such patterns, so
    [re.sub] never meets an empty match with them. *)
Lemma re_match_consumes r s g rest :
  nonempty r = true → re_match r s = Some (g, rest) → length rest < length s.
Proof.
  intros Hr Hm. apply re_match_sound in Hm as (u & -> & Hu).
  apply (nonempty_lang _ _ Hr) in Hu. rewrite length_app.
  destruct u; [done|simpl; lia].
Qed.

Lemma patterns_nonempty :
  Forall (λ r, nonempty r = true) [bold_re; italic_re; underline_re; tag_re].
Proof. repeat constructor. Qed.

Lemma lang_cat_inv r1 r2 u :
  lang (Cat r1 r2) u → ∃ u1 u2, u = u1 ++ u2 ∧ lang r1 u1 ∧ lang r2 u2.
Proof. inversion 1; subst. eauto. Qed.

Lemma lang_chr_inv p u : lang (Chr p) u → ∃ c, u = [c] ∧ p c = true.
Proof. inversion 1; subst. eauto. Qed.

(** A match of an element pattern starts with a tag: what stands between
    its [<] and its first [>] is the name and the blanks around it. *)
Lemma element_starts_with_tag name s m :
  avoids 62 name = true → nonempty name = true →
  re_match (element name) s = Some m → is_Some (tag_at s).
Proof.
  intros Hav Hne Hm. destruct m as [g rest].
  apply re_match_sound in Hm as (u0 & -> & Hu). unfold element in Hu.
  apply lang_cat_inv in Hu as (u1 & t1 & -> & H1 & Hu).
  apply lang_cat_inv in Hu as (u2 & t2 & -> & H2 & Hu).
  apply lang_cat_inv in Hu as (u3 & t3 & -> & H3 & Hu).
  apply lang_cat_inv in Hu as (u4 & t4 & -> & H4 & Hu).
  apply lang_cat_inv in Hu as (u5 & u & -> & H5 & _).
  apply lang_chr_inv in H1 as (c & -> & Hc). apply N.eqb_eq in Hc as <-.
  apply lang_chr_inv in H5 as (d & -> & Hd). apply N.eqb_eq in Hd as <-.
  assert (avoids 62 ws = true) as Hws by (by vm_compute).
  pose proof (avoids_lang _ _ _ Hws H2) as Hn2.
  pose proof (avoids_lang _ _ _ Hav H3) as Hn3.
  pose proof (avoids_lang _ _ _ Hws H4) as Hn4.
  pose proof (nonempty_lang _ _ Hne H3) as Hne3.
  change (N_of_ascii "<") with 60%N. change (N_of_ascii ">") with 62%N.
  assert (∃ e w, u2 ++ u3 ++ u4 = e :: w ∧ e ≠ 62%N ∧ 62%N ∉ w) as (e & w & Hw & He & Hnw).
  { assert (62%N ∉ u2 ++ u3 ++ u4) as Hn
      by (rewrite !not_elem_of_app; done).
    destruct (u2 ++ u3 ++ u4) as [|e w] eqn:Hw.
    - apply app_eq_nil in Hw as [_ [? _]%app_eq_nil]. done.
    - apply not_elem_of_cons in Hn as [??]. eauto. }
  replace (([60%N] ++ u2 ++ u3 ++ u4 ++ [62%N] ++ u) ++ rest)
    with (60%N :: e :: w ++ 62%N :: (u ++ rest)).
  2:{ change (60%N :: e :: w ++ 62%N :: (u ++ rest))
        with ([60%N] ++ (e :: w) ++ [62%N] ++ u ++ rest).
      rewrite <-Hw. by rewrite <-!(assoc_L (++)). }
  cbn [tag_at]. rewrite N.eqb_refl. apply N.eqb_neq in He. rewrite He. simpl.
  exists (u ++ rest). apply after_gt_Some. eauto.
Qed.

(** A text without tags has no element either. *)
Lemma no_tag_no_element name s :
  avoids 62 name = true → nonempty name = true →
  has_tag s = false → re_search (element name) s = false.
Proof.
  intros Hav Hne. induction s as [|c s IH].
  - intros _. cbn [re_search].
    destruct (re_match (element name) []) as [m|] eqn:Hm; [|done].
    by apply element_starts_with_tag in Hm as [??].
  - rewrite has_tag_cons. intros [Hc Hs]%orb_false_elim. cbn [re_search].
    destruct (re_match (element name) (c :: s)) as [m|] eqn:Hm; [|auto].
    apply element_starts_with_tag in Hm; [|done..].
    by apply bool_decide_eq_false_1 in Hc.
Qed.

(** On a text without tags the four substitutions change nothing. *)
Lemma convert_tags_no_tag_id x : has_tag x = false → convert_tags x = x.
Proof.
  intros Hx. unfold convert_tags, bold_re, italic_re, underline_re.
  rewrite (re_sub_no_match (element _) _ x) by (by apply no_tag_no_element).
  rewrite (re_sub_no_match (element _) _ x) by (by apply no_tag_no_element).
  rewrite (re_sub_no_match (element _) _ x) by (by apply no_tag_no_element).
  by apply re_sub_no_match.
Qed.

(** After steps 1 to 4 no tag is left, whatever the first three did. *)
Lemma convert_tags_no_tag x : has_tag (convert_tags x) = false.
Proof. unfold convert_tags. apply strip_no_tag. Qed.

Lemma filter_keeps_id x : forallb keeps x = true → List.filter keeps x = x.
Proof.
  induction x as [|c x IH]; [done|]. simpl.
  intros [-> ?]%andb_prop. by rewrite IH.
Qed.

(** A text without tags, in NFC, made of characters that are kept, is
    its own cleaned form. *)
Lemma clean_text_fixed x :
  has_tag x = false → nfc x = x → forallb keeps x = true → _clean_text x = x.
Proof.
  intros Ht Hn Hk. unfold _clean_text.
  rewrite convert_tags_no_tag_id by done. rewrite Hn. by apply filter_keeps_id.
Qed.

(** C7: on a text that contains no tag, is NFC-normalized and consists
    of printable characters, tabs, newlines and carriage returns,
    [_clean_text] is idempotent: cleaning the cleaned text gives the
    cleaned text (which is the text itself). *)
Theorem clean_text_idempotent x :
  has_tag x = false → nfc x = x → forallb keeps x = true →
  _clean_text (_clean_text x) = _clean_text x.
Proof.
  intros Ht Hn Hk. rewrite (clean_text_fixed x) by done.
  by apply clean_text_fixed.
Qed.

Lemma clean_text_idempotent_witness :
  let x := py "r" ++ [0xE9; 0x9]%N ++ py "sum > 2 <" ++ [0xA]%N in
  _clean_text (_clean_text x) = _clean_text x.
Proof.
  intros x. apply clean_text_idempotent; by vm_compute.
Defined.

(** C3, as the code has it: for every input, the text that steps 1 to
    4 produce contains no substring [<[^>]+>]; the output of [_clean_text]
    contains none either, unless in that text a [>] is followed by U+0338
    (combining long solidus overlay), directly or after combining
    characters of higher classes: NFC composes such a [>] with the U+0338
    into U+226F, and a [<] before it can then start a tag.  In particular
    the output contains none when that text holds no U+0338 at all.  (NFC
    may change the text otherwise, and dropping the characters that are
    not kept creates no tag.) *)
Theorem clean_text_no_tag x :
  has_tag (convert_tags x) = false ∧
  (gt_overlaid (convert_tags x) = false → has_tag (_clean_text x) = false) ∧
  (0x338%N ∉ convert_tags x → has_tag (_clean_text x) = false).
Proof.
  assert (gt_overlaid (convert_tags x) = false → has_tag (_clean_text x) = false) as H.
  { intros Hover. unfold _clean_text.
    apply filter_no_tag; [by vm_compute..|].
    apply nfc_no_tag; [apply convert_tags_no_tag|done]. }
  split_and!; [apply convert_tags_no_tag|done|].
  intros Hx. by apply H, no_overlay_no_gt_overlaid.
Qed.

Lemma clean_text_no_tag_witness :
  let x := py "a <<b>> c <> <div>e" ++ [0x301%N] ++ py "</div> > =" ++ [0x338; 60]%N in
  gt_overlaid (convert_tags x) = false ∧
  bool_decide (nfc (convert_tags x) = convert_tags x) = false ∧
  has_tag (_clean_text x) = false.
Proof.
  intros x. split; [by vm_compute|]. split; [by vm_compute|].
  apply (proj1 (proj2 (clean_text_no_tag x))). by vm_compute.
Defined.

(** C3, as stated, fails: [<>] followed by U+0338 (combining long solidus
    overlay), [x] and [>] has no tag for steps 1 to 4 to remove; NFC then
    composes [>] with U+0338 into U+226F, and the output [<], U+226F, [x],
    [>] is a [<], two characters other than [>], and a [>]. *)
Lemma clean_text_no_tag_counterexample :
  _clean_text [0x3C; 0x3E; 0x338; 0x78; 0x3E]%N = [0x3C; 0x226F; 0x78; 0x3E]%N ∧
  has_tag (_clean_text [0x3C; 0x3E; 0x338; 0x78; 0x3E]%N) = true.
Proof. by vm_compute. Qed.

(** C9: [_clean_text] turns [<b>hi</b> <i>there</i> <u>x</u>] into
    [**hi** *there* _x_]; the tag names are matched without regard to case
    and may be [strong] and [em]; the content of an element ends at the
    first closing tag. *)
Theorem clean_text_tag_conversion :
  _clean_text (py "<b>hi</b> <i>there</i> <u>x</u>") = py "**hi** *there* _x_" ∧
  _clean_text (py "<STRONG>hi</Strong> <Em>there</EM> <U>x</u>") = py "**hi** *there* _x_" ∧
  _clean_text (py "<b>one</b> and <b>two</b>") = py "**one** and **two**".
Proof. by vm_compute. Qed.

(** ** Simple elements, for any content *)

(** The lazy star passes over a text on which the continuation fails. *)
Lemma lazy_star_skip {A} p (k : list N → option A) u s :
  (∀ v w, u = v ++ w → w ≠ [] → k (w ++ s) = None) →
  forallb p u = true →
  lazy_star p k (u ++ s) = lazy_star p k s.
Proof.
  induction u as [|c u IH]; intros Hk Hp; [done|].
  simpl in Hp. apply andb_prop in Hp as [Hc Hp].
  pose proof (Hk [] (c :: u) eq_refl ltac:(done)) as H0. simpl in H0.
  cbn [app lazy_star]. rewrite H0, Hc.
  apply IH; [|done]. intros v w -> Hw. by apply (Hk (c :: v) w).
Qed.

(** The lazy star stops as soon as the continuation accepts. *)
Lemma lazy_star_now {A} p (k : list N → option A) s a :
  k s = Some a → lazy_star p k s = Some a.
Proof. intros Hk. destruct s; simpl; by rewrite Hk. Qed.

(** A literal does not match another character. *)
Lemma chr_fails {A} a c s g (k : list N → option (list N) → option A) :
  c ≠ N_of_ascii a → run (chr a) (c :: s) g k = None.
Proof. intros Hc. cbn. by rewrite (proj2 (N.eqb_neq _ _)). Qed.

(** No element starts at a character other than [<]. *)
Lemma element_needs_lt name c s : c ≠ 60%N → re_match (element name) (c :: s) = None.
Proof. intros Hc. unfold re_match, element. cbn [run]. by apply chr_fails. Qed.

(** Searching for an element passes over a text without [<]. *)
Lemma search_skip name u s :
  60%N ∉ u → re_search (element name) (u ++ s) = re_search (element name) s.
Proof.
  induction u as [|c u IH]; [done|]. intros [Hc Hu]%not_elem_of_cons.
  cbn [app re_search]. rewrite element_needs_lt by done. auto.
Qed.

(** The content of an element [<o>...</c>] whose content has no [<] and
    no newline is captured whole. *)
Ltac element_match H60 H10 :=
  unfold re_match, element;
  match goal with
  | |- run (?lt ⋅ ?w1 ⋅ ?nm ⋅ ?w2 ⋅ ?gt ⋅ ?grp ⋅ ?closing)%re (?o ++ ?content ++ ?c ++ ?rest) None ?k0 = _ =>
      let cl := fresh "closing" in
      set (cl := closing);
      assert (∀ s, run (lt ⋅ w1 ⋅ nm ⋅ w2 ⋅ gt ⋅ grp ⋅ cl)%re (o ++ s) None k0
                   = run (grp ⋅ cl)%re s None k0) as ->
        by (intros s; cbn -[cl]; by destruct (lazy_star _ _ _));
      cbn [run];
      rewrite lazy_star_skip;
      [ apply lazy_star_now;
        rewrite length_app, Nat.add_sub, take_app_length; by cbn
      | intros v [|d w] -> Hw; [done|]; cbn [app]; apply chr_fails;
        intros ->; apply H60, elem_of_app; right; left
      | apply forallb_forall; intros d Hd%list_elem_of_In; unfold dot;
        apply negb_true_iff, N.eqb_neq; by intros -> ]
  end.

(** The three elements of the example, for any content. *)
Lemma bold_match content rest :
  60%N ∉ content → 10%N ∉ content →
  re_match bold_re (py "<b>" ++ content ++ py "</b>" ++ rest) = Some (Some content, rest).
Proof. intros H60 H10. unfold bold_re. element_match H60 H10. Qed.

Lemma italic_match content rest :
  60%N ∉ content → 10%N ∉ content →
  re_match italic_re (py "<i>" ++ content ++ py "</i>" ++ rest) = Some (Some content, rest).
Proof. intros H60 H10. unfold italic_re. element_match H60 H10. Qed.

Lemma underline_match content rest :
  60%N ∉ content → 10%N ∉ content →
  re_match underline_re (py "<u>" ++ content ++ py "</u>" ++ rest) = Some (Some content, rest).
Proof. intros H60 H10. unfold underline_re. element_match H60 H10. Qed.

(** A text without [<] has no tag. *)
Lemma no_lt_no_tag s : 60%N ∉ s → has_tag s = false.
Proof.
  induction s as [|c s IH]; [done|]. intros [Hc Hs]%not_elem_of_cons.
  rewrite has_tag_cons, IH, orb_false_r by done.
  apply bool_decide_eq_false_2. intros [rest Hrest].
  destruct s as [|d s]; [done|]. simpl in Hrest.
  by rewrite (proj2 (N.eqb_neq c 60)) in Hrest.
Qed.

(** [re.sub] on a text that is one element. *)
Lemma re_sub_whole r tpl s g :
  s ≠ [] → re_match r s = Some (g, []) → re_match r [] = None →
  re_sub r tpl s = expand tpl g.
Proof.
  intros Hs Hm Hnil. destruct s as [|c s]; [done|].
  rewrite re_sub_cons, Hm. rewrite bool_decide_eq_false_2 by done.
  unfold re_sub. cbn [sub_from]. rewrite Hnil. by rewrite app_nil_r.
Qed.

(** On a text without tags an element pattern changes nothing. *)
Lemma re_sub_element_id name tpl s :
  avoids 62 name = true → nonempty name = true →
  has_tag s = false → re_sub (element name) tpl s = s.
Proof. intros. by apply re_sub_no_match, no_tag_no_element. Qed.

(** An element pattern leaves alone an element that it does not match. *)
Lemma re_sub_other_element name tpl o content c :
  60%N ∉ o → 60%N ∉ content → 60%N ∉ c →
  re_match (element name) (60%N :: o ++ content ++ 60%N :: c) = None →
  re_match (element name) (60%N :: c) = None →
  re_sub (element name) tpl (60%N :: o ++ content ++ 60%N :: c)
  = 60%N :: o ++ content ++ 60%N :: c.
Proof.
  intros Ho Hcontent Hc H1 H2. apply re_sub_no_match.
  cbn [re_search]. rewrite H1.
  rewrite search_skip by done. rewrite search_skip by done.
  cbn [re_search]. rewrite H2. rewrite <-(app_nil_r c). rewrite search_skip by done.
  cbn [re_search]. destruct (re_match (element name) []) as [[g rest]|] eqn:Hm; [|done].
  apply re_match_consumes in Hm; [simpl in Hm; lia|done].
Qed.

(** [<] is not among a few given characters. *)
Ltac no_lt :=
  simpl; repeat (apply not_elem_of_cons; split; [done|]); apply not_elem_of_nil.

(** Steps 1 to 4 on a single [<b>], [<i>] or [<u>] element: whatever the
    content, as long as it has no [<] and no newline (which [.] does not
    match), the element becomes the content between the markdown marks. *)
Theorem convert_tags_simple_element content :
  60%N ∉ content → 10%N ∉ content →
  convert_tags (py "<b>" ++ content ++ py "</b>") = py "**" ++ content ++ py "**" ∧
  convert_tags (py "<i>" ++ content ++ py "</i>") = py "*" ++ content ++ py "*" ∧
  convert_tags (py "<u>" ++ content ++ py "</u>") = py "_" ++ content ++ py "_".
Proof.
  intros H60 H10.
  assert (∀ l r : list N, 60%N ∉ l → 60%N ∉ r → has_tag (l ++ content ++ r) = false) as Hno.
  { intros l r Hl Hr. apply no_lt_no_tag. rewrite !not_elem_of_app. done. }
  split_and!; unfold convert_tags.
  - rewrite (re_sub_whole bold_re _ _ (Some content)); [| done | |done].
    2:{ rewrite <-(app_nil_r (py "</b>")). by apply bold_match. }
    cbn [expand flat_map default from_option id]. rewrite app_nil_r.
    unfold italic_re, underline_re.
    rewrite 2!(re_sub_element_id _ _ (py "**" ++ content ++ py "**"))
      by (done || (apply Hno; no_lt)).
    apply re_sub_no_match. apply Hno; no_lt.
  - unfold bold_re.
    rewrite (re_sub_other_element _ _ (py "i>") content (py "/i>")) by (done || no_lt).
    change (60%N :: py "i>" ++ content ++ 60%N :: py "/i>")
      with (py "<i>" ++ content ++ py "</i>").
    rewrite (re_sub_whole italic_re _ _ (Some content)); [| done | |done].
    2:{ rewrite <-(app_nil_r (py "</i>")). by apply italic_match. }
    cbn [expand flat_map default from_option id]. rewrite app_nil_r.
    unfold underline_re.
    rewrite (re_sub_element_id _ _ (py "*" ++ content ++ py "*"))
      by (done || (apply Hno; no_lt)).
    apply re_sub_no_match. apply Hno; no_lt.
  - unfold bold_re, italic_re.
    rewrite 2!(re_sub_other_element _ _ (py "u>") content (py "/u>")) by (done || no_lt).
    change (60%N :: py "u>" ++ content ++ 60%N :: py "/u>")
      with (py "<u>" ++ content ++ py "</u>").
    rewrite (re_sub_whole underline_re _ _ (Some content)); [| done | |done].
    2:{ rewrite <-(app_nil_r (py "</u>")). by apply underline_match. }
    cbn [expand flat_map default from_option id]. rewrite app_nil_r.
    apply re_sub_no_match. apply Hno; no_lt.
Qed.

(** ** The run sampler *)

Section SamplerFacts.
Import TaskData.
Implicit Types (rows rs run : list row) (r : row) (num : str).

Lemma bind_Ret {A B} (a : A) (f : A → outcome B) : Ret a ≫= f = f a.
Proof. done. Qed.

Lemma item_lookup {A} (l : list A) n x : l !! n = Some x → item l n = Ret x.
Proof. unfold item. by intros ->. Qed.

Lemma az_of_lookup rows i r :
  rows !! i = Some r → az_of rows i = Ret (default [] (key r)).
Proof.
  intros Hi. unfold az_of. rewrite (item_lookup _ _ _ Hi), bind_Ret. unfold key.
  destruct (51 <? length r) eqn:Hlen.
  - apply Nat.ltb_lt, lookup_lt_is_Some in Hlen as [v Hv].
    by rewrite (item_lookup _ _ _ Hv), Hv.
  - apply Nat.ltb_ge, lookup_ge_None in Hlen. by rewrite Hlen.
Qed.

Lemma in_run_spec rows num j :
  in_run rows num j = Ret (bool_decide (rows !! j ≫= key = Some num)).
Proof.
  unfold in_run. destruct (j <? length rows) eqn:Hj.
  - apply Nat.ltb_lt, lookup_lt_is_Some in Hj as [r Hr].
    rewrite (item_lookup _ _ _ Hr), Hr, bind_Ret. cbn [mbind option_bind]. unfold key.
    destruct (51 <? length r) eqn:Hlen.
    + apply Nat.ltb_lt, lookup_lt_is_Some in Hlen as [v Hv].
      rewrite (item_lookup _ _ _ Hv), Hv, bind_Ret. f_equal.
      apply bool_decide_ext. naive_solver.
    + apply Nat.ltb_ge, lookup_ge_None in Hlen. rewrite Hlen.
      by rewrite bool_decide_eq_false_2.
  - apply Nat.ltb_ge, lookup_ge_None in Hj. rewrite Hj. cbn [mbind option_bind].
    by rewrite bool_decide_eq_false_2.
Qed.

Lemma run_length_le num rs : run_length num rs ≤ length rs.
Proof.
  induction rs as [|r rs IH]; simpl; [done|]. case_bool_decide; lia.
Qed.

(** The inner loop stops at the end of the rows that carry [num]. *)
Lemma while_in_run rows num fuel i :
  run_length num (drop i rows) < fuel →
  while fuel (in_run rows num) (λ j, Ret (j + 1)) i
  = Ret (i + run_length num (drop i rows)).
Proof.
  revert i. induction fuel as [|fuel IH]; intros i Hfuel; [lia|].
  cbn [while]. rewrite in_run_spec. cbn.
  destruct (rows !! i) as [r|] eqn:Hi.
  - rewrite (drop_S _ _ _ Hi) in *. cbn in *.
    case_bool_decide; [|by rewrite Nat.add_0_r].
    rewrite IH by (rewrite Nat.add_1_r; lia).
    rewrite Nat.add_1_r. f_equal. lia.
  - rewrite drop_ge by (by apply lookup_ge_None). cbn.
    rewrite bool_decide_eq_false_2 by done. by rewrite Nat.add_0_r.
Qed.

Lemma run_end_spec rows num i :
  run_end rows num i = Ret (i + run_length num (drop i rows)).
Proof.
  apply while_in_run.
  pose proof (run_length_le num (drop i rows)). rewrite length_drop in *. lia.
Qed.

(** A run followed by a row of another key is counted whole. *)
Lemma run_length_run num run rs :
  Forall (λ r, key r = Some num) run →
  head rs ≫= key ≠ Some num →
  run_length num (run ++ rs) = length run.
Proof.
  intros Hrun Hrs. induction Hrun as [|r run Hr _ IH]; simpl.
  - destruct rs as [|r rs]; [done|]. simpl in *. by rewrite bool_decide_eq_false_2.
  - by rewrite bool_decide_eq_true_2, IH.
Qed.

(** One turn of the outer loop at a row without an all-digit key. *)
Lemma step_drop rows i keep r :
  rows !! i = Some r →
  str_isdigit (default [] (key r)) = false →
  step rows (i, keep) = Ret (i + 1, keep).
Proof.
  intros Hi Hr. unfold step.
  by rewrite (az_of_lookup _ _ _ Hi), bind_Ret, Hr.
Qed.

(** One turn of the outer loop at the first row of a run. *)
Lemma step_run rows i keep num run rs :
  drop i rows = run ++ rs →
  str_isdigit num = true →
  run ≠ [] →
  Forall (λ r, key r = Some num) run →
  head rs ≫= key ≠ Some num →
  step rows (i, keep) = Ret (i + length run, keep ++ kept_of_run run).
Proof.
  intros Hdrop Hnum Hne Hrun Hrs.
  destruct run as [|r run]; [done|].
  assert (rows !! i = Some r) as Hi.
  { rewrite <-(Nat.add_0_r i), <-lookup_drop, Hdrop. done. }
  unfold step. rewrite (az_of_lookup _ _ _ Hi), bind_Ret.
  rewrite (Forall_inv Hrun). cbn [default from_option id]. rewrite Hnum.
  rewrite run_end_spec, Hdrop, run_length_run, bind_Ret by done.
  replace (i + length (r :: run) - i) with (length (r :: run)) by lia.
  destruct (5 <=? length (r :: run)) eqn:H5.
  - apply Nat.leb_le in H5.
    rewrite (item_lookup _ _ _ Hi), bind_Ret.
    rewrite (proj2 (Nat.ltb_lt (i + 3) _)) by lia.
    destruct run as [|r1 [|r2 [|r3 [|r4 run]]]]; simpl in H5; try lia.
    assert (rows !! (i + 3) = Some r3) as Hi3.
    { rewrite <-lookup_drop, Hdrop. done. }
    rewrite (item_lookup _ _ _ Hi3), !bind_Ret.
    do 2 f_equal. by rewrite <-!(assoc_L (++)).
  - apply Nat.leb_gt in H5. rewrite !bind_Ret. do 2 f_equal.
    destruct run as [|r1 [|r2 [|r3 [|r4 run]]]]; simpl in H5; try lia;
      by rewrite app_nil_r.
Qed.

(** The loop of [run_sampler], from row [i] on, adds to [keep] what
    [sampled] says is kept of the rows from [i] on. *)
Lemma while_step rows rs out :
  sampled rs out →
  ∀ i keep fuel,
    drop i rows = rs → i ≤ length rows → length rs < fuel →
    while fuel (λ st, Ret (st.1 <? length rows)) (step rows) (i, keep)
    = Ret (length rows, keep ++ out).
Proof.
  induction 1 as [|r rs out Hr _ IH|num run rs out Hnum Hne Hrun Hrs _ IH];
    intros i keep [|fuel] Hdrop Hle Hfuel; try lia; cbn [while];
    rewrite bind_Ret; cbn [fst].
  - assert (i = length rows) as ->.
    { apply (f_equal length) in Hdrop. rewrite length_drop in Hdrop. simpl in *. lia. }
    rewrite Nat.ltb_irrefl. by rewrite app_nil_r.
  - assert (rows !! i = Some r) as Hi.
    { rewrite <-(Nat.add_0_r i), <-lookup_drop, Hdrop. done. }
    pose proof (lookup_lt_Some _ _ _ Hi) as Hlt.
    rewrite (proj2 (Nat.ltb_lt _ _) Hlt).
    rewrite (step_drop _ _ _ _ Hi Hr), bind_Ret.
    apply IH; [|lia|simpl in *; lia].
    by rewrite <-drop_drop, Hdrop.
  - assert (length rows = i + length (run ++ rs)) as Hlen.
    { rewrite <-Hdrop, length_drop. lia. }
    rewrite length_app in Hlen, Hfuel.
    assert (0 < length run) by (destruct run; [done|simpl; lia]).
    rewrite (proj2 (Nat.ltb_lt i _)) by lia.
    rewrite (step_run _ _ _ _ _ _ Hdrop Hnum Hne Hrun Hrs), bind_Ret.
    rewrite IH; [by rewrite <-(assoc_L (++))| |lia|lia].
    rewrite <-drop_drop, Hdrop. by rewrite drop_app_length.
Qed.

Lemma run_sampler_sampled rows out : sampled rows out → run_sampler rows = Ret out.
Proof.
  intros H. unfold run_sampler.
  rewrite (while_step rows rows out H 0 [] (S (length rows))) by (done || lia).
  by rewrite bind_Ret.
Qed.

(** Every list of rows splits into dropped rows and runs. *)
Lemma sampled_total rs : ∃ out, sampled rs out.
Proof.
  induction rs as [rs IH] using (induction_ltof1 _ length). unfold ltof in IH.
  destruct rs as [|r rs]; [exists []; constructor|].
  destruct (str_isdigit (default [] (key r))) eqn:Hd.
  - destruct (key r) as [num|] eqn:Hk; [|done]. cbn in Hd.
    set (n := run_length num (r :: rs)).
    assert (0 < n ≤ length (r :: rs)) as Hn.
    { split; [|apply run_length_le]. unfold n. simpl.
      rewrite bool_decide_eq_true_2 by done. lia. }
    destruct (IH (drop n (r :: rs))) as [out Hout].
    { rewrite length_drop. lia. }
    exists (kept_of_run (take n (r :: rs)) ++ out).
    rewrite <-(take_drop n (r :: rs)) at 1.
    apply sampled_run with num; [done| | | |done].
    + destruct n; [lia|done].
    + unfold n. generalize (r :: rs). clear. intros l.
      induction l as [|r l IH]; simpl; [constructor|].
      case_bool_decide; simpl; constructor; auto.
    + unfold n. generalize (r :: rs). clear. intros l.
      induction l as [|r l IH]; simpl; [done|].
      case_bool_decide; simpl; [done|]. done.
  - destruct (IH rs) as [out Hout]; [simpl; lia|].
    exists out. by constructor.
Qed.

Lemma run_sampler_total rows : ∃ out, run_sampler rows = Ret out ∧ sampled rows out.
Proof.
  destruct (sampled_total rows) as [out H].
  exists out. split; [by apply run_sampler_sampled|done].
Qed.

Lemma kept_of_run_sublist run : kept_of_run run `sublist_of` run.
Proof.
  destruct run as [|r0 [|r1 [|r2 [|r3 [|r4 run]]]]]; simpl;
    try apply sublist_nil_l.
  apply sublist_skip. do 2 apply sublist_cons. apply sublist_skip.
  apply sublist_nil_l.
Qed.

(** What is kept is a sublist of the rows: same order, no row twice. *)
Lemma sampled_sublist rs out : sampled rs out → out `sublist_of` rs.
Proof.
  induction 1 as [|r rs out _ _ IH|num run rs out _ _ _ _ _ IH].
  - done.
  - by apply sublist_cons.
  - apply sublist_app; [apply kept_of_run_sublist|done].
Qed.

(** A maximal run in the middle of the rows is sampled on its own. *)
Lemma sampled_app_run pre kp num run post kq :
  sampled pre kp → sampled post kq →
  str_isdigit num = true → run ≠ [] →
  Forall (λ r, key r = Some num) run →
  last pre ≫= key ≠ Some num → head post ≫= key ≠ Some num →
  sampled (pre ++ run ++ post) (kp ++ kept_of_run run ++ kq).
Proof.
  intros Hpre Hpost Hnum Hne Hrun Hlast Hhead.
  induction Hpre as [|r rs out Hr _ IH|num' run' rs out Hnum' Hne' Hrun' Hrs' _ IH].
  - simpl. by apply sampled_run with num.
  - simpl. apply sampled_drop; [done|]. apply IH.
    destruct rs as [|r' rs]; [done|]. by rewrite last_cons_cons in Hlast.
  - rewrite <-!(assoc_L (++)). apply sampled_run with num'; [done..| |].
    + destruct rs as [|r' rs]; [|done]. simpl.
      destruct run as [|r run]; [done|]. simpl.
      rewrite (Forall_inv Hrun). intros [= ->].
      rewrite app_nil_r in Hlast.
      destruct (last run') as [r'|] eqn:Hl.
      * apply last_Some_elem_of in Hl. simpl in Hlast.
        rewrite Forall_forall in Hrun'. by rewrite (Hrun' _ Hl) in Hlast.
      * by apply last_None in Hl.
    + apply IH. destruct rs as [|r' rs]; [done|].
      by rewrite last_app_cons in Hlast.
Qed.

(** A row without an all-digit key separates what stands before it from
    what stands after it. *)
Lemma sampled_app_drop pre kp r post kq :
  sampled pre kp → sampled post kq →
  str_isdigit (default [] (key r)) = false →
  sampled (pre ++ r :: post) (kp ++ kq).
Proof.
  intros Hpre Hpost Hr.
  induction Hpre as [|r' rs out Hr' _ IH|num' run' rs out Hnum' Hne' Hrun' Hrs' _ IH].
  - simpl. by apply sampled_drop.
  - simpl. by apply sampled_drop.
  - rewrite <-!(assoc_L (++)). apply sampled_run with num'; [done..| |done].
    destruct rs as [|r' rs]; [|done]. simpl.
    intros Hk. rewrite Hk in Hr. simpl in Hr. congruence.
Qed.

(** The key of a row is not an all-digit text exactly when the row is
    too short, or its key is empty, or its key has a character that is
    not a digit. *)
Lemma not_isdigit_iff r :
  str_isdigit (default [] (key r)) = false ↔
  key r = None ∨ key r = Some [] ∨
  ∃ k c, key r = Some k ∧ c ∈ k ∧ Unicode.isdigit c = false.
Proof.
  unfold str_isdigit. destruct (key r) as [k|]; simpl.
  - split.
    + intros [Hn|Hf]%andb_false_iff.
      * apply negb_false_iff, bool_decide_eq_true in Hn as ->. auto.
      * right. right. apply not_true_iff_false in Hf.
        rewrite forallb_forall in Hf.
        destruct (decide (Exists (λ c, Unicode.isdigit c = false) k)) as [He|He].
        { apply Exists_exists in He as (c & Hc & Hd). by exists k, c. }
        exfalso. apply Hf. intros c Hc%list_elem_of_In.
        destruct (Unicode.isdigit c) eqn:Hd; [done|].
        exfalso. apply He, Exists_exists. eauto.
    + intros [?|[[= ->]|(k' & c & [= <-] & Hc & Hd)]]; [done..|].
      apply andb_false_iff. right. apply not_true_iff_false.
      rewrite forallb_forall. intros Hall.
      apply list_elem_of_In in Hc. by rewrite (Hall _ Hc) in Hd.
  - split; auto.
Qed.
End SamplerFacts.

Lemma kept_of_run_short (run : list row) : length run < 5 → kept_of_run run = [].
Proof.
  intros H. by destruct run as [|r0 [|r1 [|r2 [|r3 [|r4 run]]]]]; simpl in H; try lia.
Qed.

Lemma kept_of_run_long (run : list row) :
  5 ≤ length run →
  ∃ r0 r3, run !! 0 = Some r0 ∧ run !! 3 = Some r3 ∧ kept_of_run run = [r0; r3].
Proof.
  intros H. destruct run as [|r0 [|r1 [|r2 [|r3 [|r4 run]]]]]; simpl in H; try lia.
  by exists r0, r3.
Qed.

(** C1: wherever a maximal run stands (rows that all carry the same
    all-digit key [num], the row before them and the row after them
    carrying another key or none), the sampler returns what it keeps of
    the rows before the run, then the run's 1st and 4th rows when the run
    has at least 5 rows and nothing of it when it has fewer (so nothing of
    a run of 4), then what it keeps of the rows after the run. *)
Theorem run_sampler_runs (pre run post : list row) (num : str) :
  TaskData.str_isdigit num = true →
  run ≠ [] →
  Forall (λ r, key r = Some num) run →
  last pre ≫= key ≠ Some num →
  head post ≫= key ≠ Some num →
  ∃ kp kq,
    TaskData.run_sampler pre = Ret kp ∧
    TaskData.run_sampler post = Ret kq ∧
    TaskData.run_sampler (pre ++ run ++ post) = Ret (kp ++ kept_of_run run ++ kq) ∧
    (length run < 5 → kept_of_run run = []) ∧
    (5 ≤ length run →
     ∃ r0 r3, run !! 0 = Some r0 ∧ run !! 3 = Some r3 ∧ kept_of_run run = [r0; r3]).
Proof.
  intros Hnum Hne Hrun Hlast Hhead.
  destruct (run_sampler_total pre) as (kp & Hkp & Hpre).
  destruct (run_sampler_total post) as (kq & Hkq & Hpost).
  exists kp, kq. split_and!; [done|done| |apply kept_of_run_short|apply kept_of_run_long].
  apply run_sampler_sampled. by apply sampled_app_run with num.
Qed.

Lemma run_sampler_runs_witness :
  let pre := [keyed "p" (py "abc")] in
  let run := map (λ l, keyed l (py "12")) ["a"; "b"; "c"; "d"; "e"] in
  let post := [keyed "q" (py "7")] in
  ∃ kp kq,
    TaskData.run_sampler pre = Ret kp ∧
    TaskData.run_sampler post = Ret kq ∧
    TaskData.run_sampler (pre ++ run ++ post) = Ret (kp ++ kept_of_run run ++ kq) ∧
    (length run < 5 → kept_of_run run = []) ∧
    (5 ≤ length run →
     ∃ r0 r3, run !! 0 = Some r0 ∧ run !! 3 = Some r3 ∧ kept_of_run run = [r0; r3]).
Proof.
  intros pre run post.
  apply (run_sampler_runs pre run post (py "12")).
  - by vm_compute.
  - done.
  - repeat constructor.
  - by vm_compute.
  - by vm_compute.
Defined.

(** C2, as the code has it: a row whose key (column 51) is absent (the
    row has fewer than 52 cells), empty, or has a character that
    [str.isdigit] rejects is dropped and joins no run: the sampler returns
    what it keeps of the rows before it followed by what it keeps of the
    rows after it, whatever keys the neighbouring rows carry. *)
Theorem run_sampler_drops (pre post : list row) (r : row) :
  (key r = None ∨ key r = Some [] ∨
   ∃ k c, key r = Some k ∧ c ∈ k ∧ Unicode.isdigit c = false) →
  ∃ kp kq,
    TaskData.run_sampler pre = Ret kp ∧
    TaskData.run_sampler post = Ret kq ∧
    TaskData.run_sampler (pre ++ r :: post) = Ret (kp ++ kq).
Proof.
  intros Hr%not_isdigit_iff.
  destruct (run_sampler_total pre) as (kp & Hkp & Hpre).
  destruct (run_sampler_total post) as (kq & Hkq & Hpost).
  exists kp, kq. split_and!; [done..|].
  apply run_sampler_sampled. by apply sampled_app_drop.
Qed.

Lemma run_sampler_drops_witness :
  let same := map (λ l, keyed l (py "n/a")) ["a"; "b"; "c"] in
  ∃ kp kq,
    TaskData.run_sampler same = Ret kp ∧
    TaskData.run_sampler same = Ret kq ∧
    TaskData.run_sampler (same ++ keyed "x" (py "n/a") :: same) = Ret (kp ++ kq).
Proof.
  intros same. apply (run_sampler_drops same same (keyed "x" (py "n/a"))).
  right. right. exists (py "n/a"), 110%N. split_and!; [done| |by vm_compute].
  apply list_elem_of_In. simpl. auto.
Defined.

(** C2, as stated, fails: U+00B2 (superscript two) is not a decimal digit
    ([str.isdecimal] rejects it, and it is not one of [0] to [9]), yet
    [str.isdigit] accepts it, so five rows with that key form a run and
    the 1st and the 4th are kept. *)
Lemma run_sampler_drops_counterexample :
  let r := λ l, keyed l [0xB2%N] in
  Unicode.isdecimal 0xB2 = false ∧ is_ascii_digit 0xB2 = false ∧
  TaskData.run_sampler [r "1"; r "2"; r "3"; r "4"; r "5"] = Ret [r "1"; r "4"].
Proof. by vm_compute. Qed.

(** ** Projection *)

Lemma project_select (r : row) (columns : list Z) :
  project r columns = Ret (select r columns).
Proof.
  induction columns as [|i columns IH]; [done|].
  cbn [project select omap list_omap]. fold (select r columns).
  destruct ((0 <=? i)%Z && (i <? Z.of_nat (length r))%Z) eqn:Hi.
  - apply andb_prop in Hi as [H0%Z.leb_le Hlen%Z.ltb_lt].
    unfold getitem. rewrite (proj2 (Z.leb_le 0 i)) by done.
    rewrite bool_decide_eq_true_2 by done.
    destruct (lookup_lt_is_Some_2 r (Z.to_nat i)) as [cell Hcell]; [lia|].
    unfold item. rewrite Hcell. cbn. by rewrite IH.
  - rewrite IH. apply andb_false_iff in Hi as [H0%Z.leb_gt|Hlen%Z.ltb_ge].
    + by rewrite bool_decide_eq_false_2 by lia.
    + case_bool_decide; [|done].
      by rewrite (proj2 (lookup_ge_None r (Z.to_nat i))) by lia.
Qed.

(** C5: projection never fails; it returns the cells at the indices of
    the list that are valid for the row (not negative and below the row's
    length), in the order of the list and as often as the list names
    them, and passes over the other indices; the header [A, B, C, D] with
    the indices [2, 0, 2] gives [C, A, C]. *)
Theorem project_selects_valid_indices (r : row) (columns : list Z) :
  project r columns =
    Ret (omap (λ i : Z, if bool_decide (0 ≤ i)%Z then r !! Z.to_nat i else None) columns) ∧
  project (map py ["A"; "B"; "C"; "D"]) [2; 0; 2]%Z = Ret (map py ["C"; "A"; "C"]) ∧
  project (map py ["A"; "B"]) [1; 5; -1; 0]%Z = Ret (map py ["B"; "A"]).
Proof. split; [apply project_select|done]. Qed.

(** ** Reading and writing *)

Section IoFacts.
Implicit Types (w : world) (path : string).

Lemma io_bind_unfold {A B} (m : io A) (f : A → io B) w :
  (m ≫= f) w =
    match m w with
    | (Ret a, w') => f a w'
    | (Raise e, w') => (Raise e, w')
    | (OutOfFuel, w') => (OutOfFuel, w')
    end.
Proof. done. Qed.

(** The loop that writes the data rows appends one projected and
    cleaned row for each row it is given. *)
Lemma for_each_writerow output columns (rs : list row) w content :
  files w !! output = Some (File content None) →
  for_each rs
    (λ r, filtered_row ← lift (project r columns);
          let cleaned := map _clean_text filtered_row in
          writerow output cleaned) w
  = (Ret (),
     World (<[output := File (content ++ written columns rs) None]> (files w))
           (dirs w) (stdout w)).
Proof.
  revert w content. induction rs as [|r rs IH]; intros w content Hout.
  - cbn. rewrite app_nil_r, insert_id by done. by destruct w.
  - cbn [for_each]. rewrite io_bind_unfold. rewrite io_bind_unfold.
    unfold lift at 1. rewrite project_select.
    unfold writerow at 1. rewrite Hout. cbn [from_option file_rows].
    rewrite (IH _ (content ++ [map _clean_text (select r columns)])).
    2:{ cbn. by rewrite lookup_insert_eq. }
    cbn. by rewrite insert_insert_eq, <-(assoc_L (++)).
Qed.

(** The same loop over a reader: the rows that the reader yields are
    written, and the error that ends the reading, if any, is raised after
    them. *)
Lemma for_reader_writerow output columns (rs : list row) e w content :
  files w !! output = Some (File content None) →
  for_reader (File rs e)
    (λ r, filtered_row ← lift (project r columns);
          let cleaned := map _clean_text filtered_row in
          writerow output cleaned) w
  = (match e with Some e => Raise (raised e) | None => Ret () end,
     World (<[output := File (content ++ written columns rs) None]> (files w))
           (dirs w) (stdout w)).
Proof.
  intros Hout. unfold for_reader. cbn [file_rows file_error].
  rewrite io_bind_unfold, (for_each_writerow _ _ _ _ _ Hout).
  by destruct e.
Qed.
End IoFacts.
(** ** The two [filter_csv_columns] *)

Lemma kept_rows_spec (rows : list row) :
  TaskData.run_sampler rows = Ret (kept_rows rows).
Proof.
  unfold kept_rows. destruct (run_sampler_total rows) as (kept & -> & _). done.
Qed.

Section FilterFacts.
Implicit Types (w : world) (input output : string) (columns : list Z) (f : file).

Lemma open_missing {A} input (m : io A) w :
  files w !! input = None →
  (open_read input;; m) w = (Raise FileNotFoundError, w).
Proof.
  intros Hin. rewrite io_bind_unfold. unfold open_read at 1. by rewrite Hin.
Qed.

(** When the output file cannot be opened the input file, which is open
    by then, is closed again and nothing has changed. *)
Lemma open_unwritable {A} input output (m : io A) w f :
  files w !! input = Some f → ¬ writable w output →
  (open_read input;; open_write output;; m) w = (Raise FileNotFoundError, w).
Proof.
  intros Hin Hout. rewrite io_bind_unfold. unfold open_read at 1. rewrite Hin.
  rewrite io_bind_unfold. unfold open_write at 1.
  by rewrite bool_decide_eq_false_2.
Qed.

(** Opening the two files: the output file is emptied, and the reader
    sees the input file as it then is. *)
Lemma open_both {A} input output (k : file → io A) w f :
  files w !! input = Some f → writable w output →
  (open_read input;; open_write output;; reader ← csv_reader input; k reader) w
  = k (if decide (output = input) then File [] None else f)
      (World (<[output := File [] None]> (files w)) (dirs w) (stdout w)).
Proof.
  intros Hin Hout. rewrite io_bind_unfold. unfold open_read at 1. rewrite Hin.
  rewrite io_bind_unfold. unfold open_write at 1.
  rewrite bool_decide_eq_true_2 by done.
  rewrite io_bind_unfold. unfold csv_reader at 1. cbn [files].
  rewrite lookup_insert. case_decide; [done|]. by rewrite Hin.
Qed.

(** What a call of [filter_csv_columns] does, by the state of the two
    files: in [questionnaire.py] and in [task_data.py]. *)
Lemma questionnaire_call input output columns w :
  Questionnaire.filter_csv_columns input output columns w
  = (Ret (), after_call (questionnaire_result input output columns) input output w).
Proof.
  unfold Questionnaire.filter_csv_columns, try_except, after_call.
  rewrite io_bind_unfold.
  destruct (files w !! input) as [f|] eqn:Hin.
  2:{ by rewrite open_missing. }
  case_bool_decide as Hout.
  2:{ by rewrite (open_unwritable _ _ _ _ _ Hin Hout). }
  rewrite (open_both _ _ _ _ _ Hin Hout).
  destruct (if decide (output = input) then File [] None else f) as [[|header rs] e].
  - by destruct e as [[]|].
  - cbn [next file_rows file_error]. rewrite io_bind_unfold. unfold lift at 1.
    rewrite io_bind_unfold. unfold lift at 1. rewrite project_select.
    rewrite io_bind_unfold. unfold writerow at 1. cbn [files dirs stdout].
    rewrite lookup_insert_eq. cbn [from_option file_rows app].
    rewrite insert_insert_eq, io_bind_unfold.
    rewrite (for_reader_writerow _ _ _ _ _ [select header columns])
      by (cbn; by rewrite lookup_insert_eq).
    cbn [files dirs stdout]. rewrite insert_insert_eq.
    by destruct e as [[]|].
Qed.

Lemma task_data_call input output columns w :
  TaskData.filter_csv_columns input output columns w
  = (Ret (), after_call (task_data_result input output columns) input output w).
Proof.
  unfold TaskData.filter_csv_columns, try_except, after_call.
  rewrite io_bind_unfold.
  destruct (files w !! input) as [f|] eqn:Hin.
  2:{ by rewrite open_missing. }
  case_bool_decide as Hout.
  2:{ by rewrite (open_unwritable _ _ _ _ _ Hin Hout). }
  rewrite (open_both _ _ _ _ _ Hin Hout).
  destruct (if decide (output = input) then File [] None else f) as [[|header rs] e].
  - by destruct e as [[]|].
  - cbn [next file_rows file_error]. rewrite io_bind_unfold. unfold lift at 1.
    rewrite io_bind_unfold. unfold lift at 1. rewrite project_select.
    rewrite io_bind_unfold. unfold writerow at 1. cbn [files dirs stdout].
    rewrite lookup_insert_eq. cbn [from_option file_rows app].
    rewrite insert_insert_eq, io_bind_unfold. unfold lift at 1, list_of.
    cbn [file_rows file_error].
    destruct e as [e|]; [by destruct e|].
    rewrite io_bind_unfold. unfold lift at 1. rewrite kept_rows_spec.
    rewrite io_bind_unfold.
    rewrite (for_each_writerow _ _ _ _ [select header columns])
      by (cbn; by rewrite lookup_insert_eq).
    cbn [files dirs stdout]. by rewrite insert_insert_eq.
Qed.

(** *** What the two have in common *)

Section Call.
Variable result : file → list row * string.

Lemma after_call_missing input output w :
  files w !! input = None →
  after_call result input output w
  = World (files w) (dirs w) (stdout w ++ [not_found_message input]).
Proof. intros Hin. unfold after_call. by rewrite Hin. Qed.

Lemma after_call_unwritable input output w :
  ¬ writable w output →
  after_call result input output w
  = World (files w) (dirs w) (stdout w ++ [not_found_message input]).
Proof.
  intros Hout. unfold after_call. destruct (files w !! input); [|done].
  by rewrite bool_decide_eq_false_2.
Qed.

Lemma after_call_open input output w f :
  files w !! input = Some f → writable w output →
  after_call result input output w
  = let reader := if decide (output = input) then File [] None else f in
    World (<[output := File (result reader).1 None]> (files w)) (dirs w)
          (stdout w ++ [(result reader).2]).
Proof.
  intros Hin Hout. unfold after_call. by rewrite Hin, bool_decide_eq_true_2.
Qed.

Lemma after_call_dirs input output w : dirs (after_call result input output w) = dirs w.
Proof.
  unfold after_call. destruct (files w !! input); [|done]. by case_bool_decide.
Qed.

Lemma after_call_stdout input output w :
  ∃ line, stdout (after_call result input output w) = stdout w ++ [line] ∧
          (line = not_found_message input ∨ ∃ reader, line = (result reader).2).
Proof.
  unfold after_call. destruct (files w !! input); [|by eauto].
  case_bool_decide; eauto.
Qed.

Lemma after_call_frame input output w path :
  path ≠ output → files (after_call result input output w) !! path = files w !! path.
Proof.
  intros Hp. unfold after_call. destruct (files w !! input); [|done].
  case_bool_decide; [|done]. cbn [files]. by rewrite lookup_insert_ne.
Qed.

(** The output file after a call depends on the two files and on the
    directories only. *)
Lemma after_call_local input output w1 w2 :
  files w1 !! input = files w2 !! input →
  files w1 !! output = files w2 !! output →
  dirs w1 = dirs w2 →
  files (after_call result input output w1) !! output
  = files (after_call result input output w2) !! output.
Proof.
  intros Hin Hout Hd. unfold after_call, writable. rewrite Hin, Hout, Hd.
  destruct (files w2 !! input); [|done].
  case_bool_decide; [|done]. cbn [files]. by rewrite !lookup_insert_eq.
Qed.

(** A second call with the same arguments finds the input file as the
    first call found it, or emptied by the first call as the second is
    about to empty it. *)
Lemma after_call_again input output w :
  files (after_call result input output (after_call result input output w))
  = files (after_call result input output w).
Proof.
  destruct (files w !! input) as [f|] eqn:Hin.
  2:{ rewrite (after_call_missing input output w Hin).
      by rewrite after_call_missing. }
  destruct (decide (writable w output)) as [Hout|Hout].
  2:{ rewrite (after_call_unwritable input output w Hout).
      by rewrite after_call_unwritable. }
  rewrite (after_call_open input output w f Hin Hout). cbn zeta.
  set (reader := if decide (output = input) then File [] None else f).
  set (w1 := World _ _ _).
  assert (writable w1 output) as Hout1.
  { left. unfold w1. cbn [files]. rewrite lookup_insert_eq. by eexists. }
  assert (∃ f1, files w1 !! input = Some f1 ∧
                (if decide (output = input) then File [] None else f1) = reader)
    as (f1 & Hin1 & Hreader).
  { unfold w1, reader. cbn [files]. destruct (decide (output = input)) as [->|Hne].
    - rewrite lookup_insert_eq. eauto.
    - rewrite lookup_insert_ne by done. eauto. }
  rewrite (after_call_open input output w1 f1 Hin1 Hout1). cbn zeta.
  rewrite Hreader. unfold w1. cbn [files]. by rewrite insert_insert_eq.
Qed.
End Call.
End FilterFacts.
(** C4, as the code has it: when the input file exists and has no row at
    all, and the output file can be opened for writing, both scripts print
    [Error: '<input>' is empty.] and nothing else, return without raising,
    and write no row.  The output file is none the less opened for writing
    before the header is read: it is created, or emptied when it exists,
    and is left without a row. *)
Theorem empty_input_reported (input output : string) (columns : list Z) (w : world) :
  files w !! input = Some (File [] None) →
  writable w output →
  let w' := World (<[output := File [] None]> (files w)) (dirs w)
                  (stdout w ++ ["Error: '" +:+ input +:+ "' is empty."]) in
  Questionnaire.filter_csv_columns input output columns w = (Ret (), w') ∧
  TaskData.filter_csv_columns input output columns w = (Ret (), w') ∧
  files w' !! output = Some (File [] None).
Proof.
  intros Hin Hout w'. split_and!.
  - rewrite questionnaire_call, (after_call_open _ _ _ _ _ Hin Hout).
    by case_decide.
  - rewrite task_data_call, (after_call_open _ _ _ _ _ Hin Hout).
    by case_decide.
  - apply lookup_insert_eq.
Qed.

Lemma empty_input_reported_witness :
  let w := World {[ "in.csv" := File [] None ]} {[ "" ]} ["earlier line"] in
  let w' := World (<["out.csv" := File [] None]> (files w)) (dirs w)
                  (stdout w ++ ["Error: '" +:+ "in.csv" +:+ "' is empty."]) in
  Questionnaire.filter_csv_columns "in.csv" "out.csv" [5; 8]%Z w = (Ret (), w') ∧
  TaskData.filter_csv_columns "in.csv" "out.csv" [5; 8]%Z w = (Ret (), w') ∧
  files w' !! "out.csv" = Some (File [] None).
Proof.
  intros w. apply (empty_input_reported "in.csv" "out.csv" [5; 8]%Z w); [done|].
  right. subst w. cbn [dirs]. by apply elem_of_singleton_2.
Defined.

(** C4, as stated, fails.  With an empty input file and an output file
    that holds a row, both scripts print the is-empty line, and the output
    file has lost its row: something has been produced at the output path.
    And when the directory of the output path does not exist, the line
    printed for an empty input file is the not-found line, not the is-empty
    line. *)
Lemma empty_input_reported_counterexample :
  (∃ w',
     Questionnaire.filter_csv_columns "in.csv" "out.csv" [0%Z]
       (World {[ "in.csv" := File [] None; "out.csv" := File [[py "old"]] None ]} {[ "" ]} [])
     = (Ret (), w') ∧
     stdout w' = ["Error: 'in.csv' is empty."] ∧
     files w' !! "out.csv" = Some (File [] None)) ∧
  (∃ w',
     TaskData.filter_csv_columns "in.csv" "out.csv" [0%Z]
       (World {[ "in.csv" := File [] None; "out.csv" := File [[py "old"]] None ]} {[ "" ]} [])
     = (Ret (), w') ∧
     stdout w' = ["Error: 'in.csv' is empty."] ∧
     files w' !! "out.csv" = Some (File [] None)) ∧
  (∃ w',
     Questionnaire.filter_csv_columns "in.csv" "output/out.csv" [0%Z]
       (World {[ "in.csv" := File [] None ]} {[ "" ]} [])
     = (Ret (), w') ∧
     stdout w' = ["Error: File 'in.csv' not found."] ∧
     files w' !! "output/out.csv" = None).
Proof.
  split_and!.
  - eexists. rewrite questionnaire_call. split; [done|].
    rewrite after_call_open with (f := File [] None); [|done|left; by eexists].
    done.
  - eexists. rewrite task_data_call. split; [done|].
    rewrite after_call_open with (f := File [] None); [|done|left; by eexists].
    done.
  - eexists. rewrite questionnaire_call. split; [done|].
    rewrite after_call_unwritable; [done|].
    intros [[? H]|H]; [done|]. cbn [dirs] in H. by apply elem_of_singleton_1 in H.
Qed.

(** C8: when no file stands at the input path, both scripts print
    [Error: File '<input>' not found.] and nothing else, return without
    raising, and leave every file as it was: the output file is neither
    created nor changed. *)
Theorem missing_input_reported (input output : string) (columns : list Z) (w : world) :
  files w !! input = None →
  let w' := World (files w) (dirs w)
                  (stdout w ++ ["Error: File '" +:+ input +:+ "' not found."]) in
  Questionnaire.filter_csv_columns input output columns w = (Ret (), w') ∧
  TaskData.filter_csv_columns input output columns w = (Ret (), w') ∧
  files w' !! output = files w !! output.
Proof.
  intros Hin w'. split_and!.
  - by rewrite questionnaire_call, after_call_missing.
  - by rewrite task_data_call, after_call_missing.
  - done.
Qed.

Lemma missing_input_reported_witness :
  let w := World {[ "out.csv" := File [[py "old"]] None ]} {[ "" ]} [] in
  let w' := World (files w) (dirs w)
                  (stdout w ++ ["Error: File '" +:+ "in.csv" +:+ "' not found."]) in
  Questionnaire.filter_csv_columns "in.csv" "out.csv" [0]%Z w = (Ret (), w') ∧
  TaskData.filter_csv_columns "in.csv" "out.csv" [0]%Z w = (Ret (), w') ∧
  files w' !! "out.csv" = files w !! "out.csv".
Proof.
  intros w. apply (missing_input_reported "in.csv" "out.csv" [0]%Z w). done.
Defined.

(** C6: for an input file that is read to its end and holds a header and
    data rows, and an output file that can be opened for writing (at a path
    other than the input path), [task_data.py] writes the projected header
    as the first row, whatever the header holds in column 51; the rows
    after it are the projected and cleaned rows that the sampler keeps, and
    those form a sublist of the data rows: they come in their original
    order and no data row is written twice. *)
Theorem task_data_output_order (input output : string) (columns : list Z)
    (w : world) (header : row) (rows : list row) :
  input ≠ output →
  files w !! input = Some (File (header :: rows) None) →
  writable w output →
  ∃ kept,
    TaskData.run_sampler rows = Ret kept ∧
    kept `sublist_of` rows ∧
    TaskData.filter_csv_columns input output columns w
    = (Ret (),
       World (<[output := File (select header columns
                                :: map (λ r, map _clean_text (select r columns)) kept)
                               None]> (files w))
             (dirs w)
             (stdout w ++ ["Successfully wrote filtered CSV to " +:+ output])).
Proof.
  intros Hne Hin Hout. destruct (run_sampler_total rows) as (kept & Hkept & Hs).
  exists kept. split_and!; [done|by apply sampled_sublist|].
  rewrite task_data_call, (after_call_open _ _ _ _ _ Hin Hout).
  rewrite decide_False by done. unfold task_data_result, kept_rows.
  cbn [file_rows file_error]. by rewrite Hkept.
Qed.

Lemma task_data_output_order_witness :
  let header := keyed "id" (py "7") in
  let rows := map (λ l, keyed l (py "7")) ["a"; "b"; "c"; "d"; "e"; "f"] in
  let w := World {[ "in.csv" := File (header :: rows) None ]} {[ "" ]} [] in
  ∃ kept,
    TaskData.run_sampler rows = Ret kept ∧
    kept `sublist_of` rows ∧
    TaskData.filter_csv_columns "in.csv" "out.csv" [0; 51]%Z w
    = (Ret (),
       World (<["out.csv" := File (select header [0; 51]%Z
                                   :: map (λ r, map _clean_text (select r [0; 51]%Z)) kept)
                                  None]> (files w))
             (dirs w)
             (stdout w ++ ["Successfully wrote filtered CSV to " +:+ "out.csv"])).
Proof.
  intros header rows w.
  apply (task_data_output_order "in.csv" "out.csv" [0; 51]%Z w header rows); [done..|].
  right. subst w. cbn [dirs]. by apply elem_of_singleton_2.
Defined.

(** C10: for an input file that is read to its end and holds a header
    and data rows, and an output file that can be opened for writing (at a
    path other than the input path), both scripts write the selected header
    cells as they are, without passing them to [_clean_text], and write
    every selected data cell cleaned (in [task_data.py], of the rows that
    the sampler keeps); so a header cell [<b>ID</b>] followed by a NUL
    character is written unchanged while the same data cell becomes
    [**ID**]. *)
Theorem header_written_verbatim (input output : string) (columns : list Z)
    (w : world) (header : row) (rows : list row) :
  input ≠ output →
  files w !! input = Some (File (header :: rows) None) →
  writable w output →
  Questionnaire.filter_csv_columns input output columns w
  = (Ret (),
     World (<[output := File (select header columns
                              :: map (λ r, map _clean_text (select r columns)) rows)
                             None]> (files w))
           (dirs w)
           (stdout w ++ ["Successfully wrote filtered CSV to " +:+ output])) ∧
  (∃ kept,
     TaskData.run_sampler rows = Ret kept ∧
     TaskData.filter_csv_columns input output columns w
     = (Ret (),
        World (<[output := File (select header columns
                                 :: map (λ r, map _clean_text (select r columns)) kept)
                                None]> (files w))
              (dirs w)
              (stdout w ++ ["Successfully wrote filtered CSV to " +:+ output]))) ∧
  (let cell := py "<b>ID</b>" ++ [0%N] in
   select [cell] [0%Z] = [cell] ∧ map _clean_text (select [cell] [0%Z]) = [py "**ID**"]).
Proof.
  intros Hne Hin Hout. split_and!.
  - rewrite questionnaire_call, (after_call_open _ _ _ _ _ Hin Hout).
    by rewrite decide_False by done.
  - exists (kept_rows rows). split; [apply kept_rows_spec|].
    rewrite task_data_call, (after_call_open _ _ _ _ _ Hin Hout).
    by rewrite decide_False by done.
  - by vm_compute.
Qed.

Lemma header_written_verbatim_witness :
  let cell := py "<b>ID</b>" ++ [0%N] in
  let w := World {[ "in.csv" := File [[cell]; [cell]] None ]} {[ "" ]} [] in
  Questionnaire.filter_csv_columns "in.csv" "out.csv" [0%Z] w
  = (Ret (),
     World (<["out.csv" := File (select [cell] [0%Z]
                                 :: map (λ r, map _clean_text (select r [0%Z])) [[cell]])
                                None]> (files w))
           (dirs w)
           (stdout w ++ ["Successfully wrote filtered CSV to " +:+ "out.csv"])) ∧
  (∃ kept,
     TaskData.run_sampler [[cell]] = Ret kept ∧
     TaskData.filter_csv_columns "in.csv" "out.csv" [0%Z] w
     = (Ret (),
        World (<["out.csv" := File (select [cell] [0%Z]
                                    :: map (λ r, map _clean_text (select r [0%Z])) kept)
                                   None]> (files w))
              (dirs w)
              (stdout w ++ ["Successfully wrote filtered CSV to " +:+ "out.csv"]))) ∧
  (let cell := py "<b>ID</b>" ++ [0%N] in
   select [cell] [0%Z] = [cell] ∧ map _clean_text (select [cell] [0%Z]) = [py "**ID**"]).
Proof.
  intros cell w.
  apply (header_written_verbatim "in.csv" "out.csv" [0%Z] w [cell] [[cell]]); [done..|].
  right. subst w. cbn [dirs]. by apply elem_of_singleton_2.
Defined.

(** * Further properties *)

(** ** [_clean_text] on plain text *)

Section Ascii.
Implicit Types (c st : N) (s : list N).

(** No ASCII character has a decomposition, is a combining mark, or is
    the second half of a composite. *)
Lemma decomposition_ascii c : (c < 128)%N → decomposition c = None.
Proof.
  intros Hc. unfold decomposition, is_hangul_syllable, SBase.
  rewrite (proj2 (N.leb_gt _ _)) by lia. cbn [andb].
  rewrite (find_None_forallb (λ e, (128 <=? e.1)%N)); [|by vm_compute|].
  2:{ intros e He%N.leb_le. apply N.eqb_neq. lia. }
  rewrite (find_None_forallb (λ e, (128 <=? e.1.1)%N)); [done|by vm_compute|].
  intros e He%N.leb_le. apply N.eqb_neq. lia.
Qed.

Lemma combining_ascii c : (c < 128)%N → combining c = 0%N.
Proof.
  intros Hc. unfold combining.
  rewrite (find_None_forallb (λ e, (128 <=? e.1.1)%N)); [done|by vm_compute|].
  intros e He%N.leb_le. apply andb_false_iff. left. apply N.leb_gt. lia.
Qed.

Lemma compose_pair_ascii st c : (st < 128)%N → (c < 128)%N → compose_pair st c = None.
Proof.
  intros Hst Hc. unfold compose_pair, is_hangul_syllable, LBase, SBase.
  rewrite (proj2 (N.leb_gt 0x1100 st)) by lia. cbn [andb].
  rewrite (proj2 (N.leb_gt 0xAC00 st)) by lia. cbn [andb].
  rewrite (find_None_forallb (λ e, (128 <=? e.2)%N)); [done|by vm_compute|].
  intros e He%N.leb_le. apply andb_false_iff. right. apply N.eqb_neq. lia.
Qed.

Lemma nfd_ascii s : Forall (λ c, (c < 128)%N) s → nfd s = s.
Proof.
  intros Hs. unfold nfd.
  assert (∀ acc, fold_left
            (λ acc c, fold_left (λ acc' d, insert_mark d acc') (decompose 4 c) acc) s acc
          = rev s ++ acc) as ->.
  { induction Hs as [|c s Hc _ IH]; intros acc; [done|].
    cbn [fold_left decompose]. rewrite decomposition_ascii by done. cbn [fold_left].
    assert (insert_mark c acc = c :: acc) as ->.
    { destruct acc; [done|]. cbn [insert_mark]. by rewrite combining_ascii. }
    rewrite IH. cbn [rev]. by rewrite <-app_assoc. }
  by rewrite app_nil_r, rev_involutive.
Qed.

Lemma compose_ascii s : Forall (λ c, (c < 128)%N) s → compose s = s.
Proof.
  intros Hs. destruct Hs as [|st s Hst Hs]; [done|]. cbn [compose].
  revert st Hst. induction Hs as [|c s Hc _ IH]; intros st Hst; [done|].
  cbn [compose_from]. rewrite combining_ascii by done. cbn [N.eqb negb andb].
  rewrite compose_pair_ascii by done. cbn [rev app]. by rewrite IH.
Qed.

(** NFC leaves ASCII text as it is. *)
Lemma nfc_ascii s : Forall (λ c, (c < 128)%N) s → nfc s = s.
Proof. intros Hs. unfold nfc. rewrite nfd_ascii by done. by apply compose_ascii. Qed.
End Ascii.

Lemma plain_ascii c : plain c = true → (c < 128)%N.
Proof.
  unfold plain. intros [[_ H%N.leb_le]%andb_prop|H]%orb_prop; [lia|].
  cbn in H. repeat (apply orb_prop in H as [->%N.eqb_eq|H]; [lia|]). done.
Qed.

Lemma printable_ranges_head :
  printable_ranges = (0x20, 0x7E)%N :: tl printable_ranges.
Proof. reflexivity. Qed.

Lemma plain_keeps c : plain c = true → keeps c = true.
Proof.
  unfold plain, keeps. intros [H|H]%orb_prop; [|by rewrite H, orb_true_r].
  apply orb_true_iff. left. unfold isprintable, in_ranges.
  rewrite printable_ranges_head. cbn [existsb fst snd]. by rewrite H.
Qed.

Lemma plain_text s :
  forallb plain s = true → Forall (λ c, (c < 128)%N) s ∧ forallb keeps s = true.
Proof.
  rewrite !forallb_forall. intros H. split.
  - apply Forall_forall. intros c Hc%list_elem_of_In. apply plain_ascii. auto.
  - intros c Hc. apply plain_keeps. auto.
Qed.

(** On plain text NFC and the filter of step 6 change nothing. *)
Lemma normalize_plain s :
  forallb plain s = true → List.filter keeps (nfc s) = s.
Proof.
  intros [Ha Hk]%plain_text. rewrite nfc_ascii by done. by apply filter_keeps_id.
Qed.

(** X1: plain text without a tag comes out of [_clean_text] as it went
    in. *)
Theorem clean_text_plain_unchanged x :
  forallb plain x = true → has_tag x = false → _clean_text x = x.
Proof.
  intros [Ha Hk]%plain_text Ht. apply clean_text_fixed; [done| |done].
  by apply nfc_ascii.
Qed.

Lemma clean_text_plain_unchanged_witness :
  _clean_text (py "score > 3, n < 10" ++ [9; 10]%N) = py "score > 3, n < 10" ++ [9; 10]%N.
Proof. apply clean_text_plain_unchanged; by vm_compute. Defined.

(** A printable character below U+00A1 is a printable ASCII character. *)
Lemma isprintable_low c :
  isprintable c = true → (32 ≤ c ≤ 126)%N ∨ (0xA1 ≤ c)%N.
Proof.
  unfold isprintable, in_ranges. rewrite printable_ranges_head. cbn [existsb fst snd].
  intros [[?%N.leb_le ?%N.leb_le]%andb_prop|H]%orb_prop; [by left|right].
  apply existsb_exists in H as (r & Hr & [Hlo%N.leb_le _]%andb_prop).
  assert (forallb (λ e, (0xA1 <=? e.1)%N) (tl printable_ranges) = true) as Hall
    by (by vm_compute).
  rewrite forallb_forall in Hall. apply Hall, N.leb_le in Hr. lia.
Qed.

(** X2: no control character survives [_clean_text] except tab, newline
    and carriage return: a character of the output below U+0020 is one of
    these three, and no character of the output lies in U+007F..U+00A0. *)
Theorem clean_text_no_control x c :
  c ∈ _clean_text x →
  ((c < 32)%N → c = 9%N ∨ c = 10%N ∨ c = 13%N) ∧ ¬ (0x7F ≤ c ≤ 0xA0)%N.
Proof.
  unfold _clean_text. intros [_ Hk]%list_elem_of_In%filter_In.
  unfold keeps in Hk. apply orb_prop in Hk as [Hp%isprintable_low|Hk].
  - split; lia.
  - cbn in Hk. repeat (apply orb_prop in Hk as [->%N.eqb_eq|Hk]; [split; [auto|lia]|]).
    done.
Qed.

Lemma clean_text_no_control_witness :
  ((9 < 32)%N → 9%N = 9%N ∨ 9%N = 10%N ∨ 9%N = 13%N) ∧ ¬ (0x7F ≤ 9 ≤ 0xA0)%N.
Proof.
  apply (clean_text_no_control [0; 97; 9; 0x7F; 0x85; 98]%N 9%N).
  apply list_elem_of_In. vm_compute. auto.
Defined.

(** ** Elements and tags in plain text *)

Lemma forallb_plain_app s t :
  forallb plain (s ++ t) = forallb plain s && forallb plain t.
Proof. apply forallb_app. Qed.

(** X3: a single [<b>], [<i>] or [<u>] element around plain content
    without [<] and without a newline is cleaned into the content between
    the markdown marks. *)
Theorem clean_text_simple_element content :
  forallb plain content = true → 60%N ∉ content → 10%N ∉ content →
  _clean_text (py "<b>" ++ content ++ py "</b>") = py "**" ++ content ++ py "**" ∧
  _clean_text (py "<i>" ++ content ++ py "</i>") = py "*" ++ content ++ py "*" ∧
  _clean_text (py "<u>" ++ content ++ py "</u>") = py "_" ++ content ++ py "_".
Proof.
  intros Hp H60 H10.
  destruct (convert_tags_simple_element content H60 H10) as (Hb & Hi & Hu).
  unfold _clean_text. rewrite Hb, Hi, Hu.
  split_and!; apply normalize_plain; rewrite !forallb_plain_app, Hp; done.
Qed.

Lemma clean_text_simple_element_witness :
  let content := py "p > 0.05, two  words" in
  _clean_text (py "<b>" ++ content ++ py "</b>") = py "**" ++ content ++ py "**" ∧
  _clean_text (py "<i>" ++ content ++ py "</i>") = py "*" ++ content ++ py "*" ∧
  _clean_text (py "<u>" ++ content ++ py "</u>") = py "_" ++ content ++ py "_".
Proof.
  intros content. apply clean_text_simple_element; [by vm_compute|no_lt..].
Defined.

(** Tag removal copies a text without [<]. *)
Lemma strip_no_lt_app u s : 60%N ∉ u → strip (u ++ s) = u ++ strip s.
Proof.
  induction u as [|c u IH]; [done|]. intros [Hc Hu]%not_elem_of_cons.
  cbn [app]. rewrite strip_cons.
  assert (tag_at (c :: u ++ s) = None) as ->.
  { destruct (u ++ s); [done|]. cbn [tag_at].
    by rewrite (proj2 (N.eqb_neq c 60)). }
  by rewrite IH.
Qed.

Lemma strip_no_lt u : 60%N ∉ u → strip u = u.
Proof.
  intros Hu. rewrite <-(app_nil_r u) at 1. rewrite strip_no_lt_app by done.
  by rewrite strip_nil, app_nil_r.
Qed.

(** Tag removal drops a tag. *)
Lemma strip_tag t s : t ≠ [] → 62%N ∉ t → strip (60%N :: t ++ 62%N :: s) = strip s.
Proof.
  intros Ht Hn. rewrite strip_cons.
  destruct t as [|d t]; [done|]. apply not_elem_of_cons in Hn as [Hd Hn].
  cbn [app tag_at]. rewrite N.eqb_refl, (proj2 (N.eqb_neq d 62)) by done. cbn [negb andb].
  assert (after_gt (t ++ 62%N :: s) = Some s) as ->; [|done].
  apply after_gt_Some. by exists t.
Qed.

(** The match of [.*?] stops at a newline. *)
Lemma lazy_star_newline {A} (k : list N → option A) u s :
  (∀ v w, u = v ++ w → k (w ++ 10%N :: s) = None) →
  forallb dot u = true →
  lazy_star dot k (u ++ 10%N :: s) = None.
Proof.
  induction u as [|c u IH]; intros Hk Hp.
  - pose proof (Hk [] [] eq_refl) as H0. cbn [app] in *.
    cbn [lazy_star]. by rewrite H0.
  - simpl in Hp. apply andb_prop in Hp as [Hc Hp].
    pose proof (Hk [] (c :: u) eq_refl) as H0. cbn [app] in *.
    cbn [lazy_star]. rewrite H0, Hc.
    apply IH; [|done]. intros v w ->. by apply (Hk (c :: v) w).
Qed.

(** A [<b>] element whose content has a newline is not matched. *)
Lemma bold_newline_no_match c1 c2 rest :
  60%N ∉ c1 → 10%N ∉ c1 →
  re_match bold_re (py "<b>" ++ (c1 ++ 10%N :: c2) ++ rest) = None.
Proof.
  intros H60 H10. unfold re_match, bold_re, element.
  set (closing := (chr "<" ⋅ ws ⋅ chr "/" ⋅ ws ⋅ (word "b" ∣ word "strong") ⋅ ws ⋅ chr ">")%re).
  set (k0 := λ (s' : list N) (g : option (list N)), Some (g, s')).
  assert (∀ s, run (chr "<" ⋅ ws ⋅ (word "b" ∣ word "strong") ⋅ ws ⋅ chr ">"
                    ⋅ Group (Lazy dot) ⋅ closing)%re (py "<b>" ++ s) None k0
               = run (Group (Lazy dot) ⋅ closing)%re s None k0) as ->.
  { intros s. cbn -[closing]. by destruct (lazy_star _ _ _). }
  cbn [run]. rewrite <-(assoc_L (++)). cbn [app].
  apply lazy_star_newline.
  - intros v w ->. unfold closing. cbn [run].
    destruct w as [|d w]; cbn [app]; apply chr_fails; [done|].
    intros ->. apply H60, elem_of_app. right. left.
  - apply forallb_forall. intros d Hd%list_elem_of_In. unfold dot.
    apply negb_true_iff, N.eqb_neq. by intros ->.
Qed.

(** X4: [.] does not match a newline, so a [<b>] element whose content
    spans several lines is not turned into bold: its two tags are removed
    and the content is left as it is. *)
Theorem clean_text_multiline_bold c1 c2 :
  forallb plain c1 = true → forallb plain c2 = true →
  60%N ∉ c1 → 10%N ∉ c1 → 60%N ∉ c2 →
  _clean_text (py "<b>" ++ (c1 ++ 10%N :: c2) ++ py "</b>") = c1 ++ 10%N :: c2.
Proof.
  intros Hp1 Hp2 H1 H10 H2.
  assert (60%N ∉ c1 ++ 10%N :: c2) as Hc.
  { rewrite not_elem_of_app, not_elem_of_cons. done. }
  unfold _clean_text.
  assert (convert_tags (py "<b>" ++ (c1 ++ 10%N :: c2) ++ py "</b>") = c1 ++ 10%N :: c2) as ->.
  { unfold convert_tags, bold_re, italic_re, underline_re.
    change (py "<b>" ++ (c1 ++ 10%N :: c2) ++ py "</b>")
      with (60%N :: py "b>" ++ (c1 ++ 10%N :: c2) ++ 60%N :: py "/b>").
    rewrite (re_sub_other_element _ _ (py "b>") _ (py "/b>")); [|no_lt|done|no_lt| |done].
    2:{ by apply (bold_newline_no_match c1 c2 (py "</b>")). }
    rewrite 2!(re_sub_other_element _ _ (py "b>") _ (py "/b>")) by (done || no_lt).
    change (re_sub tag_re [] (60%N :: py "b>" ++ (c1 ++ 10%N :: c2) ++ 60%N :: py "/b>"))
      with (strip (60%N :: py "b" ++ 62%N :: (c1 ++ 10%N :: c2)
                     ++ 60%N :: py "/b" ++ 62%N :: [])).
    rewrite (strip_tag (py "b")) by (done || no_lt).
    rewrite strip_no_lt_app by done.
    by rewrite (strip_tag (py "/b") []), strip_nil, app_nil_r by (done || no_lt). }
  apply normalize_plain. rewrite forallb_plain_app. cbn [forallb]. by rewrite Hp1, Hp2.
Qed.

Lemma clean_text_multiline_bold_witness :
  _clean_text (py "<b>" ++ (py "first line" ++ 10%N :: py "second line") ++ py "</b>")
  = py "first line" ++ 10%N :: py "second line".
Proof.
  apply clean_text_multiline_bold; [by vm_compute|by vm_compute|no_lt..].
Defined.

(** An element needs a second [<]. *)
Lemma element_needs_two_lt name s m :
  re_match (element name) (60%N :: s) = Some m → 60%N ∈ s.
Proof.
  intros Hm. destruct m as [g rest].
  apply re_match_sound in Hm as (u0 & Hs & Hu). unfold element in Hu.
  apply lang_cat_inv in Hu as (u1 & t1 & -> & H1 & Hu).
  apply lang_cat_inv in Hu as (u2 & t2 & -> & H2 & Hu).
  apply lang_cat_inv in Hu as (u3 & t3 & -> & H3 & Hu).
  apply lang_cat_inv in Hu as (u4 & t4 & -> & H4 & Hu).
  apply lang_cat_inv in Hu as (u5 & t5 & -> & H5 & Hu).
  apply lang_cat_inv in Hu as (u6 & t6 & -> & H6 & Hu).
  apply lang_cat_inv in Hu as (u7 & t7 & -> & H7 & _).
  apply lang_chr_inv in H1 as (c & -> & _).
  apply lang_chr_inv in H7 as (d & -> & Hd). apply N.eqb_eq in Hd as <-.
  cbn [app] in Hs. injection Hs as _ ->.
  rewrite !elem_of_app. left. do 5 right. left.
Qed.

(** A text with a single [<] has no element. *)
Lemma no_element_one_lt name a s :
  nonempty name = true → 60%N ∉ a → 60%N ∉ s →
  re_search (element name) (a ++ 60%N :: s) = false.
Proof.
  intros Hne Ha Hs. rewrite search_skip by done. cbn [re_search].
  destruct (re_match (element name) (60%N :: s)) as [m|] eqn:Hm.
  { by apply element_needs_two_lt in Hm. }
  rewrite <-(app_nil_r s), search_skip by done. cbn [re_search].
  destruct (re_match (element name) []) as [[g rest]|] eqn:Hnil; [|done].
  apply re_match_consumes in Hnil; [simpl in Hnil; lia|done].
Qed.

(** X5: a lone tag in plain text is removed and the text around it is
    kept: for plain texts [a] and [b] and any tag body [t] that is not
    empty, none of them with a [<], and [t] without a [>], the cleaned
    form of [a<t>b] is [ab]. *)
Theorem clean_text_removes_tag a t b :
  forallb plain a = true → forallb plain b = true →
  60%N ∉ a → 60%N ∉ t → 60%N ∉ b → 62%N ∉ t → t ≠ [] →
  _clean_text (a ++ 60%N :: t ++ 62%N :: b) = a ++ b.
Proof.
  intros Hpa Hpb Ha Ht Hb Hgt Hne.
  assert (60%N ∉ t ++ 62%N :: b) as Hs.
  { rewrite not_elem_of_app, not_elem_of_cons. done. }
  unfold _clean_text.
  assert (convert_tags (a ++ 60%N :: t ++ 62%N :: b) = a ++ b) as ->.
  { unfold convert_tags, bold_re, italic_re, underline_re.
    rewrite 3!(re_sub_no_match (element _) _ (a ++ 60%N :: t ++ 62%N :: b))
      by (by apply no_element_one_lt).
    fold strip. rewrite strip_no_lt_app, strip_tag by done.
    by rewrite strip_no_lt. }
  apply normalize_plain. by rewrite forallb_plain_app, Hpa, Hpb.
Qed.

Lemma clean_text_removes_tag_witness :
  _clean_text (py "line one" ++ 60%N :: py "br /" ++ 62%N :: py "line two")
  = py "line one" ++ py "line two".
Proof.
  apply clean_text_removes_tag; [by vm_compute|by vm_compute|no_lt..|done].
Defined.

(** ** More on the run sampler *)

Lemma kept_of_run_cases (run : list row) :
  kept_of_run run = [] ∨
  ∃ r0 r3, kept_of_run run = [r0; r3] ∧ 5 ≤ length run ∧ r0 ∈ run ∧ r3 ∈ run.
Proof.
  destruct run as [|r0 [|r1 [|r2 [|r3 [|r4 run]]]]]; auto.
  right. exists r0, r3. split_and!; [done|simpl; lia|left|do 3 right; left].
Qed.

Lemma sampled_bound rs out :
  sampled rs out → ∃ n, length out = 2 * n ∧ 5 * n ≤ length rs.
Proof.
  induction 1 as [|r rs out _ _ (n & Hn & Hle)|num run rs out _ _ _ _ _ (n & Hn & Hle)].
  - by exists 0.
  - exists n. simpl. lia.
  - rewrite !length_app.
    destruct (kept_of_run_cases run) as [->|(r0 & r3 & -> & H5 & _)].
    + exists n. simpl. lia.
    + exists (S n). simpl. lia.
Qed.

(** X6: the sampler keeps rows in pairs, and each pair stands for at
    least five data rows: from [n] data rows it keeps an even number of
    rows, at most [2 * (n / 5)]. *)
Theorem run_sampler_bound (rows : list row) :
  ∃ kept pairs,
    TaskData.run_sampler rows = Ret kept ∧
    length kept = 2 * pairs ∧ 5 * pairs ≤ length rows.
Proof.
  destruct (run_sampler_total rows) as (kept & Hkept & Hs).
  destruct (sampled_bound _ _ Hs) as (n & Hn & Hle). by exists kept, n.
Qed.

Lemma sampled_keys rs out :
  sampled rs out →
  Forall (λ r, ∃ num, key r = Some num ∧ TaskData.str_isdigit num = true) out.
Proof.
  induction 1 as [|r rs out _ _ IH|num run rs out Hnum _ Hrun _ _ IH]; [done..|].
  apply Forall_app. split; [|done].
  rewrite Forall_forall in Hrun.
  destruct (kept_of_run_cases run) as [->|(r0 & r3 & -> & _ & H0 & H3)]; [done|].
  repeat constructor; exists num; auto.
Qed.

(** X7: every row that the sampler keeps has at least 52 cells and an
    all-digit value in column 51. *)
Theorem run_sampler_keeps_digit_keys (rows : list row) :
  ∃ kept,
    TaskData.run_sampler rows = Ret kept ∧
    Forall (λ r, 52 ≤ length r ∧
                 ∃ num, r !! 51 = Some num ∧ TaskData.str_isdigit num = true) kept.
Proof.
  destruct (run_sampler_total rows) as (kept & Hkept & Hs).
  exists kept. split; [done|].
  eapply Forall_impl; [by eapply sampled_keys|].
  intros r (num & Hk & Hd). split; [|by exists num].
  apply lookup_lt_Some in Hk. lia.
Qed.

Lemma sampled_rare rs out :
  sampled rs out →
  (∀ num, length (filter (λ r, key r = Some num) rs) < 5) →
  out = [].
Proof.
  induction 1 as [|r rs out _ _ IH|num run rs out _ _ Hrun _ _ IH]; intros Hrare.
  - done.
  - apply IH. intros num. specialize (Hrare num).
    rewrite filter_cons in Hrare. case_decide; simpl in Hrare; lia.
  - rewrite IH.
    2:{ intros num'. specialize (Hrare num'). rewrite filter_app, length_app in Hrare. lia. }
    rewrite app_nil_r. apply kept_of_run_short.
    specialize (Hrare num). rewrite filter_app, length_app in Hrare.
    assert (filter (λ r, key r = Some num) run = run) as Heq.
    { clear -Hrun. induction Hrun as [|r run Hr _ IH]; [done|].
      by rewrite filter_cons_True, IH. }
    rewrite Heq in Hrare. lia.
Qed.

(** X8: when no key value is carried by five rows or more, the sampler
    keeps nothing; so it keeps nothing of a table of fewer than five data
    rows. *)
Theorem run_sampler_rare_keys (rows : list row) :
  (∀ num, length (filter (λ r, key r = Some num) rows) < 5) →
  TaskData.run_sampler rows = Ret [].
Proof.
  intros Hrare. destruct (run_sampler_total rows) as (kept & Hkept & Hs).
  by rewrite Hkept, (sampled_rare _ _ Hs Hrare).
Qed.

Lemma run_sampler_rare_keys_witness :
  TaskData.run_sampler
    (map (λ l, keyed l (py "1")) ["a"; "b"; "c"; "d"]
     ++ map (λ l, keyed l (py "2")) ["e"; "f"; "g"; "h"]) = Ret [].
Proof.
  apply run_sampler_rare_keys. intros num.
  destruct (decide (num = py "1")) as [->|H1]; [vm_compute; lia|].
  destruct (decide (num = py "2")) as [->|H2]; [vm_compute; lia|].
  cbn [map app]. vm_compute in H1, H2.
  repeat (rewrite filter_cons_False by (intros Hk; vm_compute in Hk; congruence)).
  rewrite filter_nil. simpl. lia.
Defined.

(** What is kept of two lists of rows put end to end, when no run goes
    across the join. *)
Lemma sampled_app a ka b kb :
  sampled a ka → sampled b kb →
  (∀ num, TaskData.str_isdigit num = true →
          last a ≫= key = Some num → head b ≫= key ≠ Some num) →
  sampled (a ++ b) (ka ++ kb).
Proof.
  intros Ha Hb Hjoin.
  induction Ha as [|r rs out Hr _ IH|num run rs out Hnum Hne Hrun Hrs _ IH].
  - done.
  - simpl. apply sampled_drop; [done|]. apply IH.
    destruct rs as [|r' rs]; [done|]. by rewrite last_cons_cons in Hjoin.
  - rewrite <-!(assoc_L (++)). apply sampled_run with num; [done..| |].
    + destruct rs as [|r' rs]; [|done]. simpl. apply Hjoin; [done|].
      rewrite app_nil_r.
      destruct (last run) as [r'|] eqn:Hl; [|by apply last_None in Hl].
      apply last_Some_elem_of in Hl. rewrite Forall_forall in Hrun. simpl. auto.
    + apply IH. destruct rs as [|r' rs]; [done|].
      by rewrite last_app_cons in Hjoin.
Qed.

(** X9: sampling distributes over a join that no run crosses: when the
    last row of [a] and the first row of [b] do not carry the same
    all-digit key, sampling [a ++ b] gives what sampling [a] gives followed
    by what sampling [b] gives. *)
Theorem run_sampler_app (a b : list row) :
  (∀ num, TaskData.str_isdigit num = true →
          last a ≫= key = Some num → head b ≫= key ≠ Some num) →
  ∃ ka kb,
    TaskData.run_sampler a = Ret ka ∧
    TaskData.run_sampler b = Ret kb ∧
    TaskData.run_sampler (a ++ b) = Ret (ka ++ kb).
Proof.
  intros Hjoin.
  destruct (run_sampler_total a) as (ka & Hka & Ha).
  destruct (run_sampler_total b) as (kb & Hkb & Hb).
  exists ka, kb. split_and!; [done..|].
  apply run_sampler_sampled. by apply sampled_app.
Qed.

Lemma run_sampler_app_witness :
  let a := map (λ l, keyed l (py "1")) ["a"; "b"; "c"; "d"; "e"] in
  let b := map (λ l, keyed l (py "2")) ["f"; "g"; "h"; "i"; "j"; "k"] in
  ∃ ka kb,
    TaskData.run_sampler a = Ret ka ∧
    TaskData.run_sampler b = Ret kb ∧
    TaskData.run_sampler (a ++ b) = Ret (ka ++ kb).
Proof.
  intros a b. apply (run_sampler_app a b).
  intros num _ Ha Hb. vm_compute in Ha, Hb. congruence.
Defined.

(** ** More on projection *)

Lemma select_cons (r : row) (i : Z) (columns : list Z) :
  select r (i :: columns) =
    match (if bool_decide (0 ≤ i)%Z then r !! Z.to_nat i else None) with
    | Some cell => cell :: select r columns
    | None => select r columns
    end.
Proof. done. Qed.

Lemma select_range (r : row) (k n : nat) :
  select r (Z.of_nat <$> seq k n) = take n (drop k r).
Proof.
  revert k. induction n as [|n IH]; intros k; [done|].
  cbn [seq fmap list_fmap]. rewrite select_cons.
  rewrite bool_decide_eq_true_2 by lia. rewrite Nat2Z.id.
  specialize (IH (S k)). change (list_fmap nat Z Z.of_nat (seq (S k) n))
    with (Z.of_nat <$> seq (S k) n). rewrite IH.
  destruct (r !! k) as [cell|] eqn:Hk.
  - by rewrite (drop_S _ _ _ Hk).
  - apply lookup_ge_None in Hk. by rewrite !drop_ge, !take_nil by lia.
Qed.

(** X10: projecting on a range of consecutive indices gives that slice
    of the row ([row[k:k+n]]); on all the indices of the row it gives the
    row back. *)
Theorem project_range (r : row) (k n : nat) :
  project r (Z.of_nat <$> seq k n) = Ret (take n (drop k r)) ∧
  project r (Z.of_nat <$> seq 0 (length r)) = Ret r.
Proof.
  rewrite !project_select, !select_range. split; [done|].
  by rewrite drop_0, firstn_all.
Qed.

(** X11: projecting on two index lists put end to end gives the two
    projections put end to end. *)
Theorem project_app (r : row) (columns1 columns2 : list Z) :
  ∃ cells1 cells2,
    project r columns1 = Ret cells1 ∧
    project r columns2 = Ret cells2 ∧
    project r (columns1 ++ columns2) = Ret (cells1 ++ cells2).
Proof.
  exists (select r columns1), (select r columns2).
  rewrite !project_select. split_and!; [done..|].
  unfold select. by rewrite omap_app.
Qed.

Lemma select_map (f : list N → list N) (r : row) (columns : list Z) :
  select (map f r) columns = map f (select r columns).
Proof.
  induction columns as [|i columns IH]; [done|].
  rewrite !select_cons, IH. case_bool_decide; [|done].
  change (map f r) with (f <$> r). rewrite list_lookup_fmap.
  by destruct (r !! Z.to_nat i).
Qed.

(** X12: cleaning and projecting commute: the cells that
    [filter_csv_columns] writes for a row (projected, then cleaned) are
    the projection of the row with every cell cleaned. *)
Theorem project_clean_commute (r : row) (columns : list Z) :
  ∃ cells,
    project r columns = Ret cells ∧
    project (map _clean_text r) columns = Ret (map _clean_text cells).
Proof.
  exists (select r columns). by rewrite !project_select, select_map.
Qed.

Lemma select_length (r : row) (columns : list Z) :
  length (select r columns) ≤ length columns.
Proof.
  induction columns as [|i columns IH]; [done|].
  rewrite select_cons. destruct (if bool_decide _ then _ else _); simpl; lia.
Qed.

(** ** [filter_csv_columns] in every case *)



(** X14: a call of [filter_csv_columns] (of either script) changes no
    file other than the output file. *)
Theorem filter_csv_columns_frame (input output : string) (columns : list Z)
    (w : world) (path : string) :
  path ≠ output →
  files (Questionnaire.filter_csv_columns input output columns w).2 !! path
    = files w !! path ∧
  files (TaskData.filter_csv_columns input output columns w).2 !! path
    = files w !! path.
Proof.
  intros Hp. rewrite questionnaire_call, task_data_call. cbn [snd].
  split; by apply after_call_frame.
Qed.

Lemma filter_csv_columns_frame_witness :
  let w := World {[ "in.csv" := File [[py "h"]; [py "x"]] None;
                    "other.csv" := File [[py "keep"]] None ]} {[ "" ]} [] in
  files (Questionnaire.filter_csv_columns "in.csv" "out.csv" [0%Z] w).2 !! "other.csv"
    = files w !! "other.csv" ∧
  files (TaskData.filter_csv_columns "in.csv" "out.csv" [0%Z] w).2 !! "other.csv"
    = files w !! "other.csv".
Proof.
  intros w. by apply (filter_csv_columns_frame "in.csv" "out.csv" [0%Z] w "other.csv").
Defined.

(** X15: when the output path is the input path and the file exists, the
    file is emptied before it is read: whatever it held, the call (of
    either script) reports it as empty and leaves it with no row. *)
Theorem filter_csv_columns_same_path (path : string) (columns : list Z) (w : world)
    (content : file) :
  files w !! path = Some content →
  let w' := World (<[path := File [] None]> (files w)) (dirs w)
                  (stdout w ++ ["Error: '" +:+ path +:+ "' is empty."]) in
  Questionnaire.filter_csv_columns path path columns w = (Ret (), w') ∧
  TaskData.filter_csv_columns path path columns w = (Ret (), w').
Proof.
  intros Hin w'. assert (writable w path) as Hout by (left; by eexists).
  rewrite questionnaire_call, task_data_call.
  rewrite !(after_call_open _ _ _ _ _ Hin Hout). by rewrite decide_True.
Qed.

Lemma filter_csv_columns_same_path_witness :
  let w := World {[ "data.csv" := File [[py "h"]; [py "x"]; [py "y"]] None ]} ∅ [] in
  let w' := World (<["data.csv" := File [] None]> (files w)) (dirs w)
                  (stdout w ++ ["Error: '" +:+ "data.csv" +:+ "' is empty."]) in
  Questionnaire.filter_csv_columns "data.csv" "data.csv" [0%Z] w = (Ret (), w') ∧
  TaskData.filter_csv_columns "data.csv" "data.csv" [0%Z] w = (Ret (), w').
Proof.
  intros w.
  by apply (filter_csv_columns_same_path "data.csv" [0%Z] w
              (File [[py "h"]; [py "x"]; [py "y"]] None)).
Defined.

(** X16: calling [filter_csv_columns] (of either script) a second time
    with the same arguments leaves the files as the first call left them. *)
Theorem filter_csv_columns_rerun (input output : string) (columns : list Z) (w : world) :
  (let w1 := (Questionnaire.filter_csv_columns input output columns w).2 in
   files (Questionnaire.filter_csv_columns input output columns w1).2 = files w1) ∧
  (let w1 := (TaskData.filter_csv_columns input output columns w).2 in
   files (TaskData.filter_csv_columns input output columns w1).2 = files w1).
Proof.
  split; intros w1; subst w1.
  - rewrite !questionnaire_call. cbn [snd]. apply after_call_again.
  - rewrite !task_data_call. cbn [snd]. apply after_call_again.
Qed.

(** X17: when the input file is read to its end and the output file can
    be opened for writing (at a path other than the input path),
    [questionnaire.py] writes as many rows as it reads (the header and
    every data row, none dropped), and no row it writes has more cells
    than there are indices in [columns]. *)
Theorem questionnaire_row_count (input output : string) (columns : list Z)
    (w : world) (table : list row) :
  input ≠ output →
  files w !! input = Some (File table None) →
  writable w output →
  table ≠ [] →
  ∃ out,
    files (Questionnaire.filter_csv_columns input output columns w).2 !! output
      = Some (File out None) ∧
    length out = length table ∧
    Forall (λ r, length r ≤ length columns) out.
Proof.
  intros Hne Hin Hout Ht. destruct table as [|header rows]; [done|].
  rewrite questionnaire_call, (after_call_open _ _ _ _ _ Hin Hout).
  rewrite decide_False by done. cbn [snd files questionnaire_result file_rows file_error fst].
  eexists. split; [apply lookup_insert_eq|]. split.
  - unfold written. simpl. by rewrite length_map.
  - constructor; [apply select_length|].
    apply Forall_forall. intros r (r' & -> & _)%list_elem_of_fmap.
    rewrite length_map. apply select_length.
Qed.

Lemma questionnaire_row_count_witness :
  let table := [[py "id"; py "note"]; [py "1"]; []; [py "3"; py "<b>x</b>"; py "more"]] in
  let w := World {[ "in.csv" := File table None ]} {[ "" ]} [] in
  ∃ out,
    files (Questionnaire.filter_csv_columns "in.csv" "out.csv" [1; 0]%Z w).2 !! "out.csv"
      = Some (File out None) ∧
    length out = length table ∧
    Forall (λ r, length r ≤ length [1; 0]%Z) out.
Proof.
  intros table w.
  apply (questionnaire_row_count "in.csv" "out.csv" [1; 0]%Z w table); [done..| |done].
  right. subst w. cbn [dirs]. by apply elem_of_singleton_2.
Defined.

(** ** When a file cannot be opened or read *)

(** X20: when the input file exists but the output file cannot be opened
    for writing (no file stands at the output path and its directory does
    not exist), [open] raises [FileNotFoundError] for the output file; both
    scripts then print the not-found line, which names the input file, and
    change no file. *)
Theorem unwritable_output_reported (input output : string) (columns : list Z)
    (w : world) (f : file) :
  files w !! input = Some f →
  files w !! output = None →
  dirname output ∉ dirs w →
  let w' := World (files w) (dirs w)
                  (stdout w ++ ["Error: File '" +:+ input +:+ "' not found."]) in
  Questionnaire.filter_csv_columns input output columns w = (Ret (), w') ∧
  TaskData.filter_csv_columns input output columns w = (Ret (), w').
Proof.
  intros Hin Hout Hdir w'.
  assert (¬ writable w output) as Hw.
  { intros [[? H]|H]; [by rewrite Hout in H|done]. }
  rewrite questionnaire_call, task_data_call.
  by rewrite !after_call_unwritable.
Qed.

Lemma unwritable_output_reported_witness :
  let w := World {[ "in.csv" := File [[py "h"]; [py "x"]] None ]} {[ "" ]} [] in
  let w' := World (files w) (dirs w)
                  (stdout w ++ ["Error: File '" +:+ "in.csv" +:+ "' not found."]) in
  Questionnaire.filter_csv_columns "in.csv" "output/out.csv" [0%Z] w = (Ret (), w') ∧
  TaskData.filter_csv_columns "in.csv" "output/out.csv" [0%Z] w = (Ret (), w').
Proof.
  intros w.
  apply (unwritable_output_reported "in.csv" "output/out.csv" [0%Z] w
           (File [[py "h"]; [py "x"]] None)); [done..|].
  subst w. cbn [dirs]. intros H. by apply elem_of_singleton_1 in H.
Defined.

(** X21: when the reader raises [csv.Error] or [UnicodeDecodeError]
    after the header and some data rows, both scripts print [Error: ]
    followed by the text of the exception and return without raising.
    What has been written stays: [questionnaire.py] leaves the header and
    every row read before the error, [task_data.py], which collects the
    rows before it writes any, leaves the header alone. *)
Theorem read_error_reported (input output : string) (columns : list Z)
    (w : world) (header : row) (rows : list row) (e : read_error) :
  input ≠ output →
  files w !! input = Some (File (header :: rows) (Some e)) →
  writable w output →
  Questionnaire.filter_csv_columns input output columns w
  = (Ret (),
     World (<[output := File (select header columns
                              :: map (λ r, map _clean_text (select r columns)) rows)
                             None]> (files w))
           (dirs w)
           (stdout w ++ ["Error: " +:+ exn_message (raised e)])) ∧
  TaskData.filter_csv_columns input output columns w
  = (Ret (),
     World (<[output := File [select header columns] None]> (files w))
           (dirs w)
           (stdout w ++ ["Error: " +:+ exn_message (raised e)])).
Proof.
  intros Hne Hin Hout. rewrite questionnaire_call, task_data_call.
  rewrite !(after_call_open _ _ _ _ _ Hin Hout).
  by rewrite decide_False by done.
Qed.

Lemma read_error_reported_witness :
  let e := csv_error "field larger than field limit (131072)" in
  let w := World {[ "in.csv" := File [[py "h"]; [py "<i>x</i>"]] (Some e) ]} {[ "" ]} [] in
  Questionnaire.filter_csv_columns "in.csv" "out.csv" [0%Z] w
  = (Ret (),
     World (<["out.csv" := File (select [py "h"] [0%Z]
                                 :: map (λ r, map _clean_text (select r [0%Z]))
                                      [[py "<i>x</i>"]])
                                None]> (files w))
           (dirs w)
           (stdout w ++ ["Error: " +:+ exn_message (raised e)])) ∧
  TaskData.filter_csv_columns "in.csv" "out.csv" [0%Z] w
  = (Ret (),
     World (<["out.csv" := File [select [py "h"] [0%Z]] None]> (files w))
           (dirs w)
           (stdout w ++ ["Error: " +:+ exn_message (raised e)])).
Proof.
  intros e w.
  apply (read_error_reported "in.csv" "out.csv" [0%Z] w [py "h"] [[py "<i>x</i>"]] e);
    [done..|].
  right. subst w. cbn [dirs]. by apply elem_of_singleton_2.
Defined.

(** ** The drivers *)

(** X18: the driver of [task_data.py] returns without raising and prints
    exactly two lines, one for each file, whether or not the first call
    succeeded; each of its two output files is left as a call on that file
    alone would leave it, and no other file is changed.  The driver of
    [questionnaire.py] returns without raising, prints one line and
    changes no file other than its output file. *)
Theorem drivers_report (w : world) :
  (∃ w' line1 line2,
     TaskData.main w = (Ret (), w') ∧
     stdout w' = stdout w ++ [line1; line2] ∧
     files w' !! TaskData.output_csv_1
       = files (TaskData.filter_csv_columns TaskData.input_csv_1 TaskData.output_csv_1
                  TaskData.columns_to_keep w).2 !! TaskData.output_csv_1 ∧
     files w' !! TaskData.output_csv_2
       = files (TaskData.filter_csv_columns TaskData.input_csv_2 TaskData.output_csv_2
                  TaskData.columns_to_keep w).2 !! TaskData.output_csv_2 ∧
     ∀ path, path ≠ TaskData.output_csv_1 → path ≠ TaskData.output_csv_2 →
             files w' !! path = files w !! path) ∧
  (∃ w' line,
     Questionnaire.main w = (Ret (), w') ∧
     stdout w' = stdout w ++ [line] ∧
     ∀ path, path ≠ Questionnaire.output_csv → files w' !! path = files w !! path).
Proof.
  split.
  - unfold TaskData.main. rewrite io_bind_unfold, task_data_call, task_data_call.
    set (r1 := task_data_result TaskData.input_csv_1 TaskData.output_csv_1
                 TaskData.columns_to_keep).
    set (r2 := task_data_result TaskData.input_csv_2 TaskData.output_csv_2
                 TaskData.columns_to_keep).
    set (w1 := after_call r1 TaskData.input_csv_1 TaskData.output_csv_1 w).
    destruct (after_call_stdout r1 TaskData.input_csv_1 TaskData.output_csv_1 w)
      as (line1 & Hs1 & _).
    destruct (after_call_stdout r2 TaskData.input_csv_2 TaskData.output_csv_2 w1)
      as (line2 & Hs2 & _).
    eexists _, line1, line2. split_and!.
    + done.
    + rewrite Hs2. unfold w1. by rewrite Hs1, <-(assoc_L (++)).
    + rewrite after_call_frame by done. done.
    + rewrite (task_data_call TaskData.input_csv_2 _ _ w). cbn [snd].
      apply after_call_local.
      * by apply after_call_frame.
      * by apply after_call_frame.
      * apply after_call_dirs.
    + intros path Hp1 Hp2. rewrite after_call_frame by done.
      unfold w1. by rewrite after_call_frame.
  - unfold Questionnaire.main. rewrite questionnaire_call.
    destruct (after_call_stdout
                (questionnaire_result Questionnaire.input_csv Questionnaire.output_csv
                   Questionnaire.columns_to_keep)
                Questionnaire.input_csv Questionnaire.output_csv w) as (line & Hs & _).
    eexists _, line. split_and!; [done..|].
    intros path Hp. by apply after_call_frame.
Qed.

(** X19: with the columns that the driver of [task_data.py] keeps, every
    row that the sampler keeps projects to 10 or 11 cells, and the 10th of
    them is the row's value in column 51: a kept row has at least 52
    cells, so only the last index, 57, can be out of range. *)
Theorem task_data_kept_row_width (rows kept : list row) (r : row) :
  TaskData.run_sampler rows = Ret kept →
  r ∈ kept →
  ∃ cells,
    project r TaskData.columns_to_keep = Ret cells ∧
    (length cells = 10 ∨ length cells = 11) ∧
    cells !! 9 = r !! 51.
Proof.
  intros Hkept Hr.
  destruct (run_sampler_total rows) as (kept' & Hkept' & Hs).
  rewrite Hkept in Hkept'. injection Hkept' as <-.
  pose proof (sampled_keys _ _ Hs) as Hall.
  rewrite Forall_forall in Hall. destruct (Hall r Hr) as (num & Hlen%lookup_lt_Some & _).
  rewrite project_select. eexists. split; [done|].
  unfold select, TaskData.columns_to_keep. cbn [omap list_omap].
  repeat match goal with
         | |- context [bool_decide (0 ≤ ?i)%Z] =>
             rewrite (bool_decide_eq_true_2 (0 ≤ i)%Z) by lia
         end.
  repeat match goal with
         | |- context [Z.to_nat ?z] =>
             let n := eval vm_compute in (Z.to_nat z) in change (Z.to_nat z) with n
         end.
  repeat match goal with
         | |- context [r !! ?i] =>
             let c := fresh "c" in
             destruct (lookup_lt_is_Some_2 r i) as [c ->]; [simpl; lia|]
         end.
  destruct (r !! 57); auto.
Qed.

Lemma task_data_kept_row_width_witness :
  let r := keyed "a" (py "7") in
  ∃ cells,
    project r TaskData.columns_to_keep = Ret cells ∧
    (length cells = 10 ∨ length cells = 11) ∧
    cells !! 9 = r !! 51.
Proof.
  intros r.
  apply (task_data_kept_row_width
           (map (λ l, keyed l (py "7")) ["a"; "b"; "c"; "d"; "e"])
           [keyed "a" (py "7"); keyed "d" (py "7")] r).
  - by vm_compute.
  - left.
Defined.
